(** * FRP bond-strength predictor: a shallow embedding of [prediction_app.py]

    The development follows the handlers of the application: [predict]
    (single prediction from the form), [batch_predict] with its worker
    [run_prediction] (prediction over a spreadsheet), [browse_file] and
    [set_language].  The pickled scaler and model, pandas' reader and
    writer, the dialogs and the builtin [float] are collaborators of the
    program; they are the fields of the class [Collaborators].  A handler
    is a computation on the state of the globals and widgets that returns
    or raises; everything it does to a widget or to a collaborator is an
    event, recorded in a trace. *)

From Stdlib Require Import String Ascii List ZArith Lia Bool Arith.
From Stdlib Require Import Decimal DecimalString DecimalNat.
From Stdlib Require DecimalFacts.
From Stdlib Require Import QArith Qround FinFun.
Import ListNotations.
Close Scope Q_scope.
Open Scope nat_scope.
Open Scope string_scope.

(** ** Python strings *)

Module PyStr.

(** [s.split(sep)] for a one-character separator: never an empty list. *)
Fixpoint split (sep : ascii) (s : string) : list string :=
  match s with
  | EmptyString => [EmptyString]
  | String c r =>
      if Ascii.eqb c sep then EmptyString :: split sep r
      else match split sep r with
           | seg :: segs => String c seg :: segs
           | [] => [String c EmptyString]
           end
  end.

(** [xs[-1]] on the result of a split. *)
Definition last_item (xs : list string) : string := List.last xs EmptyString.

Fixpoint lstrip (p : ascii -> bool) (s : string) : string :=
  match s with
  | EmptyString => EmptyString
  | String c r => if p c then lstrip p r else s
  end.

Definition reverse (s : string) : string :=
  string_of_list_ascii (List.rev (list_ascii_of_string s)).

Definition rstrip (p : ascii -> bool) (s : string) : string :=
  reverse (lstrip p (reverse s)).

(** [s.strip(chars)]: both ends. *)
Definition strip (p : ascii -> bool) (s : string) : string :=
  rstrip p (lstrip p s).

Definition is_char (c : ascii) : ascii -> bool := Ascii.eqb c.

(** The white space that [int()] and [float()] skip around ASCII text:
    the space and the characters 9 to 13.  (The separators 28 to 31 are
    white space for [str.strip()] only.) *)
Definition is_space (c : ascii) : bool :=
  let n := nat_of_ascii c in
  Nat.eqb n 32 || (Nat.leb 9 n && Nat.leb n 13).

Definition digit_value (c : ascii) : option Z :=
  let n := nat_of_ascii c in
  if Nat.leb 48 n && Nat.leb n 57 then Some (Z.of_nat (n - 48)) else None.

(** Decimal digits with single underscores between digits, as [int()]
    reads them; [after_digit] tells whether the previous character was a
    digit. *)
Fixpoint digits (after_digit : bool) (acc : Z) (s : string) : option Z :=
  match s with
  | EmptyString => if after_digit then Some acc else None
  | String c r =>
      match digit_value c with
      | Some d => digits true (10 * acc + d) r
      | None =>
          if Ascii.eqb c "_" && after_digit then digits false acc r else None
      end
  end.

(** The characters of the decimal digits. *)
Definition digit_chars : list ascii := list_ascii_of_string "0123456789".

(** [int(s)] on ASCII text; [None] where Python raises [ValueError]. *)
Definition int (s : string) : option Z :=
  match strip is_space s with
  | String "-" r => option_map Z.opp (digits false 0 r)
  | String "+" r => digits false 0 r
  | r => digits false 0 r
  end.

(** [str(n)] for a natural number. *)
Definition str_nat (n : nat) : string :=
  NilEmpty.string_of_uint (Nat.to_uint n).

(** [str(z)] for an integer. *)
Definition str_int (z : Z) : string :=
  match z with
  | Zneg p => String "-" (str_nat (Pos.to_nat p))
  | _ => str_nat (Z.to_nat z)
  end.

(** [s.startswith(p)]. *)
Definition startswith (p s : string) : bool := String.prefix p s.

(** [os.path.basename(path)] with the POSIX separator. *)
Definition basename (path : string) : string := last_item (split "/" path).

(** Truth value of a string: non-empty. *)
Definition truthy (s : string) : bool :=
  match s with EmptyString => false | _ => true end.

End PyStr.

(** ** The translation tables *)

Inductive language := en | zh.

Definition language_eqb (a b : language) : bool :=
  match a, b with en, en | zh, zh => true | _, _ => false end.

Record translation := {
  labels : list string;
  result_prefix : string;
  browse : string;
  batch_status_initial : string;
  batch_status_select : string;
  batch_status_start : string;
  batch_status_reading : string;
  batch_status_scaling : string;
  batch_status_predicting : string;
  batch_status_saving : string;
  success_save : string;
  warning_no_file : string;
  warning_no_file_msg : string;
  error_input : string;
  error_occurred : string;
  success : string;
  error_title : string;
  FM_values : list (string * Z);
  FT_values : list (string * Z);
  BS_values : list (string * Z)
}.

Definition translations (l : language) : translation :=
  match l with
  | en => {|
      labels := [ "T (Temperature)"; "FM (Failure Mode)"; "FT (FRP Type)";
                  "BS (FRP Bar Surface)"; "d (FRP Bar Diameter)";
                  "la (Anchorage Length)";
                  "fc (Concrete Compressive Strength)";
                  "c/d (Concrete Cover / Bar Diameter)" ];
      result_prefix := "Predicted τu: ";
      browse := "Browse";
      batch_status_initial := "";
      batch_status_select := "File selected. Ready to start batch prediction.";
      batch_status_start := "Starting batch prediction...";
      batch_status_reading := "Reading file...";
      batch_status_scaling := "Scaling input data...";
      batch_status_predicting := "Performing prediction...";
      batch_status_saving := "Saving prediction results...";
      success_save := "Batch prediction completed. Results saved to ";
      warning_no_file := "No file selected";
      warning_no_file_msg := "Please select an Excel file for batch prediction.";
      error_input := "Input Error: Please ensure all fields contain valid numbers.";
      error_occurred := "An error occurred:";
      success := "Success";
      error_title := "Error";
      FM_values := [ ("FRP-sand layer debonding", 1%Z); ("FRP bar pullout", 2%Z);
                     ("Concrete shear failure", 3%Z); ("FRP bar rupture", 4%Z);
                     ("Concrete splitting", 5%Z) ];
      FT_values := [ ("GFRP", 1%Z); ("CFRP", 2%Z); ("BFRP", 3%Z) ];
      BS_values := [ ("Sand-coated", 1%Z); ("Fiber-wrapped sand-coated", 2%Z);
                     ("Ribbed", 3%Z); ("Fiber-wrapped", 4%Z);
                     ("Sand-coated ribbed", 5%Z) ]
    |}
  | zh => {|
      labels := [ "T (温度)"; "FM (失效模式)"; "FT (FRP类型)";
                  "BS (FRP钢筋表面)"; "d (FRP钢筋直径)"; "la (锚固长度)";
                  "fc (混凝土抗压强度)"; "c/d (混凝土覆盖/钢筋直径)" ];
      result_prefix := "预测 τu: ";
      browse := "浏览";
      batch_status_initial := "";
      batch_status_select := "文件已选择。准备开始批量预测。";
      batch_status_start := "开始批量预测...";
      batch_status_reading := "正在读取文件...";
      batch_status_scaling := "正在缩放输入数据...";
      batch_status_predicting := "正在进行预测...";
      batch_status_saving := "正在保存预测结果...";
      success_save := "批量预测完成，结果已保存到 ";
      warning_no_file := "未选择文件";
      warning_no_file_msg := "请选择一个Excel文件进行批量预测。";
      error_input := "输入错误: 请确保所有字段包含有效数字。";
      error_occurred := "发生错误:";
      success := "成功";
      error_title := "错误";
      FM_values := [ ("FRP沙层脱粘", 1%Z); ("FRP钢筋拔出", 2%Z);
                     ("混凝土剪切破坏", 3%Z); ("FRP钢筋断裂", 4%Z);
                     ("混凝土劈裂", 5%Z) ];
      FT_values := [ ("GFRP", 1%Z); ("CFRP", 2%Z); ("BFRP", 3%Z) ];
      BS_values := [ ("砂涂层", 1%Z); ("纤维包裹砂涂层", 2%Z); ("肋纹", 3%Z);
                     ("纤维包裹", 4%Z); ("砂涂层肋纹", 5%Z) ]
    |}
  end.

(** ** The form of the single prediction *)

(** The two kinds of input the loop of [predict] tells apart with
    [isinstance(var, tk.StringVar)]: the variable of a read-only combobox
    and a free text entry.  Each carries the text [var.get()] returns. *)
Inductive widget :=
| StringVar (text : string)
| Entry (text : string).

(** The three categorical features. *)
Inductive combobox_type := FM | FT | BS.

Definition combobox_type_eqb (a b : combobox_type) : bool :=
  match a, b with FM, FM | FT, FT | BS, BS => true | _, _ => false end.

Definition combobox_of_label (label : string) : option combobox_type :=
  if PyStr.startswith "FM" label then Some FM
  else if PyStr.startswith "FT" label then Some FT
  else if PyStr.startswith "BS" label then Some BS
  else None.

Definition lang_values (t : translation) (k : combobox_type) : list (string * Z) :=
  match k with FM => FM_values t | FT => FT_values t | BS => BS_values t end.

(** The f-string [f"{desc} ({val})"]. *)
Definition format_value (dv : string * Z) : string :=
  fst dv ++ " (" ++ PyStr.str_int (snd dv) ++ ")".

(** The entries of a combobox's drop-down list. *)
Definition combobox_values (t : translation) (k : combobox_type) : list string :=
  map format_value (lang_values t k).

(** The enumerated codes of a categorical feature. *)
Definition codes (k : combobox_type) : list Z :=
  map snd (lang_values (translations en) k).

(** What the user has done to the form: the option picked in each combobox
    and the text typed in each entry. *)
Record form_input := {
  pick : combobox_type -> nat;
  typed : nat -> string
}.

(** The list [variables] as the construction loop builds it from the labels
    (positions are those of the labels), with the picks and texts of [f]. *)
Definition variables_of (l : language) (f : form_input) : list widget :=
  map (fun ilabel : nat * string =>
         match combobox_of_label (snd ilabel) with
         | Some k => StringVar (nth (pick f k) (combobox_values (translations l) k) "")
         | None => Entry (typed f (fst ilabel))
         end)
      (combine (seq 0 (length (labels (translations l)))) (labels (translations l))).

(** The code of the option picked for a categorical feature. *)
Definition picked (f : form_input) (k : combobox_type) : Z :=
  nth (pick f k) (codes k) 0%Z.

Definition valid_pick (f : form_input) : Prop :=
  forall k, pick f k < length (lang_values (translations en) k).

(** ** Exceptions *)

(** The classes of [Exception] the handlers can meet.  [except ValueError]
    selects on the class; [str(e)] is the message. *)
Inductive exc_class :=
| ValueError | IndexError | KeyError | TypeError | OSError | RuntimeError.

Record exn := { exc : exc_class; exc_msg : string }.

Definition isinstance_ValueError (e : exn) : bool :=
  match exc e with ValueError => true | _ => false end.

Inductive result (A : Type) :=
| Ok (a : A)
| Raised (e : exn).
Arguments Ok {A} a.
Arguments Raised {A} e.

(** ** Widgets and labels of a table *)

Inductive button := batch_button | browse_button.
Inductive button_state := normal | disabled.

(** A column label: the positions [0, 1, ...] a header-less sheet gets, or
    a string. *)
Inductive label :=
| LInt (n : nat)
| LStr (s : string).

Definition label_eqb (a b : label) : bool :=
  match a, b with
  | LInt n, LInt m => Nat.eqb n m
  | LStr s, LStr t => String.eqb s t
  | _, _ => false
  end.

(** [Index.astype(str)] on one label. *)
Definition astype_str (l : label) : label :=
  match l with
  | LInt n => LStr (PyStr.str_nat n)
  | LStr s => LStr s
  end.

(** The label of the appended column. *)
Definition predicted_column : label := LStr "Predicted τu (MPa)".

Section Values.

(** Python's [float] values. *)
Context {float : Type}.

(** A two-dimensional array: a list of rows. *)
Definition matrix := list (list float).

(** *** Values and tables *)

(** The numbers [predict] collects in [input_values]. *)
Inductive pynumber :=
| PyInt (z : Z)
| PyFloat (x : float).

(** A Python object found in a cell of a table. *)
Inductive pyobject :=
| ObjInt (z : Z)
| ObjFloat (x : float)
| ObjBool (b : bool)
| ObjStr (s : string)
| ObjTimestamp (t : Z)
| ObjNone.

(** [isinstance(v, numbers.Number)]: [bool] is a subclass of [int]. *)
Definition is_number (v : pyobject) : bool :=
  match v with
  | ObjInt _ | ObjFloat _ | ObjBool _ => true
  | ObjStr _ | ObjTimestamp _ | ObjNone => false
  end.

Inductive dtype := int64 | float64 | bool_ | object_ | datetime64.

(** A column: a typed array.  Only an [object_] column can hold text. *)
Inductive Series :=
| Int64 (values : list Z)
| Float64 (values : list float)
| Bool (values : list bool)
| Object (values : list pyobject)
| Datetime64 (values : list Z).

Definition series_dtype (s : Series) : dtype :=
  match s with
  | Int64 _ => int64
  | Float64 _ => float64
  | Bool _ => bool_
  | Object _ => object_
  | Datetime64 _ => datetime64
  end.

(** [pd.api.types.is_numeric_dtype]: numbers and booleans. *)
Definition is_numeric_dtype (s : Series) : bool :=
  match series_dtype s with
  | int64 | float64 | bool_ => true
  | object_ | datetime64 => false
  end.

(** The value at row [i] of a column, as a Python object. *)
Definition cell (s : Series) (i : nat) : option pyobject :=
  match s with
  | Int64 l => option_map ObjInt (nth_error l i)
  | Float64 l => option_map ObjFloat (nth_error l i)
  | Bool l => option_map ObjBool (nth_error l i)
  | Object l => nth_error l i
  | Datetime64 l => option_map ObjTimestamp (nth_error l i)
  end.

Record DataFrame := {
  index : nat;                       (* the number of rows *)
  frame : list (label * Series)      (* the columns, left to right *)
}.

Definition columns (df : DataFrame) : list label := map fst (frame df).

(** [df.columns = new_labels]. *)
Definition set_columns (df : DataFrame) (new_labels : list label) : DataFrame :=
  {| index := index df; frame := combine new_labels (map snd (frame df)) |}.

(** [df[col]] for one label: the first column that carries it. *)
Fixpoint lookup (cols : list (label * Series)) (col : label) : option Series :=
  match cols with
  | [] => None
  | (l, s) :: rest => if label_eqb l col then Some s else lookup rest col
  end.

Definition key_error (col : label) : exn :=
  {| exc := KeyError;
     exc_msg := match col with LInt n => PyStr.str_nat n | LStr s => s end |}.

Definition getitem (df : DataFrame) (col : label) : result Series :=
  match lookup (frame df) col with
  | Some s => Ok s
  | None => Raised (key_error col)
  end.

(** [df[cols]] for a list of labels. *)
Fixpoint getitem_list (df : DataFrame) (cols : list label) : result (list (label * Series)) :=
  match cols with
  | [] => Ok []
  | c :: rest =>
      match getitem df c with
      | Raised e => Raised e
      | Ok s =>
          match getitem_list df rest with
          | Raised e => Raised e
          | Ok ss => Ok ((c, s) :: ss)
          end
      end
  end.

Fixpoint replace_column (cols : list (label * Series)) (col : label) (s : Series)
  : list (label * Series) :=
  match cols with
  | [] => []
  | (l, old) :: rest =>
      if label_eqb l col then (l, s) :: rest
      else (l, old) :: replace_column rest col s
  end.

(** [df[col] = values]: the length must be that of the index; an existing
    column is overwritten, a new one goes last. *)
Definition setitem (df : DataFrame) (col : label) (values : list float)
  : result DataFrame :=
  if Nat.eqb (length values) (index df) then
    Ok {| index := index df;
          frame := match lookup (frame df) col with
                   | Some _ => replace_column (frame df) col (Float64 values)
                   | None => frame df ++ [(col, Float64 values)]
                   end |}
  else
    Raised {| exc := ValueError;
              exc_msg := "Length of values (" ++ PyStr.str_nat (length values)
                         ++ ") does not match length of index ("
                         ++ PyStr.str_nat (index df) ++ ")" |}.

(** The frame [pd.read_excel(path, header=None)] builds from the rows
    and columns of a sheet: the labels are the positions. *)
Definition frame_of_sheet (nrows : nat) (cols : list Series) : DataFrame :=
  {| index := nrows;
     frame := combine (map LInt (seq 0 (length cols))) cols |}.

(** *** Effects *)

(** What a handler does to the outside, in the order it does it. *)
Inductive event :=
| ResultLabel (text : string)
| BatchStatus (text : string)
| ButtonConfig (b : button) (s : button_state)
| ProgressStart
| ProgressStop
| LogInfo (msg : string)
| LogError (msg : string)
| ShowInfo (title msg : string)
| ShowWarning (title msg : string)
| ShowError (title msg : string)
| ReadExcel (path : string)
| ScalerTransform (X : matrix)
| ModelPredict (X : matrix)
| AskSaveAs (title initialfile : string)
| ToExcel (path : string) (df : DataFrame)
| AskOpen (title : string)
| SelectedFile (path : string)
| Language (l : language)
| Combobox (k : combobox_type) (values : list string).

(** The globals and the visible state of the widgets, and the trace of
    the events so far (oldest first). *)
Record world := {
  current_language : language;
  variables : list widget;
  selected_file : string;
  result_label : string;
  batch_status : string;
  batch_button_state : button_state;
  browse_button_state : button_state;
  progress_running : bool;
  trace : list event
}.

(** [combo.current(i)] on the combobox of feature [k]: its variable, which
    sits in [variables] at the position of the label of [k], takes the
    text of the option. *)
Definition set_combobox (k : combobox_type) (text : string) (vars : list widget)
  : list widget :=
  map (fun lv : string * widget =>
         match combobox_of_label (fst lv) with
         | Some k' => if combobox_type_eqb k' k then StringVar text else snd lv
         | None => snd lv
         end)
      (combine (labels (translations zh)) vars).

(** The effect of one event on the visible state.  [Combobox k values]
    stands for [combo['values'] = values; combo.current(0)]. *)
Definition apply_event (ev : event) (w : world) : world :=
  {| current_language :=
       match ev with Language l => l | _ => current_language w end;
     variables :=
       match ev with
       | Combobox k values => set_combobox k (nth 0 values "") (variables w)
       | _ => variables w
       end;
     selected_file :=
       match ev with SelectedFile path => path | _ => selected_file w end;
     result_label := match ev with ResultLabel t => t | _ => result_label w end;
     batch_status := match ev with BatchStatus t => t | _ => batch_status w end;
     batch_button_state :=
       match ev with
       | ButtonConfig batch_button s => s
       | _ => batch_button_state w
       end;
     browse_button_state :=
       match ev with
       | ButtonConfig browse_button s => s
       | _ => browse_button_state w
       end;
     progress_running :=
       match ev with
       | ProgressStart => true
       | ProgressStop => false
       | _ => progress_running w
       end;
     trace := trace w ++ [ev] |}.

(** A computation of a handler: it reads and changes the world and
    returns or raises. *)
Definition M (A : Type) : Type := world -> result A * world.

Definition ret {A} (a : A) : M A := fun w => (Ok a, w).

Definition bind {A B} (m : M A) (k : A -> M B) : M B :=
  fun w =>
    match m w with
    | (Ok a, w') => k a w'
    | (Raised e, w') => (Raised e, w')
    end.

Definition raise {A} (e : exn) : M A := fun w => (Raised e, w).

Definition lift {A} (r : result A) : M A := fun w => (r, w).

Definition emit (ev : event) : M unit := fun w => (Ok tt, apply_event ev w).

Definition ask {A} (f : world -> A) : M A := fun w => (Ok (f w), w).

(** [try: body / except Exception as e: handler e]. *)
Definition try_except {A} (body : M A) (handler : exn -> M A) : M A :=
  fun w =>
    match body w with
    | (Ok a, w') => (Ok a, w')
    | (Raised e, w') => handler e w'
    end.

(** [try: body / finally: cleanup]. *)
Definition try_finally {A} (body : M A) (cleanup : M unit) : M A :=
  fun w =>
    match body w with
    | (r, w') =>
        match cleanup w' with
        | (Ok _, w'') => (r, w'')
        | (Raised e, w'') => (Raised e, w'')
        end
    end.


Definition lang_of (w : world) : translation := translations (current_language w).

(** The world after a list of events. *)
Definition play (evs : list event) (w : world) : world :=
  fold_left (fun w' ev => apply_event ev w') evs w.

(** Events that leave the language and the form alone. *)
Definition keeps_form (ev : event) : Prop :=
  match ev with
  | Language _ | Combobox _ _ => False
  | _ => True
  end.

(** A computation acts on the world through events only, all of them
    satisfy [P], and a value it returns satisfies [Q]. *)
Definition emits {A} (P : event -> Prop) (Q : A -> Prop) (m : M A) : Prop :=
  forall w, exists evs,
    snd (m w) = play evs w /\ Forall P evs /\ (forall a, fst (m w) = Ok a -> Q a).

End Values.

Arguments pynumber : clear implicits.
Arguments pyobject : clear implicits.
Arguments Series : clear implicits.
Arguments DataFrame : clear implicits.
Arguments matrix : clear implicits.
Arguments event : clear implicits.
Arguments world : clear implicits.
Arguments M : clear implicits.

Notation "x <- m ;; k" := (bind m (fun x => k))
  (at level 61, m at next level, right associativity).
Notation "m ;; k" := (bind m (fun _ => k))
  (at level 61, right associativity).

(** ** Collaborators *)

(** What the program takes from outside: the builtin [float(text)] ([None]
    where it raises [ValueError]), the conversion of an [int] to [float]
    that the array constructor performs, NaN, the renderings [f"{x:.2f}"]
    and [repr(x)]; the unpickled artifacts, [scaler.transform] and
    [model.predict]; the file system and the user: the sheet a path reads
    as (its number of rows and its columns), the answer to the save dialog
    given the suggested file name (the empty string when the user cancels),
    whether writing a table to a path fails, and the answer to the open
    dialog. *)
Class Collaborators (float : Type) := {
  float_of_string : string -> option float;
  float_of_int : Z -> float;
  nan : float;
  format_2f : float -> string;
  repr_float : float -> string;
  scaler_transform : matrix float -> result (matrix float);
  model_predict : matrix float -> result (list float);
  read_excel : string -> result (nat * list (Series float));
  asksaveasfilename : string -> string;
  to_excel : string -> DataFrame float -> option exn;
  askopenfilename : string -> string
}.

Section App.

Context {float : Type} {E : Collaborators float}.

Local Abbreviation matrix := (matrix float).
Local Abbreviation pynumber := (pynumber float).
Local Abbreviation pyobject := (pyobject float).
Local Abbreviation Series := (Series float).
Local Abbreviation DataFrame := (DataFrame float).
Local Abbreviation event := (event float).
Local Abbreviation world := (world float).
Local Abbreviation M := (M float).

Definition to_float (v : pynumber) : float :=
  match v with
  | PyInt z => float_of_int z
  | PyFloat x => x
  end.

Definition float_of_bool (b : bool) : float :=
  float_of_int (if b then 1 else 0)%Z.

(** A column as an array of [float64], the way the scaler's input check
    converts it; text and dates do not convert. *)
Definition series_floats (s : Series) : result (list float) :=
  match s with
  | Int64 l => Ok (map float_of_int l)
  | Float64 l => Ok l
  | Bool l => Ok (map float_of_bool l)
  | Object _ =>
      Raised {| exc := ValueError; exc_msg := "could not convert string to float" |}
  | Datetime64 _ =>
      Raised {| exc := TypeError; exc_msg := "float() argument must be a string or a real number, not 'Timestamp'" |}
  end.

(** Row [i] of a list of float columns. *)
Definition row_at (cols : list (list float)) (i : nat) : list float :=
  map (fun c => nth i c nan) cols.

Fixpoint all_floats (cols : list (label * Series)) : result (list (list float)) :=
  match cols with
  | [] => Ok []
  | (_, s) :: rest =>
      match series_floats s with
      | Raised e => Raised e
      | Ok l =>
          match all_floats rest with
          | Raised e => Raised e
          | Ok ls => Ok (l :: ls)
          end
      end
  end.

(** The [nrows x ncols] array of a selection of columns. *)
Definition to_numpy (nrows : nat) (cols : list (label * Series)) : result matrix :=
  match all_floats cols with
  | Raised e => Raised e
  | Ok ls => Ok (map (row_at ls) (seq 0 nrows))
  end.

(** *** Single prediction *)

(** The text after the last opening parenthesis, without closing ones:
    [text.split('(')[-1].strip(')')]. *)
Definition code_text (text : string) : string :=
  PyStr.strip (PyStr.is_char ")") (PyStr.last_item (PyStr.split "(" text)).

(** One turn of the loop over [variables]: the number a widget holds. *)
Definition read_widget (var : widget) : result pynumber :=
  match var with
  | StringVar text =>
      match PyStr.int (code_text text) with
      | Some z => Ok (PyInt z)
      | None =>
          Raised {| exc := ValueError;
                    exc_msg := "invalid literal for int() with base 10: '"
                               ++ code_text text ++ "'" |}
      end
  | Entry text =>
      match float_of_string text with
      | Some x => Ok (PyFloat x)
      | None =>
          Raised {| exc := ValueError;
                    exc_msg := "could not convert string to float: '"
                               ++ text ++ "'" |}
      end
  end.

(** The loop: the values in the order of the widgets; the first widget
    that does not read ends it. *)
Fixpoint read_inputs (vars : list widget) : result (list pynumber) :=
  match vars with
  | [] => Ok []
  | var :: rest =>
      match read_widget var with
      | Raised e => Raised e
      | Ok value =>
          match read_inputs rest with
          | Raised e => Raised e
          | Ok values => Ok (value :: values)
          end
      end
  end.

Definition call_scaler (X : matrix) : M matrix :=
  emit (ScalerTransform X) ;; lift (scaler_transform X).

Definition call_model (X : matrix) : M (list float) :=
  emit (ModelPredict X) ;; lift (model_predict X).

(** [predictions[0]]. *)
Definition first_item (predictions : list float) : result float :=
  match predictions with
  | p :: _ => Ok p
  | [] => Raised {| exc := IndexError;
                    exc_msg := "index 0 is out of bounds for axis 0 with size 0" |}
  end.

(** The pipeline on one feature vector: scale the one-row array,
    predict, take the first output. *)
Definition pipeline (features : list float) : M float :=
  input_scaled <- call_scaler [features] ;;
  predictions <- call_model input_scaled ;;
  lift (first_item predictions).

Definition repr_number (v : pynumber) : string :=
  match v with
  | PyInt z => PyStr.str_int z
  | PyFloat x => repr_float x
  end.

(** [str(values)] for a list of numbers. *)
Definition repr_list (values : list pynumber) : string :=
  "[" ++ String.concat ", " (map repr_number values) ++ "]".

(** The body of the [try] of [predict] up to the prediction. *)
Definition predict_value : M (list pynumber * float) :=
  vars <- ask variables ;;
  input_values <- lift (read_inputs vars) ;;
  prediction <- pipeline (map to_float input_values) ;;
  ret (input_values, prediction).

Definition predict : M unit :=
  lang <- ask lang_of ;;
  emit (ResultLabel (result_prefix lang)) ;;
  try_except
    (vp <- predict_value ;;
     emit (ResultLabel (result_prefix lang ++ format_2f (snd vp) ++ " MPa")) ;;
     emit (LogInfo ("预测成功。输入: " ++ repr_list (fst vp) ++ ", 预测值: "
                    ++ format_2f (snd vp))))
    (fun e =>
       if isinstance_ValueError e then
         emit (ResultLabel (error_input lang)) ;;
         emit (LogError ("输入值错误: " ++ exc_msg e))
       else
         emit (ResultLabel (error_occurred lang ++ " " ++ exc_msg e)) ;;
         emit (LogError ("预测过程中出错: " ++ exc_msg e))).

(** *** Batch prediction *)

Definition by_language {A} (l : language) (if_zh if_en : A) : A :=
  if language_eqb l zh then if_zh else if_en.

Definition too_few_columns (l : language) : exn :=
  {| exc := ValueError;
     exc_msg := by_language l "选择的Excel文件必须至少有8列特征数据。"
                  "The selected Excel file must contain at least 8 feature columns." |}.

Definition non_numeric_column (l : language) : exn :=
  {| exc := ValueError;
     exc_msg := by_language l "所有特征列必须为数值型。请检查Excel文件。"
                  "All feature columns must be numeric. Please check the Excel file." |}.

(** The status line after a cancelled save dialog. *)
Definition save_cancelled (l : language) : string :=
  by_language l "保存操作已取消。" "Save operation cancelled.".

(** [all(is_numeric_dtype(df[col]) for col in cols)]: stops at the
    first column that is not numeric. *)
Fixpoint all_numeric (df : DataFrame) (cols : list label) : result bool :=
  match cols with
  | [] => Ok true
  | col :: rest =>
      match getitem df col with
      | Raised e => Raised e
      | Ok s => if is_numeric_dtype s then all_numeric df rest else Ok false
      end
  end.

(** [scaler.transform(input_data)] on a selection of columns: the input
    check of the scaler makes the array, then the transform runs on it. *)
Definition call_scaler_frame (nrows : nat) (input_data : list (label * Series))
  : M matrix :=
  X <- lift (to_numpy nrows input_data) ;;
  call_scaler X.

(** Scale the selected columns, predict, append the predictions to the
    table. *)
Definition scale_and_predict (lang : translation) (df : DataFrame)
           (input_data : list (label * Series)) : M DataFrame :=
  emit (BatchStatus (batch_status_scaling lang)) ;;
  input_scaled <- call_scaler_frame (index df) input_data ;;
  emit (LogInfo "输入数据缩放成功。") ;;
  emit (BatchStatus (batch_status_predicting lang)) ;;
  predictions <- call_model input_scaled ;;
  l <- ask current_language ;;
  emit (LogInfo (by_language l "批量预测完成。" "Batch prediction completed.")) ;;
  lift (setitem df predicted_column predictions).

(** The first half of the [try] of [run_prediction]: read the sheet and
    check it, then scale, predict and append the column. *)
Definition predict_table (lang : translation) (file_path : string) : M DataFrame :=
  emit (BatchStatus (batch_status_reading lang)) ;;
  emit (ReadExcel file_path) ;;
  sheet <- lift (read_excel file_path) ;;
  emit (LogInfo ("成功加载Excel文件 " ++ file_path ++ "。")) ;;
  let df0 := frame_of_sheet (fst sheet) (snd sheet) in
  let df := set_columns df0 (map astype_str (columns df0)) in
  l <- ask current_language ;;
  (if Nat.ltb (length (columns df)) 8 then raise (too_few_columns l) else ret tt) ;;
  let feature_columns := firstn 8 (columns df) in
  input_data <- lift (getitem_list df feature_columns) ;;
  numeric <- lift (all_numeric df feature_columns) ;;
  l <- ask current_language ;;
  (if numeric then ret tt else raise (non_numeric_column l)) ;;
  scale_and_predict lang df input_data.

(** The second half: ask where to save and write the table, unless the
    dialog is cancelled. *)
Definition save_table (lang : translation) (file_path : string) (df : DataFrame)
  : M unit :=
  emit (BatchStatus (batch_status_saving lang)) ;;
  l <- ask current_language ;;
  let save_title := by_language l (browse lang) "Save Excel File" in
  let initialfile := "predicted_" ++ PyStr.basename file_path in
  emit (AskSaveAs save_title initialfile) ;;
  let save_path := asksaveasfilename initialfile in
  if PyStr.truthy save_path then
    emit (ToExcel save_path df) ;;
    match to_excel save_path df with
    | Some e => raise e
    | None => ret tt
    end ;;
    emit (ShowInfo (success lang) (success_save lang ++ save_path)) ;;
    emit (LogInfo ("预测结果已保存到 " ++ save_path)) ;;
    l <- ask current_language ;;
    emit (BatchStatus
            (by_language l (batch_status_start lang) "Batch prediction completed."))
  else
    l <- ask current_language ;;
    emit (BatchStatus (save_cancelled l)).

(** The report of the [except Exception] clause of [run_prediction]. *)
Definition report_error (lang : translation) (e : exn) : M unit :=
  emit (ShowError (error_title lang) (error_occurred lang ++ " " ++ exc_msg e)) ;;
  l <- ask current_language ;;
  emit (LogError (by_language l ("批量预测过程中出错: " ++ exc_msg e)
                    ("Error during batch prediction: " ++ exc_msg e))) ;;
  emit (BatchStatus (error_occurred lang ++ " " ++ exc_msg e)).

(** The [finally] clause. *)
Definition restore_controls : M unit :=
  emit ProgressStop ;;
  emit (ButtonConfig batch_button normal) ;;
  emit (ButtonConfig browse_button normal).

(** The worker.  It runs on a thread of its own; here it runs to its end
    as one step of the handler that starts it. *)
Definition run_prediction (lang : translation) (file_path : string) : M unit :=
  try_finally
    (try_except
       (df <- predict_table lang file_path ;; save_table lang file_path df)
       (report_error lang))
    restore_controls.

Definition batch_predict : M unit :=
  lang <- ask lang_of ;;
  file_path <- ask selected_file ;;
  if negb (PyStr.truthy file_path) then
    emit (ShowWarning (warning_no_file lang) (warning_no_file_msg lang))
  else
    emit (ButtonConfig batch_button disabled) ;;
    emit (ButtonConfig browse_button disabled) ;;
    emit (BatchStatus (batch_status_start lang)) ;;
    emit ProgressStart ;;
    run_prediction lang file_path.

(** *** The other handlers *)

Definition browse_file : M unit :=
  lang <- ask lang_of ;;
  emit (AskOpen (browse lang)) ;;
  let file_path := askopenfilename (browse lang) in
  if PyStr.truthy file_path then
    emit (SelectedFile file_path) ;;
    emit (LogInfo ("选择用于批量预测的文件: " ++ file_path)) ;;
    emit (BatchStatus (batch_status_select lang))
  else ret tt.

(** The part of [update_language] that touches the state kept here: the
    three comboboxes and the status line of the batch tab. *)
Definition update_language : M unit :=
  lang <- ask lang_of ;;
  emit (Combobox FM (combobox_values lang FM)) ;;
  emit (Combobox FT (combobox_values lang FT)) ;;
  emit (Combobox BS (combobox_values lang BS)) ;;
  emit (BatchStatus (batch_status_initial lang)).

Definition set_language (lang : language) : M unit :=
  emit (Language lang) ;;
  update_language.

(** What the user does to the form between two handlers: type a text in
    the entry at a position, pick an option of a combobox. *)
Inductive user_action :=
| TypeText (i : nat) (text : string)
| PickOption (k : combobox_type) (i : nat).

Definition type_text (i : nat) (text : string) (vars : list widget) : list widget :=
  map (fun iv : nat * widget =>
         match snd iv with
         | Entry old => Entry (if Nat.eqb (fst iv) i then text else old)
         | var => var
         end)
      (combine (seq 0 (length vars)) vars).

Definition with_variables (vars : list widget) (w : world) : world :=
  {| current_language := current_language w;
     variables := vars;
     selected_file := selected_file w;
     result_label := result_label w;
     batch_status := batch_status w;
     batch_button_state := batch_button_state w;
     browse_button_state := browse_button_state w;
     progress_running := progress_running w;
     trace := trace w |}.

Definition user (a : user_action) (w : world) : world :=
  match a with
  | TypeText i text => with_variables (type_text i text (variables w)) w
  | PickOption k i =>
      match nth_error (combobox_values (lang_of w) k) i with
      | Some text => with_variables (set_combobox k text (variables w)) w
      | None => w
      end
  end.

(** The state when the main loop starts: the module is loaded with
    [current_language = 'zh'], the form is built, [update_language] ran. *)
Definition initial_world : world :=
  {| current_language := zh;
     variables := variables_of zh {| pick := fun _ => 0; typed := fun _ => "" |};
     selected_file := "";
     result_label := "";
     batch_status := "";
     batch_button_state := normal;
     browse_button_state := normal;
     progress_running := false;
     trace := [] |}.

(** The states the application can be in when a handler starts. *)
Inductive reachable : world -> Prop :=
| reach_initial : reachable initial_world
| reach_user a w : reachable w -> reachable (user a w)
| reach_set_language l w : reachable w -> reachable (snd (set_language l w))
| reach_predict w : reachable w -> reachable (snd (predict w))
| reach_browse_file w : reachable w -> reachable (snd (browse_file w))
| reach_batch_predict w : reachable w -> reachable (snd (batch_predict w)).

(** The columns of a sheet under the labels [run_prediction] gives them:
    the positions, as strings. *)
Definition named (cols : list Series) : list (label * Series) :=
  combine (map (fun i => LStr (PyStr.str_nat i)) (seq 0 (length cols))) cols.

(** A sheet with the column of predictions appended. *)
Definition appended (nrows : nat) (cols : list Series) (predictions : list float)
  : DataFrame :=
  {| index := nrows;
     frame := named cols ++ [(predicted_column, Float64 predictions)] |}.

(** The feature vectors of a sheet: the rows of its first 8 columns. *)
Definition feature_rows (nrows : nat) (cols : list Series) : result matrix :=
  to_numpy nrows (firstn 8 (named cols)).

(** The artifacts work row by row: on an array they return, for each
    row, what they return on that row alone. *)
Definition rowwise_scaler : Prop :=
  forall X Y, scaler_transform X = Ok Y ->
    Forall2 (fun x y => scaler_transform [x] = Ok [y]) X Y.

Definition rowwise_model : Prop :=
  forall X predictions, model_predict X = Ok predictions ->
    Forall2 (fun x p => model_predict [x] = Ok [p]) X predictions.

(** The events of a run of the worker, by phase. *)
Definition start_events (lang : translation) : list event :=
  [ ButtonConfig batch_button disabled; ButtonConfig browse_button disabled;
    BatchStatus (batch_status_start lang); ProgressStart ].

Definition loading_events (lang : translation) (path : string) : list event :=
  [ BatchStatus (batch_status_reading lang); ReadExcel path;
    LogInfo ("成功加载Excel文件 " ++ path ++ "。") ].

Definition error_events (lang : translation) (l : language) (e : exn) : list event :=
  [ ShowError (error_title lang) (error_occurred lang ++ " " ++ exc_msg e);
    LogError (by_language l ("批量预测过程中出错: " ++ exc_msg e)
                ("Error during batch prediction: " ++ exc_msg e));
    BatchStatus (error_occurred lang ++ " " ++ exc_msg e) ].

Definition finish_events : list event :=
  [ ProgressStop; ButtonConfig batch_button normal;
    ButtonConfig browse_button normal ].

(** A table is the sheet at [path] with the predictions of the model,
    for the feature vectors of the sheet, as its last column. *)
Definition predicted_table (path : string) (df : DataFrame) : Prop :=
  exists nrows cols X Y predictions,
    read_excel path = Ok (nrows, cols)
    /\ 8 <= length cols
    /\ feature_rows nrows cols = Ok X
    /\ scaler_transform X = Ok Y
    /\ model_predict Y = Ok predictions
    /\ length predictions = nrows
    /\ df = appended nrows cols predictions.

(** What [predict_table] may do on [path]: it reports and logs, it reads
    the sheet, it calls the model, and it scales nothing but the feature
    vectors of a checked sheet. *)
Definition table_event (path : string) (ev : event) : Prop :=
  match ev with
  | BatchStatus _ | ReadExcel _ | LogInfo _ | ModelPredict _ => True
  | ScalerTransform X =>
      exists nrows cols,
        read_excel path = Ok (nrows, cols)
        /\ 8 <= length cols
        /\ forallb is_numeric_dtype (firstn 8 cols) = true
        /\ feature_rows nrows cols = Ok X
  | _ => False
  end.

(** What the worker may do between the start of a run on [path] and its
    [finally] clause: the above, dialogs and error logs, and it writes
    nothing but the predicted table. *)
Definition run_event (path : string) (ev : event) : Prop :=
  match ev with
  | LogError _ | AskSaveAs _ _ | ShowInfo _ _ | ShowError _ _ => True
  | ToExcel _ df => predicted_table path df
  | _ => table_event path ev
  end.

(** The text of a widget reads as a number. *)
Definition reads (var : widget) : bool :=
  match read_widget var with Ok _ => true | Raised _ => false end.

(** The events a computation adds to the trace of a world. *)
Definition events_of {A} (m : M A) (w : world) : list event :=
  skipn (length (trace w)) (trace (snd (m w))).

(** The scaler or the model is invoked. *)
Definition is_invocation (ev : event) : bool :=
  match ev with
  | ScalerTransform _ | ModelPredict _ => true
  | _ => false
  end.

Definition is_button_config (ev : event) : bool :=
  match ev with
  | ButtonConfig _ _ => true
  | _ => false
  end.

Definition is_to_excel (ev : event) : bool :=
  match ev with
  | ToExcel _ _ => true
  | _ => false
  end.

Definition is_show_error (ev : event) : bool :=
  match ev with
  | ShowError _ _ => true
  | _ => false
  end.

End App.

(** ** A sample of collaborators

    Rational numbers stand for the floats, a standardising scaler and a
    small regression tree for the artifacts, and a handful of sheets for
    the file system. *)

Module Sample.

Open Scope Z_scope.

(** Decimal notation with an optional sign and an optional fraction. *)
Definition decimal (s : string) : option Q :=
  let body := PyStr.strip PyStr.is_space s in
  let signed (r : string) : option Q :=
    match PyStr.split "." r with
    | [i] => option_map inject_Z (PyStr.digits false 0 i)
    | [i; f] =>
        match PyStr.digits false 0 i, PyStr.digits false 0 f with
        | Some zi, Some zf =>
            let den := 10 ^ Z.of_nat (String.length f) in
            Some (Qred (Qmake (zi * den + zf) (Z.to_pos den)))
        | _, _ => None
        end
    | _ => None
    end in
  match body with
  | String "-" r => option_map Qopp (signed r)
  | String "+" r => signed r
  | r => signed r
  end.

(** Two decimals, rounding half up. *)
Definition two_decimals (q : Q) : string :=
  let c := Qfloor (q * inject_Z 100 + (1 # 2))%Q in
  let a := Z.abs c in
  let frac := a mod 100 in
  ((if Z.ltb c 0 then "-" else "") ++ PyStr.str_int (Z.div a 100) ++ "."
   ++ (if Z.ltb frac 10 then "0" else "") ++ PyStr.str_int frac)%string.

Definition feature_mismatch (got expected : nat) : exn :=
  {| exc := ValueError;
     exc_msg := ("X has " ++ PyStr.str_nat got ++ " features, but StandardScaler is expecting "
                 ++ PyStr.str_nat expected ++ " features as input.")%string |}.

(** A scaler fitted with the given means and scales: every row must have
    as many features as it was fitted on. *)
Fixpoint standard_scaler (means scales : list Q) (X : matrix Q) : result (matrix Q) :=
  match X with
  | [] => Ok []
  | row :: rest =>
      if Nat.eqb (length row) (length means) then
        match standard_scaler means scales rest with
        | Ok rows =>
            Ok (map (fun xms : Q * (Q * Q) =>
                       Qred ((fst xms - fst (snd xms)) / snd (snd xms))%Q)
                    (combine row (combine means scales)) :: rows)
        | Raised e => Raised e
        end
      else Raised (feature_mismatch (length row) (length means))
  end.

Definition means : list Q := [20#1; 3#1; 2#1; 3#1; 12#1; 80#1; 40#1; 3#1]%Q.
Definition scales : list Q := [10#1; 1#1; 1#1; 1#1; 4#1; 40#1; 10#1; 2#1]%Q.

(** A regression tree of depth two on the scaled anchorage length and
    concrete strength. *)
Definition tree (row : list Q) : Q :=
  if Qle_bool (nth 5 row 0%Q) 0 then
    if Qle_bool (nth 6 row 0%Q) 0 then (25 # 2)%Q else (61 # 4)%Q
  else (35 # 4)%Q.

Definition tree_predict (X : matrix Q) : result (list Q) := Ok (map tree X).

(** Three specimens with a ninth column of remarks. *)
Definition specimens : list (Series Q) :=
  [ Float64 [25#1; 60#1; 3#2]%Q;
    Int64 [2; 5; 1];
    Int64 [1; 3; 2];
    Int64 [3; 1; 4];
    Float64 [12#1; 16#1; 10#1]%Q;
    Int64 [100; 60; 120];
    Float64 [30#1; 45#1; 38#1]%Q;
    Float64 [3#2; 2#1; 5#2]%Q;
    Object [ObjStr "series A"; ObjNone; ObjStr "series B"] ].

(** Five columns only. *)
Definition short : list (Series Q) := firstn 5 specimens.

(** The failure mode is written out in words. *)
Definition worded : list (Series Q) :=
  [ Float64 [25#1]%Q; Object [ObjStr "pullout"]; Int64 [1]; Int64 [3];
    Float64 [12#1]%Q; Int64 [100]; Float64 [30#1]%Q; Float64 [3#2]%Q ].

(** The failure mode is the number 99. *)
Definition uncoded : list (Series Q) :=
  [ Float64 [25#1]%Q; Int64 [99]; Int64 [1]; Int64 [3];
    Float64 [12#1]%Q; Int64 [100]; Float64 [30#1]%Q; Float64 [3#2]%Q ].

Definition sheets (path : string) : result (nat * list (Series Q)) :=
  if String.eqb path "specimens.xlsx" then Ok (3%nat, specimens)
  else if String.eqb path "pending.xlsx" then Ok (3%nat, specimens)
  else if String.eqb path "short.xlsx" then Ok (3%nat, short)
  else if String.eqb path "worded.xlsx" then Ok (1%nat, worded)
  else if String.eqb path "uncoded.xlsx" then Ok (1%nat, uncoded)
  else Raised {| exc := OSError;
                 exc_msg := ("[Errno 2] No such file or directory: '" ++ path ++ "'")%string |}.

(** The user saves under the suggested name in the folder [results],
    except for the sheet [pending.xlsx], where the dialog is cancelled. *)
Definition save_dialog (initialfile : string) : string :=
  if String.eqb initialfile "predicted_pending.xlsx" then ""%string
  else ("results/" ++ initialfile)%string.

#[global] Instance collaborators : Collaborators Q := {|
  float_of_string := decimal;
  float_of_int := inject_Z;
  nan := 0%Q;
  format_2f := two_decimals;
  repr_float := two_decimals;
  scaler_transform := standard_scaler means scales;
  model_predict := tree_predict;
  read_excel := sheets;
  asksaveasfilename := save_dialog;
  to_excel := fun _ _ => None;
  askopenfilename := fun _ => "specimens.xlsx"
|}.

(** The same with a scaler that was fitted on nine features. *)
Definition refitted : Collaborators Q := {|
  float_of_string := decimal;
  float_of_int := inject_Z;
  nan := 0%Q;
  format_2f := two_decimals;
  repr_float := two_decimals;
  scaler_transform := standard_scaler (means ++ [1#1]%Q) (scales ++ [1#1]%Q);
  model_predict := tree_predict;
  read_excel := sheets;
  asksaveasfilename := save_dialog;
  to_excel := fun _ _ => None;
  askopenfilename := fun _ => "specimens.xlsx"
|}.

(** The form filled with the example of the specification. *)
Definition example_form : form_input := {|
  pick := fun k => match k with FM => 1 | FT => 0 | BS => 2 end%nat;
  typed := fun i =>
    match i with
    | 0 => "25" | 4 => "12" | 5 => "100" | 6 => "30" | 7 => "1.5" | _ => ""
    end%nat%string
|}.

(** The same form with the bar diameter left empty. *)
Definition incomplete_form : form_input := {|
  pick := pick example_form;
  typed := fun i => if Nat.eqb i 4 then ""%string else typed example_form i
|}.

(** The user fills the form: a text in each entry, an option in each
    combobox. *)
Definition fill (f : form_input) (w : world Q) : world Q :=
  user (TypeText 7 (typed f 7))
    (user (TypeText 6 (typed f 6))
       (user (TypeText 5 (typed f 5))
          (user (TypeText 4 (typed f 4))
             (user (PickOption BS (pick f BS))
                (user (PickOption FT (pick f FT))
                   (user (PickOption FM (pick f FM))
                      (user (TypeText 0 (typed f 0)) w))))))).

(** The application with a sheet selected for the batch. *)
Definition selected (path : string) : world Q :=
  play [SelectedFile path] initial_world.

(** The sheet of the specimens with its predictions. *)
Definition predicted_specimens : DataFrame Q :=
  appended 3 specimens [35 # 4; 61 # 4; 35 # 4]%Q.

End Sample.

(** ** Phases of a run *)

Section Phases.

Context {float : Type}.

Definition reading_events (lang : translation) (path : string) : list (event float) :=
  [ BatchStatus (batch_status_reading lang); ReadExcel path ].

Definition scaling_events (lang : translation) (X : matrix float) : list (event float) :=
  [ BatchStatus (batch_status_scaling lang); ScalerTransform X ].

Definition predicting_events (lang : translation) (Y : matrix float) : list (event float) :=
  [ LogInfo "输入数据缩放成功。"; BatchStatus (batch_status_predicting lang);
    ModelPredict Y ].

Definition predicted_events (l : language) : list (event float) :=
  [ LogInfo (by_language l "批量预测完成。" "Batch prediction completed.") ].

(** The name the save dialog suggests for the table of [path]. *)
Definition suggested_name (path : string) : string :=
  "predicted_" ++ PyStr.basename path.

Definition asking_events (lang : translation) (l : language) (path : string)
  : list (event float) :=
  [ BatchStatus (batch_status_saving lang);
    AskSaveAs (by_language l (browse lang) "Save Excel File") (suggested_name path) ].

Definition saved_events (lang : translation) (l : language) (save_path : string)
  : list (event float) :=
  [ ShowInfo (success lang) (success_save lang ++ save_path);
    LogInfo ("预测结果已保存到 " ++ save_path);
    BatchStatus (by_language l (batch_status_start lang) "Batch prediction completed.") ].

(** The values of a form whose entries read as [x0], [x4], [x5], [x6]
    and [x7]: the codes of the picked options sit at the positions of
    the three categorical features. *)
Definition form_values (f : form_input) (x0 x4 x5 x6 x7 : float)
  : list (pynumber float) :=
  [ PyFloat x0; PyInt (picked f FM); PyInt (picked f FT); PyInt (picked f BS);
    PyFloat x4; PyFloat x5; PyFloat x6; PyFloat x7 ].

(** What [predict] may do: it sets its label, logs, and calls the
    artifacts. *)
Definition predict_event (ev : event float) : Prop :=
  match ev with
  | ResultLabel _ | LogInfo _ | LogError _ | ScalerTransform _ | ModelPredict _ => True
  | _ => False
  end.

(** Two states show the same but for the result label and the trace. *)
Definition same_but_result (w1 w2 : world float) : Prop :=
  current_language w1 = current_language w2
  /\ variables w1 = variables w2
  /\ selected_file w1 = selected_file w2
  /\ batch_status w1 = batch_status w2
  /\ batch_button_state w1 = batch_button_state w2
  /\ browse_button_state w1 = browse_button_state w2
  /\ progress_running w1 = progress_running w2.

(** Two states show the same: they differ in their traces at most. *)
Definition same_view (w1 w2 : world float) : Prop :=
  current_language w1 = current_language w2
  /\ variables w1 = variables w2
  /\ selected_file w1 = selected_file w2
  /\ result_label w1 = result_label w2
  /\ batch_status w1 = batch_status w2
  /\ batch_button_state w1 = batch_button_state w2
  /\ browse_button_state w1 = browse_button_state w2
  /\ progress_running w1 = progress_running w2.

(** The calls a handler makes to the file system, the artifacts and the
    save dialog. *)
Inductive call := Reads | Scales | Predicts | Asks | Writes.

Definition call_of (ev : event float) : option call :=
  match ev with
  | ReadExcel _ => Some Reads
  | ScalerTransform _ => Some Scales
  | ModelPredict _ => Some Predicts
  | AskSaveAs _ _ => Some Asks
  | ToExcel _ _ => Some Writes
  | _ => None
  end.

Fixpoint calls (evs : list (event float)) : list call :=
  match evs with
  | [] => []
  | ev :: rest =>
      match call_of ev with
      | Some c => c :: calls rest
      | None => calls rest
      end
  end.

(** Where a run reads, what name it suggests and where it writes. *)
Definition run_event_paths (asked : string -> string) (path : string) (ev : event float)
  : Prop :=
  match ev with
  | ReadExcel p => p = path
  | AskSaveAs _ name => name = suggested_name path
  | ToExcel save_path _ =>
      save_path = asked (suggested_name path) /\ PyStr.truthy save_path = true
  | _ => True
  end.

End Phases.

(** ** The worker, event by event *)

Section Worker.

Context {float : Type} {E : Collaborators float}.

(** The events of the second half of the [try] of [run_prediction], for
    a table [df] of the file at [path]. *)
Definition saving_events (lang : translation) (l : language) (path : string)
           (df : DataFrame float) : list (event float) :=
  asking_events lang l path
  ++ (let save_path := asksaveasfilename (suggested_name path) in
      if PyStr.truthy save_path then
        ToExcel save_path df
        :: match to_excel save_path df with
           | Some e => error_events lang l e
           | None => saved_events lang l save_path
           end
      else [BatchStatus (save_cancelled l)]).

(** The events of the worker between the start of a run and its
    [finally] clause, in a state [w] where a file is selected. *)
Definition worker_events (w : world float) : list (event float) :=
  let lang := lang_of w in
  let l := current_language w in
  let path := selected_file w in
  match read_excel path with
  | Raised e => reading_events lang path ++ error_events lang l e
  | Ok (n, cols) =>
      loading_events lang path
      ++ (if Nat.ltb (length cols) 8 then error_events lang l (too_few_columns l)
          else if forallb is_numeric_dtype (firstn 8 cols) then
            BatchStatus (batch_status_scaling lang)
            :: match feature_rows n cols with
               | Raised e => error_events lang l e
               | Ok X =>
                   ScalerTransform X
                   :: match scaler_transform X with
                      | Raised e => error_events lang l e
                      | Ok Y =>
                          predicting_events lang Y
                          ++ match model_predict Y with
                             | Raised e => error_events lang l e
                             | Ok p =>
                                 predicted_events l
                                 ++ match setitem {| index := n; frame := named cols |}
                                                  predicted_column p with
                                    | Raised e => error_events lang l e
                                    | Ok df => saving_events lang l path df
                                    end
                             end
                      end
               end
          else error_events lang l (non_numeric_column l))
  end.

(** What the array handed to the scaler holds for row [i] of a column:
    the number of the cell as a [float64] (1.0 and 0.0 for booleans; a
    cell that pandas read as blank is a NaN of a [float64] column
    already), and NaN where the column has no cell at that row. *)
Definition float_of_cell (c : Series float) (i : nat) : float :=
  match c with
  | Int64 l => nth i (map float_of_int l) nan
  | Float64 l => nth i l nan
  | Bool l => nth i (map float_of_bool l) nan
  | Object _ | Datetime64 _ => nan
  end.

(** A sheet that passes the checks of the worker, with its feature
    vectors. *)
Definition checked_sheet (path : string) (n : nat) (cols : list (Series float))
           (X : matrix float) : Prop :=
  read_excel path = Ok (n, cols)
  /\ 8 <= length cols
  /\ forallb is_numeric_dtype (firstn 8 cols) = true
  /\ feature_rows n cols = Ok X.

End Worker.

(** ** Paths and start-up *)

Module PyPath.

(** [s.endswith('/')]. *)
Definition endswith_sep (s : string) : bool :=
  match PyStr.reverse s with
  | String c _ => Ascii.eqb c "/"
  | EmptyString => false
  end.

(** [os.path.join(a, b)] of [posixpath]: an absolute [b] replaces [a]; a
    separator is put in between unless [a] is empty or ends with one. *)
Definition join (a b : string) : string :=
  if PyStr.startswith "/" b then b
  else if negb (PyStr.truthy a) || endswith_sep a then a ++ b
  else a ++ "/" ++ b.


(** No separator in a name. *)
Definition bare (name : string) : Prop :=
  Forall (fun c => Ascii.eqb c "/" = false) (list_ascii_of_string name).

End PyPath.

Module Startup.

Section Loading.

(** What [joblib.load] returns, the attribute [sys._MEIPASS] when the
    program runs from a bundle, the directory [os.path.abspath(".")], and
    [joblib.load] itself. *)
Variable artifact : Type.
Variable meipass : option string.
Variable cwd : string.
Variable joblib_load : string -> result artifact.

Definition resource_path (relative_path : string) : string :=
  let base_path := match meipass with Some d => d | None => cwd end in
  PyPath.join base_path relative_path.

Inductive step :=
| Load (path : string)
| Info (msg : string)
| Error (msg : string)
| ErrorDialog (title msg : string)
| Exit (code : Z).

(** The report of the [except] clause of the loading block. *)
Definition failed (e : exn) : list step :=
  [ Error ("加载模型或缩放器时出错: " ++ exc_msg e);
    ErrorDialog "错误" ("加载模型或缩放器时出错: " ++ exc_msg e);
    Exit 1 ].

(** The loading block at the top of the module: what it does, and the
    model and the scaler when the program goes on. *)
Definition load_artifacts : list step * option (artifact * artifact) :=
  let model_path := resource_path "model.pkl" in
  let scaler_path := resource_path "scaler.pkl" in
  match joblib_load model_path with
  | Raised e => (Load model_path :: failed e, None)
  | Ok model =>
      match joblib_load scaler_path with
      | Raised e => (Load model_path :: Load scaler_path :: failed e, None)
      | Ok scaler =>
          ([Load model_path; Load scaler_path; Info "模型和缩放器加载成功"],
           Some (model, scaler))
      end
  end.

End Loading.

End Startup.

(** ** Collaborators that fail *)

Module Faulty.

(** The sample with other artifacts and another writer. *)
Definition sample_with (scaler : matrix Q -> result (matrix Q))
           (model : matrix Q -> result (list Q))
           (writer : string -> DataFrame Q -> option exn) : Collaborators Q := {|
  float_of_string := Sample.decimal;
  float_of_int := inject_Z;
  nan := 0%Q;
  format_2f := Sample.two_decimals;
  repr_float := Sample.two_decimals;
  scaler_transform := scaler;
  model_predict := model;
  read_excel := Sample.sheets;
  asksaveasfilename := Sample.save_dialog;
  to_excel := writer;
  askopenfilename := fun _ => "specimens.xlsx"
|}.

Definition not_fitted : exn :=
  {| exc := RuntimeError; exc_msg := "This DecisionTreeRegressor instance is not fitted yet." |}.

Definition read_only : exn :=
  {| exc := OSError; exc_msg := "[Errno 13] Permission denied" |}.

(** A model that was never fitted. *)
Definition unfitted : Collaborators Q :=
  sample_with (Sample.standard_scaler Sample.means Sample.scales)
              (fun _ => Raised not_fitted) (fun _ _ => None).

(** A model that returns no prediction at all. *)
Definition mute : Collaborators Q :=
  sample_with (Sample.standard_scaler Sample.means Sample.scales)
              (fun _ => Ok []) (fun _ _ => None).

(** A disk that cannot be written. *)
Definition locked : Collaborators Q :=
  sample_with (Sample.standard_scaler Sample.means Sample.scales)
              Sample.tree_predict (fun _ _ => Some read_only).

(** A user who closes the open dialog without a choice. *)
Definition undecided : Collaborators Q := {|
  float_of_string := Sample.decimal;
  float_of_int := inject_Z;
  nan := 0%Q;
  format_2f := Sample.two_decimals;
  repr_float := Sample.two_decimals;
  scaler_transform := Sample.standard_scaler Sample.means Sample.scales;
  model_predict := Sample.tree_predict;
  read_excel := Sample.sheets;
  asksaveasfilename := Sample.save_dialog;
  to_excel := fun _ _ => None;
  askopenfilename := fun _ => ""
|}.

(** The feature vectors of the sheet of the specimens, and what the
    scaler of the sample makes of them. *)
Definition features : matrix Q :=
  [ [25 # 1; 2 # 1; 1 # 1; 3 # 1; 12 # 1; 100 # 1; 30 # 1; 3 # 2];
    [60 # 1; 5 # 1; 3 # 1; 1 # 1; 16 # 1; 60 # 1; 45 # 1; 2 # 1];
    [3 # 2; 1 # 1; 2 # 1; 4 # 1; 10 # 1; 120 # 1; 38 # 1; 5 # 2] ]%Q.

Definition scaled : matrix Q :=
  [ [1 # 2; -1 # 1; -1 # 1; 0 # 1; 0 # 1; 1 # 2; -1 # 1; -3 # 4];
    [4 # 1; 2 # 1; 1 # 1; -2 # 1; 1 # 1; -1 # 2; 1 # 2; -1 # 2];
    [-37 # 20; -2 # 1; 0 # 1; 1 # 1; -1 # 2; 1 # 1; -1 # 5; -1 # 4] ]%Q.

(** A sheet that is not there. *)
Definition missing : exn :=
  {| exc := OSError;
     exc_msg := "[Errno 2] No such file or directory: 'missing.xlsx'" |}.

(** A file system where the model is there and the scaler is not. *)
Definition pickles (path : string) : result string :=
  if String.eqb path "/opt/app/model.pkl" then Ok "tree"
  else Raised {| exc := OSError;
                 exc_msg := "[Errno 2] No such file or directory: '" ++ path ++ "'" |}.

End Faulty.

(** ** A sheet with gaps

    Floats with a NaN, [None], for the cells that pandas reads as
    missing. *)

Module Blank.

Definition render (x : option Q) : string :=
  match x with
  | Some q => Sample.two_decimals q
  | None => "nan"
  end.

(** The scaler of the sample; a NaN stays a NaN. *)
Definition scale_row (row : list (option Q)) : list (option Q) :=
  map (fun xms : option Q * (Q * Q) =>
         option_map (fun x => Qred ((x - fst (snd xms)) / snd (snd xms))%Q) (fst xms))
      (combine row (combine Sample.means Sample.scales)).

Definition scaler (X : matrix (option Q)) : result (matrix (option Q)) :=
  match find (fun row => negb (Nat.eqb (length row) 8)) X with
  | Some row => Raised (Sample.feature_mismatch (length row) 8)
  | None => Ok (map scale_row X)
  end.

(** The tree of the sample; a missing value goes to the right. *)
Definition at_most_zero (x : option Q) : bool :=
  match x with
  | Some q => Qle_bool q 0
  | None => false
  end.

Definition tree (row : list (option Q)) : option Q :=
  if at_most_zero (nth 5 row None) then
    if at_most_zero (nth 6 row None) then Some (25 # 2)%Q else Some (61 # 4)%Q
  else Some (35 # 4)%Q.

(** Two specimens: the failure mode is given as TRUE and FALSE, and the
    temperature of the second one is left blank. *)
Definition gaps : list (Series (option Q)) :=
  [ Float64 [Some (25 # 1)%Q; None];
    Bool [true; false];
    Int64 [1; 3]%Z;
    Int64 [3; 1]%Z;
    Float64 [Some (12 # 1)%Q; Some (16 # 1)%Q];
    Int64 [100; 60]%Z;
    Float64 [Some (30 # 1)%Q; Some (45 # 1)%Q];
    Float64 [Some (3 # 2)%Q; Some (2 # 1)%Q] ].

Definition sheets (path : string) : result (nat * list (Series (option Q))) :=
  if String.eqb path "gaps.xlsx" then Ok (2, gaps)
  else Raised {| exc := OSError;
                 exc_msg := "[Errno 2] No such file or directory: '" ++ path ++ "'" |}.

Definition collaborators : Collaborators (option Q) := {|
  float_of_string := fun s => option_map Some (Sample.decimal s);
  float_of_int := fun z => Some (inject_Z z);
  nan := None;
  format_2f := render;
  repr_float := render;
  scaler_transform := scaler;
  model_predict := fun X => Ok (map tree X);
  read_excel := sheets;
  asksaveasfilename := Sample.save_dialog;
  to_excel := fun _ _ => None;
  askopenfilename := fun _ => "gaps.xlsx"
|}.

(** The application with the sheet selected. *)
Definition selected : world (option Q) :=
  play [SelectedFile "gaps.xlsx"] initial_world.

(** What the scaler receives for the sheet. *)
Definition features : matrix (option Q) :=
  [ [Some (25 # 1); Some (1 # 1); Some (1 # 1); Some (3 # 1); Some (12 # 1);
     Some (100 # 1); Some (30 # 1); Some (3 # 2)];
    [None; Some (0 # 1); Some (3 # 1); Some (1 # 1); Some (16 # 1);
     Some (60 # 1); Some (45 # 1); Some (2 # 1)] ]%Q.

End Blank.

(** * Properties *)

Open Scope list_scope.

(** ** Events and the state *)

Section Traces.

Context {float : Type}.

Lemma play_app (evs1 evs2 : list (event float)) (w : world float) :
  play (evs1 ++ evs2) w = play evs2 (play evs1 w).
Proof. unfold play. apply fold_left_app. Qed.

Lemma trace_play (evs : list (event float)) (w : world float) :
  trace (play evs w) = trace w ++ evs.
Proof.
  revert w. induction evs as [|ev evs IH]; intro w; simpl.
  - now rewrite app_nil_r.
  - rewrite IH. simpl. now rewrite <- app_assoc.
Qed.

Lemma apply_event_play (ev : event float) (evs : list (event float)) (w : world float) :
  apply_event ev (play evs w) = play (evs ++ [ev]) w.
Proof. now rewrite play_app. Qed.

Lemma skipn_trace_play (evs : list (event float)) (w : world float) :
  skipn (length (trace w)) (trace (play evs w)) = evs.
Proof.
  rewrite trace_play, skipn_app, skipn_all, Nat.sub_diag. reflexivity.
Qed.

Lemma play_keeps_form (evs : list (event float)) (w : world float) :
  Forall keeps_form evs ->
  current_language (play evs w) = current_language w
  /\ variables (play evs w) = variables w.
Proof.
  intro H. revert w. induction H as [|ev evs Hev _ IH]; intro w; simpl.
  - split; reflexivity.
  - destruct (IH (apply_event ev w)) as [-> ->].
    destruct ev; simpl in *; try tauto.
Qed.

Variable P : event float -> Prop.

Lemma emits_ret {A} (Q : A -> Prop) (a : A) : Q a -> emits P Q (ret a).
Proof.
  intros H w. exists []. repeat split; [constructor|].
  intros a' Ha. now inversion Ha; subst.
Qed.

Lemma emits_raise {A} (Q : A -> Prop) (e : exn) : emits P Q (raise e).
Proof. intro w. exists []. repeat split; [constructor | discriminate]. Qed.

Lemma emits_lift {A} (Q : A -> Prop) (r : result A) :
  (forall a, r = Ok a -> Q a) -> emits P Q (lift r).
Proof. intros H w. exists []. repeat split; [constructor | exact H]. Qed.

Lemma emits_ask {A} (Q : A -> Prop) (f : world float -> A) :
  (forall w, Q (f w)) -> emits P Q (ask f).
Proof.
  intros H w. exists []. repeat split; [constructor|].
  intros a Ha. inversion Ha; subst. apply H.
Qed.

Lemma emits_emit (ev : event float) : P ev -> emits P (fun _ => True) (emit ev).
Proof. intros H w. exists [ev]. repeat split. repeat constructor; exact H. Qed.

Lemma emits_bind {A B} (Q : A -> Prop) (R : B -> Prop)
      (m : M float A) (k : A -> M float B) :
  emits P Q m -> (forall a, Q a -> emits P R (k a)) -> emits P R (bind m k).
Proof.
  intros Hm Hk w. unfold bind.
  destruct (Hm w) as (evs1 & E1 & F1 & Q1).
  destruct (m w) as [[a|e] w1]; simpl in E1; subst w1.
  - destruct (Hk a (Q1 a eq_refl) (play evs1 w)) as (evs2 & E2 & F2 & Q2).
    exists (evs1 ++ evs2). rewrite play_app.
    repeat split; [exact E2 | now apply Forall_app | exact Q2].
  - exists evs1. repeat split; [exact F1 | discriminate].
Qed.

Lemma emits_try_except {A} (Q : A -> Prop) (body : M float A) (handler : exn -> M float A) :
  emits P Q body -> (forall e, emits P Q (handler e)) ->
  emits P Q (try_except body handler).
Proof.
  intros Hm Hk w. unfold try_except.
  destruct (Hm w) as (evs1 & E1 & F1 & Q1).
  destruct (body w) as [[a|e] w1]; simpl in E1; subst w1.
  - exists evs1. repeat split; [exact F1 | exact Q1].
  - destruct (Hk e (play evs1 w)) as (evs2 & E2 & F2 & Q2).
    exists (evs1 ++ evs2). rewrite play_app.
    repeat split; [exact E2 | now apply Forall_app | exact Q2].
Qed.

Lemma emits_try_finally {A} (Q : A -> Prop) (body : M float A) (cleanup : M float unit) :
  emits P Q body -> emits P (fun _ => True) cleanup ->
  emits P Q (try_finally body cleanup).
Proof.
  intros Hm Hc w. unfold try_finally.
  destruct (Hm w) as (evs1 & E1 & F1 & Q1).
  destruct (body w) as [r w1]; simpl in E1; subst w1.
  destruct (Hc (play evs1 w)) as (evs2 & E2 & F2 & _).
  destruct (cleanup (play evs1 w)) as [[u|e] w2]; simpl in E2; subst w2;
    exists (evs1 ++ evs2); rewrite play_app;
    (repeat split; [now apply Forall_app|]).
  - exact Q1.
  - discriminate.
Qed.

Lemma emits_weaken {A} (Q Q' : A -> Prop) (m : M float A) :
  (forall a, Q a -> Q' a) -> emits P Q m -> emits P Q' m.
Proof.
  intros HQ Hm w. destruct (Hm w) as (evs & E1 & F1 & Q1).
  exists evs. repeat split; auto.
Qed.

(** The events a computation adds are those of [emits]. *)
Lemma emits_events_of {A} (Q : A -> Prop) (m : M float A) (w : world float) :
  emits P Q m -> Forall P (events_of m w).
Proof.
  intro Hm. destruct (Hm w) as (evs & E1 & F1 & _).
  unfold events_of. rewrite E1, skipn_trace_play. exact F1.
Qed.

End Traces.

(** Reads a world built by successive events as [play] of their list. *)
Ltac to_play w :=
  match goal with
  | |- context [apply_event ?e w] => change (apply_event e w) with (play [e] w)
  end;
  rewrite ?apply_event_play; cbn [app].

(** ** Strings *)

Section Strings.

Local Abbreviation chars := list_ascii_of_string.

Lemma chars_app (a b : string) : chars (a ++ b)%string = chars a ++ chars b.
Proof. induction a as [|c a IH]; simpl; [reflexivity | now rewrite IH]. Qed.

Lemma of_chars_app (l1 l2 : list ascii) :
  string_of_list_ascii (l1 ++ l2)
  = (string_of_list_ascii l1 ++ string_of_list_ascii l2)%string.
Proof. induction l1 as [|c l1 IH]; simpl; [reflexivity | now rewrite IH]. Qed.

Lemma reverse_app (a b : string) :
  PyStr.reverse (a ++ b)%string = (PyStr.reverse b ++ PyStr.reverse a)%string.
Proof. unfold PyStr.reverse. now rewrite chars_app, rev_app_distr, of_chars_app. Qed.

Lemma reverse_involutive (s : string) : PyStr.reverse (PyStr.reverse s) = s.
Proof.
  unfold PyStr.reverse.
  now rewrite list_ascii_of_string_of_list_ascii, rev_involutive,
    string_of_list_ascii_of_string.
Qed.

Lemma uint_chars (u : uint) : Forall (fun c => In c PyStr.digit_chars) (chars (NilEmpty.string_of_uint u)).
Proof.
  induction u; simpl; constructor; try exact IHu; unfold PyStr.digit_chars; simpl; tauto.
Qed.

Lemma to_uint_nonnil (n : nat) : Nat.to_uint n <> Nil.
Proof.
  rewrite <- (Unsigned.of_to n) at 1. rewrite Unsigned.to_of. apply DecimalFacts.unorm_nonnil.
Qed.

Lemma str_nat_chars (n : nat) :
  PyStr.str_nat n <> "" /\ Forall (fun c => In c PyStr.digit_chars) (chars (PyStr.str_nat n)).
Proof.
  unfold PyStr.str_nat. split; [|apply uint_chars].
  pose proof (to_uint_nonnil n) as H. destruct (Nat.to_uint n); simpl; congruence.
Qed.


Lemma reverse_cons (c : ascii) (r : string) :
  PyStr.reverse (String c r) = (PyStr.reverse r ++ String c "")%string.
Proof. change (String c r) with (String c "" ++ r)%string. now rewrite reverse_app. Qed.

Lemma lstrip_app (p : ascii -> bool) (a b : string) :
  a <> "" -> Forall (fun c => p c = false) (chars a) ->
  PyStr.lstrip p (a ++ b)%string = (a ++ b)%string.
Proof.
  destruct a as [|c a]; [congruence|]. intros _ H. inversion H; subst.
  simpl. now rewrite H2.
Qed.

Lemma reverse_chars (p : ascii -> Prop) (s : string) :
  Forall p (chars s) -> Forall p (chars (PyStr.reverse s)).
Proof.
  intro H. unfold PyStr.reverse. rewrite list_ascii_of_string_of_list_ascii.
  now apply Forall_rev.
Qed.

Lemma reverse_nonempty (s : string) : s <> "" -> PyStr.reverse s <> "".
Proof.
  intros H Hr. apply H. rewrite <- (reverse_involutive s), Hr. reflexivity.
Qed.

Lemma append_empty (s : string) : (s ++ "")%string = s.
Proof. induction s as [|c s IH]; simpl; [reflexivity | now rewrite IH]. Qed.

Lemma lstrip_all (p : ascii -> bool) (s : string) :
  s <> "" -> Forall (fun c => p c = false) (chars s) -> PyStr.lstrip p s = s.
Proof.
  intros Hne H. rewrite <- (append_empty s). now apply lstrip_app.
Qed.

Lemma strip_stable (p : ascii -> bool) (s : string) :
  s <> "" -> Forall (fun c => p c = false) (chars s) -> PyStr.strip p s = s.
Proof.
  intros Hne H. unfold PyStr.strip, PyStr.rstrip.
  rewrite (lstrip_all p s Hne H).
  rewrite (lstrip_all p (PyStr.reverse s)).
  - apply reverse_involutive.
  - now apply reverse_nonempty.
  - now apply reverse_chars.
Qed.

Lemma digit_value_digit (c : ascii) :
  In c PyStr.digit_chars -> exists d, PyStr.digit_value c = Some d /\ (0 <= d <= 9)%Z.
Proof.
  unfold PyStr.digit_chars; simpl.
  intros [<-|[<-|[<-|[<-|[<-|[<-|[<-|[<-|[<-|[<-|[]]]]]]]]]]];
    eexists; (split; [reflexivity | vm_compute; split; discriminate]).
Qed.

(** Reading the decimal notation of a number gives the number back. *)
Lemma digits_uint (u : uint) (acc : nat) (b : bool) :
  (u = Nil -> b = true) ->
  PyStr.digits b (Z.of_nat acc) (NilEmpty.string_of_uint u)
  = Some (Z.of_nat (Nat.of_uint_acc u acc)).
Proof.
  revert acc b. induction u; intros acc b Hb;
    cbn [NilEmpty.string_of_uint PyStr.digits Nat.of_uint_acc];
    try (match goal with
         | |- context [PyStr.digit_value ?c] =>
             let v := eval vm_compute in (PyStr.digit_value c) in
             change (PyStr.digit_value c) with v
         end;
         cbv beta iota;
         rewrite <- (IHu _ true) by (intros; reflexivity); f_equal;
         rewrite Nat.tail_mul_spec; lia).
  now rewrite Hb.
Qed.

Lemma digits_str_nat (n : nat) :
  PyStr.digits false 0 (PyStr.str_nat n) = Some (Z.of_nat n).
Proof.
  unfold PyStr.str_nat.
  change 0%Z with (Z.of_nat 0).
  rewrite digits_uint.
  - f_equal. f_equal. apply Unsigned.of_to.
  - intro H. now destruct (to_uint_nonnil n).
Qed.

Lemma digit_not_space (c : ascii) : In c PyStr.digit_chars -> PyStr.is_space c = false.
Proof.
  unfold PyStr.digit_chars; simpl.
  intros [<-|[<-|[<-|[<-|[<-|[<-|[<-|[<-|[<-|[<-|[]]]]]]]]]]]; reflexivity.
Qed.

Lemma int_str_nat (n : nat) : PyStr.int (PyStr.str_nat n) = Some (Z.of_nat n).
Proof.
  destruct (str_nat_chars n) as [Hne Hd].
  unfold PyStr.int. rewrite strip_stable; [|exact Hne|].
  2:{ revert Hd. apply Forall_impl. apply digit_not_space. }
  pose proof (digits_str_nat n) as Hn.
  destruct (PyStr.str_nat n) as [|c r]; [congruence|].
  inversion Hd as [|? ? Hc _]; subst.
  unfold PyStr.digit_chars in Hc; simpl in Hc.
  destruct Hc as [<-|[<-|[<-|[<-|[<-|[<-|[<-|[<-|[<-|[<-|[]]]]]]]]]]]; exact Hn.
Qed.


Lemma split_nonempty (c : ascii) (s : string) : PyStr.split c s <> [].
Proof.
  induction s as [|x s IH]; simpl; [discriminate|].
  destruct (Ascii.eqb x c); [discriminate|].
  destruct (PyStr.split c s); [contradiction | discriminate].
Qed.

Lemma last_item_cons (x : string) (l : list string) :
  l <> [] -> PyStr.last_item (x :: l) = PyStr.last_item l.
Proof. destruct l; [contradiction | reflexivity]. Qed.

(** A string with a separator in it splits in two segments at least. *)
Lemma split_at_separator (c : ascii) (a b : string) :
  exists seg1 seg2 segs, PyStr.split c (a ++ String c b)%string = seg1 :: seg2 :: segs.
Proof.
  induction a as [|x a (seg1 & seg2 & segs & IH)]; simpl.
  - rewrite Ascii.eqb_refl.
    destruct (PyStr.split c b) as [|seg segs] eqn:Hb;
      [now destruct (split_nonempty c b) | now exists "", seg, segs].
  - rewrite IH. destruct (Ascii.eqb x c); eauto.
Qed.

(** The last segment of a split is the last segment of what follows any
    separator. *)
Lemma split_last (c : ascii) (a b : string) :
  PyStr.last_item (PyStr.split c (a ++ String c b)%string)
  = PyStr.last_item (PyStr.split c b).
Proof.
  induction a as [|x a IH]; simpl.
  - rewrite Ascii.eqb_refl. apply last_item_cons, split_nonempty.
  - destruct (split_at_separator c a b) as (seg1 & seg2 & segs & Hs).
    rewrite Hs in *. destruct (Ascii.eqb x c).
    + rewrite last_item_cons by discriminate. exact IH.
    + rewrite <- IH. reflexivity.
Qed.

Lemma split_none (c : ascii) (s : string) :
  Forall (fun x => Ascii.eqb x c = false) (chars s) -> PyStr.split c s = [s].
Proof.
  induction s as [|x s IH]; simpl; intro H; [reflexivity|].
  inversion H; subst. rewrite H2, IH by assumption. reflexivity.
Qed.

Lemma digit_not_paren (c : ascii) :
  In c PyStr.digit_chars -> Ascii.eqb c "(" = false /\ Ascii.eqb c ")" = false.
Proof.
  unfold PyStr.digit_chars; simpl.
  intros [<-|[<-|[<-|[<-|[<-|[<-|[<-|[<-|[<-|[<-|[]]]]]]]]]]]; split; reflexivity.
Qed.

(** The text between the last opening parenthesis and the closing one. *)
Lemma code_text_label (desc ds : string) :
  ds <> "" -> Forall (fun c => In c PyStr.digit_chars) (chars ds) ->
  code_text (desc ++ " (" ++ ds ++ ")")%string = ds.
Proof.
  intros Hne Hd. unfold code_text.
  replace (desc ++ " (" ++ ds ++ ")")%string
    with ((desc ++ " ") ++ String "(" (ds ++ ")"))%string
    by (induction desc as [|x desc IH]; simpl; [reflexivity | now rewrite IH]).
  rewrite split_last, split_none.
  2:{ rewrite chars_app. apply Forall_app. split.
      - revert Hd. apply Forall_impl. intros c Hc. now apply digit_not_paren.
      - repeat constructor. }
  unfold PyStr.last_item, PyStr.strip, PyStr.rstrip. simpl last.
  assert (Forall (fun c => PyStr.is_char ")" c = false) (chars ds)) as Hp.
  { revert Hd. apply Forall_impl. intros c Hc.
    unfold PyStr.is_char. rewrite Ascii.eqb_sym. now apply digit_not_paren. }
  rewrite (lstrip_app _ ds ")" Hne Hp).
  rewrite reverse_app. change (PyStr.reverse ")") with ")"%string.
  cbn [String.append PyStr.lstrip].
  change (PyStr.is_char ")" ")") with true. cbv iota.
  rewrite lstrip_all;
    [apply reverse_involutive | now apply reverse_nonempty | now apply reverse_chars].
Qed.

End Strings.

(** ** Single prediction *)

Section Predict.

Context {float : Type} {E : Collaborators float}.

Lemma events_of_play {A} (m : M float A) (w : world float) (evs : list (event float)) :
  snd (m w) = play evs w -> events_of m w = evs.
Proof. intro H. unfold events_of. rewrite H. apply skipn_trace_play. Qed.

Lemma read_widget_raises (var : widget) (e : exn) :
  read_widget var = Raised e -> exc e = ValueError.
Proof.
  destruct var as [text|text]; simpl.
  - destruct (PyStr.int (code_text text)); intro H; inversion H; reflexivity.
  - destruct (float_of_string text); intro H; inversion H; reflexivity.
Qed.

Lemma read_inputs_raises (vars : list widget) (e : exn) :
  read_inputs vars = Raised e -> exc e = ValueError.
Proof.
  induction vars as [|var vars IH]; simpl; [discriminate|].
  destruct (read_widget var) eqn:Hv.
  - destruct (read_inputs vars); [discriminate|].
    intro H; inversion H; subst. now apply IH.
  - intro H; inversion H; subst. now apply (read_widget_raises var).
Qed.

(** One widget that does not read makes the whole loop raise. *)
Lemma read_inputs_unreadable (vars : list widget) :
  Exists (fun var => reads var = false) vars ->
  exists e, read_inputs vars = Raised e.
Proof.
  induction 1 as [var vars Hv | var vars _ [e IH]]; simpl.
  - unfold reads in Hv. destruct (read_widget var) as [v|e]; [discriminate|].
    now exists e.
  - destruct (read_widget var) as [v|e']; [|now exists e'].
    rewrite IH. now exists e.
Qed.

Lemma read_inputs_length (vars : list widget) (vs : list (pynumber float)) :
  read_inputs vars = Ok vs -> length vs = length vars.
Proof.
  revert vs. induction vars as [|var vars IH]; simpl; intros vs H.
  - now inversion H.
  - destruct (read_widget var); [|discriminate].
    destruct (read_inputs vars) as [vs'|]; [|discriminate].
    inversion H; subst; simpl. f_equal. now apply IH.
Qed.

(** The value of the pipeline does not depend on the state it starts in. *)
Lemma pipeline_value (X : list float) (w w' : world float) :
  fst (pipeline X w) = fst (pipeline X w').
Proof.
  unfold pipeline, call_scaler, call_model, bind, emit, lift; simpl.
  destruct (scaler_transform [X]) as [Y|e]; simpl; [|reflexivity].
  destruct (model_predict Y) as [ps|e]; reflexivity.
Qed.

Lemma predict_read_failure (w : world float) (e : exn) :
  read_inputs (variables w) = Raised e ->
  snd (predict w) =
    play [ResultLabel (result_prefix (lang_of w));
          ResultLabel (error_input (lang_of w));
          LogError ("输入值错误: " ++ exc_msg e)%string] w.
Proof.
  intro H. pose proof (read_inputs_raises _ _ H) as Hc.
  unfold predict, predict_value, bind, try_except, ask, lift, emit. cbn.
  rewrite H. cbn. unfold isinstance_ValueError. rewrite Hc. reflexivity.
Qed.

Lemma predict_pipeline_failure (w : world float) (vs : list (pynumber float)) (e : exn) :
  read_inputs (variables w) = Ok vs ->
  fst (pipeline (map to_float vs) w) = Raised e ->
  result_label (snd (predict w)) =
    if isinstance_ValueError e then error_input (lang_of w)
    else (error_occurred (lang_of w) ++ " " ++ exc_msg e)%string.
Proof.
  intros Hr Hp.
  unfold predict, predict_value, bind, try_except, ask, lift, emit.
  cbn -[pipeline]. rewrite Hr. cbn -[pipeline].
  rewrite (pipeline_value _ w (apply_event (ResultLabel (result_prefix (lang_of w))) w)) in Hp.
  destruct (pipeline (map to_float vs) _) as [r w2]. simpl in Hp. subst r.
  destruct (isinstance_ValueError e); reflexivity.
Qed.

(** The two reports of [predict] never show the same text. *)
Lemma reports_differ (l : language) (msg : string) :
  error_input (translations l) <> (error_occurred (translations l) ++ " " ++ msg)%string.
Proof. destruct l; simpl; discriminate. Qed.

(** The reports of [predict]: an input that does not read is reported
    with the input message; a failure of the scaler or of the model is
    reported with the generic message and its text, unless the exception
    is a [ValueError], which gets the input message too; the two
    messages are never the same text. *)
Theorem predict_failure_report (w : world float) :
  (forall e, read_inputs (variables w) = Raised e ->
     result_label (snd (predict w)) = error_input (lang_of w))
  /\ (forall vs e,
        read_inputs (variables w) = Ok vs ->
        fst (pipeline (map to_float vs) w) = Raised e ->
        result_label (snd (predict w)) =
          if isinstance_ValueError e then error_input (lang_of w)
          else (error_occurred (lang_of w) ++ " " ++ exc_msg e)%string)
  /\ (forall msg,
        error_input (lang_of w) <> (error_occurred (lang_of w) ++ " " ++ msg)%string).
Proof.
  split; [|split].
  - intros e H. rewrite (predict_read_failure w e H). reflexivity.
  - intros vs e. apply predict_pipeline_failure.
  - intro msg. apply reports_differ.
Qed.

(** C3: when some widget of the form is empty or does not read as a
    number, [predict] shows the input message, and none of the events it
    adds is a call of the scaler or of the model. *)
Theorem predict_unreadable_input (w : world float) :
  Exists (fun var => reads var = false) (variables w) ->
  result_label (snd (predict w)) = error_input (lang_of w)
  /\ Forall (fun ev => is_invocation ev = false) (events_of predict w).
Proof.
  intro H. destruct (read_inputs_unreadable _ H) as [e He].
  pose proof (predict_read_failure w e He) as Hw.
  split.
  - rewrite Hw. reflexivity.
  - rewrite (events_of_play _ _ _ Hw). repeat constructor.
Qed.

End Predict.

(** ** Tables *)

Section Frames.

Context {float : Type}.

Local Abbreviation Series := (Series float).

Lemma label_eqb_eq (a b : label) : label_eqb a b = true <-> a = b.
Proof.
  destruct a as [n|s], b as [m|t]; simpl; split; intro H; try discriminate.
  - apply Nat.eqb_eq in H. now subst.
  - inversion H. apply Nat.eqb_refl.
  - apply String.eqb_eq in H. now subst.
  - inversion H. apply String.eqb_refl.
Qed.

Lemma lookup_absent (fr : list (label * Series)) (l : label) :
  ~ In l (map fst fr) -> lookup fr l = None.
Proof.
  induction fr as [|[l' s] fr IH]; simpl; intro H; [reflexivity|].
  destruct (label_eqb l' l) eqn:Heq.
  - apply label_eqb_eq in Heq. tauto.
  - apply IH. tauto.
Qed.

Lemma lookup_present (fr : list (label * Series)) (l : label) (s : Series) :
  NoDup (map fst fr) -> In (l, s) fr -> lookup fr l = Some s.
Proof.
  induction fr as [|[l' s'] fr IH]; simpl; intros Hnd Hin; [contradiction|].
  inversion Hnd as [|? ? Hnotin Hnd']; subst.
  destruct Hin as [Heq|Hin].
  - inversion Heq; subst.
    now rewrite (proj2 (label_eqb_eq l l) eq_refl).
  - destruct (label_eqb l' l) eqn:Heq.
    + apply label_eqb_eq in Heq. subst l'.
      exfalso. apply Hnotin. change l with (fst (l, s)). now apply in_map.
    + now apply IH.
Qed.

(** Selecting columns by the labels of a part of the frame gives that
    part back, when no label occurs twice. *)
Lemma getitem_list_part (n : nat) (fr part : list (label * Series)) :
  NoDup (map fst fr) -> incl part fr ->
  getitem_list {| index := n; frame := fr |} (map fst part) = Ok part.
Proof.
  intros Hnd. induction part as [|[l s] part IH]; simpl; intro Hincl; [reflexivity|].
  unfold getitem; simpl.
  rewrite (lookup_present fr l s Hnd) by (apply Hincl; now left).
  rewrite IH; [reflexivity|].
  intros x Hx. apply Hincl. now right.
Qed.

Lemma all_numeric_part (n : nat) (fr part : list (label * Series)) :
  NoDup (map fst fr) -> incl part fr ->
  all_numeric {| index := n; frame := fr |} (map fst part)
  = Ok (forallb is_numeric_dtype (map snd part)).
Proof.
  intros Hnd. induction part as [|[l s] part IH]; simpl; intro Hincl; [reflexivity|].
  unfold getitem; simpl.
  rewrite (lookup_present fr l s Hnd) by (apply Hincl; now left).
  destruct (is_numeric_dtype s); simpl; [|reflexivity].
  apply IH. intros x Hx. apply Hincl. now right.
Qed.

Lemma combine_labels_fst {A} (g : nat -> A) (cols : list Series) (a : nat) :
  map fst (combine (map g (seq a (length cols))) cols) = map g (seq a (length cols)).
Proof.
  revert a. induction cols as [|c cols IH]; intro a; simpl; [reflexivity|].
  now rewrite IH.
Qed.

Lemma combine_labels_snd {A} (g : nat -> A) (cols : list Series) (a : nat) :
  map snd (combine (map g (seq a (length cols))) cols) = cols.
Proof.
  revert a. induction cols as [|c cols IH]; intro a; simpl; [reflexivity|].
  now rewrite IH.
Qed.

Lemma str_nat_inj (n m : nat) : PyStr.str_nat n = PyStr.str_nat m -> n = m.
Proof.
  unfold PyStr.str_nat. intro H.
  apply Unsigned.to_uint_inj.
  assert (Some (Nat.to_uint n) = Some (Nat.to_uint m)) as Hs
    by (rewrite <- !NilEmpty.usu; now rewrite H).
  now inversion Hs.
Qed.

(** The decimal notation of a number is empty or starts with a digit. *)
Lemma str_nat_not_predicted (n : nat) :
  LStr (PyStr.str_nat n) <> predicted_column.
Proof.
  unfold PyStr.str_nat, predicted_column.
  destruct (Nat.to_uint n); simpl; discriminate.
Qed.

Lemma named_labels (cols : list Series) :
  map fst (named cols) = map (fun i => LStr (PyStr.str_nat i)) (seq 0 (length cols)).
Proof. apply combine_labels_fst. Qed.

Lemma named_columns (cols : list Series) : map snd (named cols) = cols.
Proof. apply combine_labels_snd. Qed.

Lemma named_length (cols : list Series) : length (named cols) = length cols.
Proof. rewrite <- (named_columns cols) at 2. now rewrite length_map. Qed.

Lemma named_NoDup (cols : list Series) : NoDup (map fst (named cols)).
Proof.
  rewrite named_labels.
  apply Injective_map_NoDup; [|apply seq_NoDup].
  intros i j H. inversion H. now apply str_nat_inj.
Qed.

Lemma named_not_predicted (cols : list Series) :
  ~ In predicted_column (map fst (named cols)).
Proof.
  rewrite named_labels. intro H. apply in_map_iff in H.
  destruct H as (i & Hi & _). now apply (str_nat_not_predicted i).
Qed.

(** What [run_prediction] makes of a sheet before it checks it. *)
Lemma renamed_sheet (n : nat) (cols : list Series) :
  set_columns (frame_of_sheet n cols)
              (map astype_str (columns (frame_of_sheet n cols)))
  = {| index := n; frame := named cols |}.
Proof.
  unfold set_columns, columns, frame_of_sheet, named; simpl. f_equal.
  rewrite combine_labels_fst, combine_labels_snd, map_map. reflexivity.
Qed.

(** Appending the predictions to a renamed sheet. *)
Lemma setitem_named (n : nat) (cols : list Series) (p : list float) :
  length p = n ->
  setitem {| index := n; frame := named cols |} predicted_column p
  = Ok (appended n cols p).
Proof.
  intro H. unfold setitem; simpl.
  rewrite (proj2 (Nat.eqb_eq _ _) H).
  now rewrite (lookup_absent _ _ (named_not_predicted cols)).
Qed.

Lemma setitem_mismatch (df : DataFrame float) (l : label) (p : list float) :
  length p <> index df -> exists e, setitem df l p = Raised e /\ exc e = ValueError.
Proof.
  intro H. unfold setitem.
  rewrite (proj2 (Nat.eqb_neq _ _) H). eexists. split; reflexivity.
Qed.

End Frames.

(** ** Batch prediction *)

(** Sequencing in a computation whose intermediate values do not matter. *)
Ltac emits_walk tac :=
  repeat first
    [ apply emits_bind with (Q := fun _ => True); [| intros ? _]
    | apply emits_emit; tac
    | apply emits_lift; intros; exact I
    | apply emits_ask; intros; exact I
    | apply emits_ret; exact I
    | apply emits_raise
    | apply emits_try_except; [| intro]
    | apply emits_try_finally
    | match goal with |- emits _ _ (if ?b then _ else _) => destruct b end
    | match goal with |- emits _ _ (match ?x with _ => _ end) => destruct x end ].

Section Batch.

Context {float : Type} {E : Collaborators float}.

Lemma incl_firstn {A} (k : nat) (l : list A) : incl (firstn k l) l.
Proof.
  intros x Hx. rewrite <- (firstn_skipn k l). apply in_or_app. now left.
Qed.

Lemma numeric_all_floats (cs : list (label * Series float)) :
  forallb is_numeric_dtype (map snd cs) = true ->
  exists fl, all_floats cs = Ok fl /\ length fl = length cs.
Proof.
  induction cs as [|[l s] cs IH]; simpl; intro H.
  - now exists [].
  - apply andb_prop in H. destruct H as [Hs Hcs].
    destruct (IH Hcs) as (fl & Hfl & Hlen). rewrite Hfl.
    destruct s; simpl in *; try discriminate; eexists; (split; [reflexivity|]);
      simpl; now rewrite Hlen.
Qed.

(** A checked sheet has feature vectors: one per row, 8 numbers each. *)
Lemma feature_rows_numeric (n : nat) (cols : list (Series float)) :
  8 <= length cols ->
  forallb is_numeric_dtype (firstn 8 cols) = true ->
  exists X, feature_rows n cols = Ok X
            /\ length X = n /\ Forall (fun row => length row = 8) X.
Proof.
  intros Hlen Hnum. unfold feature_rows, to_numpy.
  destruct (numeric_all_floats (firstn 8 (named cols))) as (fl & Hfl & Hl).
  { now rewrite <- firstn_map, named_columns. }
  rewrite Hfl. eexists. split; [reflexivity|]. split.
  - now rewrite length_map, length_seq.
  - apply Forall_forall. intros row Hrow. apply in_map_iff in Hrow.
    destruct Hrow as (i & <- & _). unfold row_at. rewrite length_map, Hl.
    rewrite firstn_length_le; [reflexivity|]. now rewrite named_length.
Qed.

(** The first half of [predict_table], with the selections by label
    resolved. *)
Lemma predict_table_run (lang : translation) (path : string) (w : world float) :
  predict_table lang path w =
    let w1 := play [BatchStatus (batch_status_reading lang); ReadExcel path] w in
    match read_excel path with
    | Raised e => (Raised e, w1)
    | Ok (n, cols) =>
        let w2 := apply_event (LogInfo ("成功加载Excel文件 " ++ path ++ "。")%string) w1 in
        if Nat.ltb (length cols) 8 then (Raised (too_few_columns (current_language w)), w2)
        else if forallb is_numeric_dtype (firstn 8 cols) then
          scale_and_predict lang {| index := n; frame := named cols |}
                            (firstn 8 (named cols)) w2
        else (Raised (non_numeric_column (current_language w)), w2)
    end.
Proof.
  unfold predict_table, bind, emit, ask, lift, raise, ret.
  cbn -[scale_and_predict getitem_list all_numeric named firstn Nat.ltb
        frame_of_sheet set_columns columns].
  destruct (read_excel path) as [[n cols]|e]; [|reflexivity].
  cbn -[scale_and_predict getitem_list all_numeric named firstn Nat.ltb
        frame_of_sheet set_columns columns].
  rewrite renamed_sheet.
  unfold columns at 1. cbn [frame].
  rewrite length_map, named_length.
  destruct (Nat.ltb (length cols) 8); [reflexivity|].
  unfold columns. cbn [frame]. rewrite firstn_map.
  rewrite (getitem_list_part n _ _ (named_NoDup cols) (incl_firstn 8 _)).
  rewrite (all_numeric_part n _ _ (named_NoDup cols) (incl_firstn 8 _)).
  rewrite <- firstn_map, named_columns.
  cbn -[scale_and_predict named firstn].
  destruct (forallb is_numeric_dtype (firstn 8 cols)); reflexivity.
Qed.

Lemma scale_and_predict_run (lang : translation) (n : nat) (cols : list (Series float))
      (X : matrix float) (w : world float) :
  feature_rows n cols = Ok X ->
  scale_and_predict lang {| index := n; frame := named cols |} (firstn 8 (named cols)) w =
    let w1 := play [BatchStatus (batch_status_scaling lang); ScalerTransform X] w in
    match scaler_transform X with
    | Raised e => (Raised e, w1)
    | Ok Y =>
        let w2 := play [LogInfo "输入数据缩放成功。";
                        BatchStatus (batch_status_predicting lang);
                        ModelPredict Y] w1 in
        match model_predict Y with
        | Raised e => (Raised e, w2)
        | Ok p =>
            (setitem {| index := n; frame := named cols |} predicted_column p,
             apply_event
               (LogInfo (by_language (current_language w) "批量预测完成。"
                                     "Batch prediction completed.")) w2)
        end
    end.
Proof.
  unfold feature_rows. intro HX.
  unfold scale_and_predict, call_scaler_frame, call_scaler, call_model,
    bind, emit, ask, lift.
  cbn -[to_numpy named firstn setitem]. rewrite HX.
  cbn -[to_numpy named firstn setitem].
  destruct (scaler_transform X) as [Y|e]; [|reflexivity].
  cbn -[to_numpy named firstn setitem].
  destruct (model_predict Y) as [p|e]; reflexivity.
Qed.

Lemma batch_predict_run (w : world float) :
  PyStr.truthy (selected_file w) = true ->
  batch_predict w =
    run_prediction (lang_of w) (selected_file w) (play (start_events (lang_of w)) w).
Proof.
  intro H. unfold batch_predict, bind, ask, emit. cbn -[run_prediction].
  rewrite H. reflexivity.
Qed.

(** A sheet that fails a check: the run reports the error and ends. *)
Lemma run_rejected (w : world float) (n : nat) (cols : list (Series float)) (e : exn) :
  PyStr.truthy (selected_file w) = true ->
  read_excel (selected_file w) = Ok (n, cols) ->
  (length cols < 8 /\ e = too_few_columns (current_language w))
  \/ (8 <= length cols /\ forallb is_numeric_dtype (firstn 8 cols) = false
      /\ e = non_numeric_column (current_language w)) ->
  snd (batch_predict w) =
    play (start_events (lang_of w) ++ loading_events (lang_of w) (selected_file w)
          ++ error_events (lang_of w) (current_language w) e ++ finish_events) w.
Proof.
  intros Hsel Hread Hcase.
  rewrite (batch_predict_run w Hsel).
  unfold run_prediction, try_finally, try_except, bind.
  rewrite predict_table_run, Hread.
  destruct Hcase as [[Hlen ->] | (Hlen & Hnum & ->)].
  - rewrite (proj2 (Nat.ltb_lt _ _) Hlen). cbn. reflexivity.
  - rewrite (proj2 (Nat.ltb_ge _ _) Hlen), Hnum. cbn. reflexivity.
Qed.

Lemma rejected_report (w : world float) (e : exn) :
  snd (batch_predict w) =
    play (start_events (lang_of w) ++ loading_events (lang_of w) (selected_file w)
          ++ error_events (lang_of w) (current_language w) e ++ finish_events) w ->
  batch_status (snd (batch_predict w))
  = (error_occurred (lang_of w) ++ " " ++ exc_msg e)%string
  /\ In (ShowError (error_title (lang_of w))
                   (error_occurred (lang_of w) ++ " " ++ exc_msg e)%string)
        (events_of batch_predict w)
  /\ Forall (fun ev => is_invocation ev = false) (events_of batch_predict w).
Proof.
  intro Hw. rewrite (events_of_play _ _ _ Hw), Hw. split; [reflexivity|]. split.
  - simpl. tauto.
  - repeat constructor.
Qed.

(** C4: a sheet with fewer than 8 columns ends the run with the message
    about the number of columns, in the status line and in an error
    dialog, and none of the events of the run is a call of the scaler or
    of the model. *)
Theorem too_few_columns_rejected (w : world float) (n : nat) (cols : list (Series float)) :
  PyStr.truthy (selected_file w) = true ->
  read_excel (selected_file w) = Ok (n, cols) ->
  length cols < 8 ->
  batch_status (snd (batch_predict w))
  = (error_occurred (lang_of w) ++ " " ++ exc_msg (too_few_columns (current_language w)))%string
  /\ In (ShowError (error_title (lang_of w))
                   (error_occurred (lang_of w) ++ " "
                    ++ exc_msg (too_few_columns (current_language w)))%string)
        (events_of batch_predict w)
  /\ Forall (fun ev => is_invocation ev = false) (events_of batch_predict w).
Proof.
  intros Hsel Hread Hlen. apply rejected_report.
  apply (run_rejected w n cols); auto.
Qed.

(** A value that is not a number sits in a column that is not numeric. *)
Lemma cell_not_number (c : Series float) (i : nat) (v : pyobject float) :
  cell c i = Some v -> is_number v = false -> is_numeric_dtype c = false.
Proof.
  destruct c as [l|l|l|l|l]; simpl; intros Hc Hv; try reflexivity;
    destruct (nth_error l i); simpl in Hc; inversion Hc; subst; discriminate.
Qed.

Lemma first_columns_not_numeric (cols : list (Series float)) (j : nat) (c : Series float) :
  j < 8 -> nth_error cols j = Some c -> is_numeric_dtype c = false ->
  forallb is_numeric_dtype (firstn 8 cols) = false.
Proof.
  intros Hj Hc Hnum.
  destruct (forallb is_numeric_dtype (firstn 8 cols)) eqn:Hall; [|reflexivity].
  rewrite forallb_forall in Hall.
  rewrite <- (Hall c), Hnum; [reflexivity|].
  apply (nth_error_In _ j).
  rewrite nth_error_firstn, (proj2 (Nat.ltb_lt _ _) Hj). exact Hc.
Qed.

(** The value of [predict_table] and the events it adds. *)
Lemma predict_table_emits (lang : translation) (path : string) :
  emits (table_event path) (predicted_table path) (predict_table lang path).
Proof.
  intro w. rewrite predict_table_run.
  destruct (read_excel path) as [[n cols]|e] eqn:Hread; cbn [play fold_left].
  2:{ to_play w. eexists. split; [reflexivity|].
      split; [repeat constructor | discriminate]. }
  destruct (Nat.ltb (length cols) 8) eqn:Hlt.
  { to_play w. eexists. split; [reflexivity|].
    split; [repeat constructor | discriminate]. }
  apply Nat.ltb_ge in Hlt.
  destruct (forallb is_numeric_dtype (firstn 8 cols)) eqn:Hnum.
  2:{ to_play w. eexists. split; [reflexivity|].
      split; [repeat constructor | discriminate]. }
  destruct (feature_rows_numeric n cols Hlt Hnum) as (X & HX & _).
  assert (table_event path (ScalerTransform X)) as HevX
    by (exists n, cols; auto).
  rewrite (scale_and_predict_run lang n cols X _ HX). cbn [play fold_left].
  destruct (scaler_transform X) as [Y|e] eqn:HY.
  2:{ to_play w. eexists. split; [reflexivity|].
      split; [repeat constructor; exact HevX | discriminate]. }
  destruct (model_predict Y) as [p|e] eqn:Hp.
  2:{ to_play w. eexists. split; [reflexivity|].
      split; [repeat constructor; exact HevX | discriminate]. }
  to_play w. eexists. split; [reflexivity|].
  split; [repeat constructor; exact HevX |].
  intros df Hdf. cbn [fst] in Hdf.
  destruct (Nat.eq_dec (length p) n) as [Hlen|Hlen].
  - rewrite (setitem_named n cols p Hlen) in Hdf. inversion Hdf; subst df.
    exists n, cols, X, Y, p. auto 10.
  - destruct (setitem_mismatch {| index := n; frame := named cols |}
                               predicted_column p Hlen) as (e & He & _).
    rewrite He in Hdf. discriminate.
Qed.

(** Whether [predict_table] returns a table, and which, does not depend
    on the state it starts in. *)
Lemma predict_table_value (lang : translation) (path : string)
      (w w' : world float) (df : DataFrame float) :
  fst (predict_table lang path w) = Ok df ->
  fst (predict_table lang path w') = Ok df.
Proof.
  rewrite !predict_table_run.
  destruct (read_excel path) as [[n cols]|e]; [|discriminate].
  destruct (Nat.ltb (length cols) 8) eqn:Hlt; [discriminate|].
  apply Nat.ltb_ge in Hlt.
  destruct (forallb is_numeric_dtype (firstn 8 cols)) eqn:Hnum; [|discriminate].
  destruct (feature_rows_numeric n cols Hlt Hnum) as (X & HX & _).
  cbv zeta. rewrite !(scale_and_predict_run lang n cols X _ HX).
  destruct (scaler_transform X) as [Y|e]; [|discriminate].
  destruct (model_predict Y) as [p|e]; [|discriminate].
  intro H. exact H.
Qed.

Lemma table_event_run_event (path : string) (evs : list (event float)) :
  Forall (table_event path) evs -> Forall (run_event path) evs.
Proof.
  apply Forall_impl. intros ev H. destruct ev; simpl in *; tauto.
Qed.

Lemma save_table_emits (lang : translation) (path : string) (df : DataFrame float) :
  predicted_table path df ->
  emits (run_event path) (fun _ => True) (save_table lang path df).
Proof.
  intro Hdf. unfold save_table.
  emits_walk ltac:(first [exact I | exact Hdf]).
Qed.

Lemma report_error_emits (lang : translation) (path : string) (e : exn) :
  emits (run_event path) (fun _ => True) (report_error lang e).
Proof. unfold report_error. emits_walk ltac:(exact I). Qed.

(** The [try] of the worker with its [except] clause. *)
Lemma run_body_emits (lang : translation) (path : string) :
  emits (run_event path) (fun _ => True)
        (try_except (df <- predict_table lang path ;; save_table lang path df)
                    (report_error lang)).
Proof.
  apply emits_try_except; [|intro e; apply report_error_emits].
  apply emits_bind with (Q := predicted_table path).
  - intro w. destruct (predict_table_emits lang path w) as (evs & E1 & F1 & Q1).
    exists evs. auto using table_event_run_event.
  - intros df Hdf. now apply save_table_emits.
Qed.

(** A run: the controls are disabled, the worker does its part, the
    [finally] clause restores the controls. *)
Lemma batch_predict_events (w : world float) :
  PyStr.truthy (selected_file w) = true ->
  exists evs,
    snd (batch_predict w) =
      play (start_events (lang_of w) ++ evs ++ finish_events) w
    /\ Forall (run_event (selected_file w)) evs.
Proof.
  intro Hsel. rewrite (batch_predict_run w Hsel).
  unfold run_prediction, try_finally.
  match goal with |- context [try_except ?b ?h ?w1] =>
    destruct (run_body_emits (lang_of w) (selected_file w) w1) as (evs & E1 & F1 & _);
    destruct (try_except b h w1) as [r w2]
  end.
  simpl in E1. subst w2. exists evs. split; [|exact F1].
  rewrite !play_app. reflexivity.
Qed.

Lemma batch_predict_no_file (w : world float) :
  PyStr.truthy (selected_file w) = false ->
  snd (batch_predict w) =
    play [ShowWarning (warning_no_file (lang_of w)) (warning_no_file_msg (lang_of w))] w.
Proof.
  intro H. unfold batch_predict, bind, ask, emit. cbn -[run_prediction].
  rewrite H. reflexivity.
Qed.

Lemma play_buttons (evs : list (event float)) (w : world float) :
  Forall (fun ev => is_button_config ev = false) evs ->
  batch_button_state (play evs w) = batch_button_state w
  /\ browse_button_state (play evs w) = browse_button_state w.
Proof.
  intro H. revert w. induction H as [|ev evs Hev _ IH]; intro w; simpl.
  - split; reflexivity.
  - destruct (IH (apply_event ev w)) as [-> ->].
    destruct ev; simpl in *; try discriminate; split; reflexivity.
Qed.

Lemma run_event_not_button (path : string) (ev : event float) :
  run_event path ev -> is_button_config ev = false.
Proof. destruct ev; simpl; intro H; try reflexivity; contradiction. Qed.

(** C8: in a run that starts, the first events disable the two buttons,
    the last events enable them again, and no event in between touches
    them: after any number of the events of the worker both are still
    disabled, and at the end of the run, however it ends, both are
    enabled. *)
Theorem batch_controls_restored (w : world float) :
  PyStr.truthy (selected_file w) = true ->
  exists evs,
    snd (batch_predict w) = play (start_events (lang_of w) ++ evs ++ finish_events) w
    /\ Forall (fun ev => is_button_config ev = false) evs
    /\ (forall k,
          batch_button_state (play (start_events (lang_of w) ++ firstn k evs) w) = disabled
          /\ browse_button_state (play (start_events (lang_of w) ++ firstn k evs) w) = disabled)
    /\ batch_button_state (snd (batch_predict w)) = normal
    /\ browse_button_state (snd (batch_predict w)) = normal.
Proof.
  intro Hsel. destruct (batch_predict_events w Hsel) as (evs & Hw & Hevs).
  assert (Forall (fun ev => is_button_config ev = false) evs) as Hnb.
  { revert Hevs. apply Forall_impl. intro ev. apply run_event_not_button. }
  exists evs. split; [exact Hw|]. split; [exact Hnb|]. split.
  - intro k. rewrite play_app.
    destruct (play_buttons (firstn k evs) (play (start_events (lang_of w)) w)) as [-> ->].
    + apply Forall_forall. intros ev Hev.
      rewrite Forall_forall in Hnb. apply Hnb. now apply (incl_firstn k).
    + split; reflexivity.
  - rewrite Hw, app_assoc, play_app. split; reflexivity.
Qed.

Lemma in_batch_events (w : world float) (ev : event float) :
  In ev (events_of batch_predict w) ->
  is_button_config ev = false ->
  (forall t m, ev <> ShowWarning t m) ->
  ev <> ProgressStart -> ev <> ProgressStop ->
  (forall s, ev <> BatchStatus s) ->
  run_event (selected_file w) ev.
Proof.
  intros Hin Hb Hwarn Hps Hpe Hst.
  destruct (PyStr.truthy (selected_file w)) eqn:Hsel.
  - destruct (batch_predict_events w Hsel) as (evs & Hw & Hevs).
    rewrite (events_of_play _ _ _ Hw) in Hin.
    apply in_app_or in Hin. destruct Hin as [Hin|Hin].
    { simpl in Hin. destruct Hin as [<-|[<-|[<-|[<-|[]]]]];
        first [discriminate | congruence | exfalso; eapply Hst; reflexivity]. }
    apply in_app_or in Hin. destruct Hin as [Hin|Hin].
    + rewrite Forall_forall in Hevs. now apply Hevs.
    + simpl in Hin. destruct Hin as [<-|[<-|[<-|[]]]];
        first [discriminate | congruence].
  - rewrite (events_of_play _ _ _ (batch_predict_no_file w Hsel)) in Hin.
    simpl in Hin. destruct Hin as [<-|[]]. exfalso. eapply Hwarn. reflexivity.
Qed.

(** C6: a table that a run writes is the sheet it read, with the same
    number of rows and all the columns of the sheet in their order and
    with their contents, followed by one more column, which holds the
    predictions of the model, one per row; the columns are labelled by
    their positions and the new one by the predicted quantity. *)
Theorem written_table (w : world float) (save_path : string) (df : DataFrame float) :
  In (ToExcel save_path df) (events_of batch_predict w) ->
  exists n cols X Y p,
    read_excel (selected_file w) = Ok (n, cols)
    /\ feature_rows n cols = Ok X
    /\ scaler_transform X = Ok Y
    /\ model_predict Y = Ok p
    /\ index df = n
    /\ length p = n
    /\ map snd (frame df) = cols ++ [Float64 p]
    /\ columns df = map (fun i => LStr (PyStr.str_nat i)) (seq 0 (length cols))
                    ++ [predicted_column].
Proof.
  intro Hin.
  assert (run_event (selected_file w) (ToExcel save_path df)) as Hev
    by (apply (in_batch_events w _ Hin); [reflexivity | discriminate ..]).
  simpl in Hev. destruct Hev as (n & cols & X & Y & p & Hr & _ & HX & HY & Hp & Hl & ->).
  exists n, cols, X, Y, p. repeat (split; [assumption|]).
  split; [reflexivity|]. split; [assumption|].
  unfold columns, appended; simpl.
  rewrite !map_app, named_columns, named_labels. split; reflexivity.
Qed.

Lemma table_event_quiet (path : string) (ev : event float) :
  table_event path ev -> is_to_excel ev = false /\ is_show_error ev = false.
Proof. destruct ev; simpl; intro H; try contradiction; split; reflexivity. Qed.

(** The status line of a cancelled save is not an error report. *)
Lemma cancelled_is_not_error (l : language) (msg : string) :
  save_cancelled l <> (error_occurred (translations l) ++ " " ++ msg)%string.
Proof. destruct l; simpl; discriminate. Qed.

(** C9: when scaling and prediction succeed and the save dialog returns
    no destination, no event of the run writes a file and none shows an
    error dialog; the status line ends with the cancellation message,
    which no error report can equal. *)
Theorem cancelled_save_writes_nothing (w : world float) (df : DataFrame float) :
  PyStr.truthy (selected_file w) = true ->
  fst (predict_table (lang_of w) (selected_file w) w) = Ok df ->
  PyStr.truthy (asksaveasfilename ("predicted_" ++ PyStr.basename (selected_file w))%string)
  = false ->
  Forall (fun ev => is_to_excel ev = false) (events_of batch_predict w)
  /\ Forall (fun ev => is_show_error ev = false) (events_of batch_predict w)
  /\ batch_status (snd (batch_predict w)) = save_cancelled (current_language w)
  /\ (forall msg,
        save_cancelled (current_language w)
        <> (error_occurred (lang_of w) ++ " " ++ msg)%string).
Proof.
  intros Hsel Hdf Hcancel.
  assert (exists evs,
             snd (batch_predict w)
             = play (start_events (lang_of w) ++ evs
                     ++ [BatchStatus (batch_status_saving (lang_of w));
                         AskSaveAs (by_language (current_language w)
                                      (browse (lang_of w)) "Save Excel File")
                                   ("predicted_" ++ PyStr.basename (selected_file w))%string;
                         BatchStatus (save_cancelled (current_language w))]
                     ++ finish_events) w
             /\ Forall (table_event (selected_file w)) evs) as (evs & Hw & Hevs).
  { rewrite (batch_predict_run w Hsel).
    set (w1 := play (start_events (lang_of w)) w).
    unfold run_prediction, try_finally, try_except. unfold bind at 1.
    pose proof (predict_table_value _ _ w w1 df Hdf) as Hdf1.
    destruct (predict_table_emits (lang_of w) (selected_file w) w1)
      as (evs & E1 & F1 & _).
    destruct (predict_table (lang_of w) (selected_file w) w1) as [r w2].
    simpl in E1, Hdf1. subst r w2. exists evs. split; [|exact F1].
    unfold save_table, bind, ask, emit.
    cbn -[PyStr.basename PyStr.truthy] in Hcancel.
    cbn -[PyStr.basename PyStr.truthy play start_events]. rewrite Hcancel.
    destruct (play_keeps_form evs w1) as [Hl _].
    { revert F1. apply Forall_impl. intros ev. destruct ev; simpl; tauto. }
    cbn -[PyStr.basename PyStr.truthy play start_events]. rewrite Hl.
    subst w1. rewrite !play_app. reflexivity. }
  rewrite (events_of_play _ _ _ Hw), Hw.
  assert (Forall (fun ev => is_to_excel ev = false /\ is_show_error ev = false) evs)
    as Hquiet.
  { revert Hevs. apply Forall_impl. intro ev. apply table_event_quiet. }
  repeat split.
  - repeat (apply Forall_app; split); try (repeat constructor).
    revert Hquiet. apply Forall_impl. tauto.
  - repeat (apply Forall_app; split); try (repeat constructor).
    revert Hquiet. apply Forall_impl. tauto.
  - rewrite !play_app. reflexivity.
  - apply cancelled_is_not_error.
Qed.

End Batch.

(** ** The batch path and the single path *)

Section Equivalence.

Context {float : Type} {E : Collaborators float}.

Lemma Forall2_at {A B} (R : A -> B -> Prop) (l1 : list A) (l2 : list B) (i : nat) (x : A) :
  Forall2 R l1 l2 -> nth_error l1 i = Some x ->
  exists y, nth_error l2 i = Some y /\ R x y.
Proof.
  intro H. revert i. induction H as [|a b l1 l2 Hab _ IH]; intros [|i] Hx;
    simpl in *; try discriminate.
  - inversion Hx; subst. now exists b.
  - now apply IH.
Qed.

Lemma all_floats_length (cs : list (label * Series float)) (fl : list (list float)) :
  all_floats cs = Ok fl -> length fl = length cs.
Proof.
  revert fl. induction cs as [|[l s] cs IH]; simpl; intros fl H.
  - now inversion H.
  - destruct (series_floats s); [|discriminate].
    destruct (all_floats cs) as [fl'|]; [|discriminate].
    inversion H; subst; simpl. now rewrite (IH fl').
Qed.

(** The feature vectors of a sheet: one per row, each with one number
    per feature column. *)
Lemma feature_rows_shape (n : nat) (cols : list (Series float)) (X : matrix float) :
  8 <= length cols -> feature_rows n cols = Ok X ->
  length X = n /\ Forall (fun row => length row = 8) X.
Proof.
  unfold feature_rows, to_numpy. intros Hlen H.
  destruct (all_floats (firstn 8 (named cols))) as [fl|] eqn:Hfl; [|discriminate].
  inversion H; subst X. split.
  - now rewrite length_map, length_seq.
  - apply Forall_forall. intros row Hrow. apply in_map_iff in Hrow.
    destruct Hrow as (i & <- & _). unfold row_at.
    rewrite length_map, (all_floats_length _ _ Hfl).
    rewrite firstn_length_le; [reflexivity|]. now rewrite named_length.
Qed.

(** The pipeline on a row of a batch that the artifacts treat row by row. *)
Lemma pipeline_on_row (x y : list float) (p : float) (w : world float) :
  scaler_transform [x] = Ok [y] -> model_predict [y] = Ok [p] ->
  fst (pipeline x w) = Ok p.
Proof.
  intros Hs Hm. unfold pipeline, call_scaler, call_model, bind, emit, lift; simpl.
  rewrite Hs; simpl. rewrite Hm; reflexivity.
Qed.

Lemma predict_success (w : world float) (vs : list (pynumber float)) (p : float) :
  read_inputs (variables w) = Ok vs ->
  fst (pipeline (map to_float vs) w) = Ok p ->
  result_label (snd (predict w))
  = (result_prefix (lang_of w) ++ format_2f p ++ " MPa")%string.
Proof.
  intros Hr Hp.
  unfold predict, predict_value, bind, try_except, ask, lift, emit, ret.
  cbn -[pipeline]. rewrite Hr. cbn -[pipeline].
  rewrite (pipeline_value _ w (apply_event (ResultLabel (result_prefix (lang_of w))) w)) in Hp.
  destruct (pipeline (map to_float vs) _) as [r w2]. simpl in Hp. subst r.
  reflexivity.
Qed.

(** C1: when the artifacts work row by row and the batch path returns a
    table, the table is the sheet with one column of predictions
    appended, and for each row [i] the prediction at [i] is the value of
    the single pipeline on the feature vector of row [i] (its first 8
    cells); [predict] shows that value for a form that reads as the same
    numbers. *)
Theorem batch_matches_single (lang : translation) (path : string) (w : world float)
        (df : DataFrame float) :
  rowwise_scaler -> rowwise_model ->
  fst (predict_table lang path w) = Ok df ->
  exists n cols X predictions,
    read_excel path = Ok (n, cols)
    /\ feature_rows n cols = Ok X
    /\ df = appended n cols predictions
    /\ length predictions = n
    /\ forall i, i < n ->
         exists row p,
           nth_error X i = Some row
           /\ length row = 8
           /\ nth_error predictions i = Some p
           /\ (forall w0, fst (pipeline row w0) = Ok p)
           /\ (forall w0 vs,
                 read_inputs (variables w0) = Ok vs -> map to_float vs = row ->
                 result_label (snd (predict w0))
                 = (result_prefix (lang_of w0) ++ format_2f p ++ " MPa")%string).
Proof.
  intros Hscaler Hmodel Hdf.
  destruct (predict_table_emits lang path w) as (_ & _ & _ & Q).
  destruct (Q df Hdf) as (n & cols & X & Y & p & Hread & Hlen & HX & HY & Hp & Hn & ->).
  exists n, cols, X, p. repeat (split; [assumption || reflexivity|]).
  destruct (feature_rows_shape n cols X Hlen HX) as [HnX H8].
  intros i Hi.
  destruct (nth_error X i) as [row|] eqn:Hrow.
  2:{ apply nth_error_None in Hrow. lia. }
  destruct (Forall2_at _ _ _ i row (Hscaler X Y HY) Hrow) as (y & Hy & Hsy).
  destruct (Forall2_at _ _ _ i y (Hmodel Y p Hp) Hy) as (v & Hv & Hmv).
  exists row, v. split; [reflexivity|]. split.
  { rewrite Forall_forall in H8. apply H8. now apply (nth_error_In _ i). }
  split; [exact Hv|]. split.
  - intro w0. now apply (pipeline_on_row row y).
  - intros w0 vs Hr <-. apply (predict_success w0 vs v Hr).
    now apply (pipeline_on_row _ y).
Qed.

End Equivalence.

(** ** The form and the language *)

Section Form.

Context {float : Type} {E : Collaborators float}.

Lemma variables_of_shape (l : language) (f : form_input) :
  variables_of l f =
    [ Entry (typed f 0);
      StringVar (nth (pick f FM) (combobox_values (translations l) FM) "");
      StringVar (nth (pick f FT) (combobox_values (translations l) FT) "");
      StringVar (nth (pick f BS) (combobox_values (translations l) BS) "");
      Entry (typed f 4); Entry (typed f 5); Entry (typed f 6); Entry (typed f 7) ].
Proof. destruct l; reflexivity. Qed.

Lemma values_length (l : language) (k : combobox_type) :
  length (combobox_values (translations l) k) = length (codes k).
Proof. destruct l, k; reflexivity. Qed.

Lemma codes_length (k : combobox_type) :
  length (codes k) = length (lang_values (translations en) k).
Proof. apply length_map. Qed.

(** An option of a combobox reads as its code, in either language. *)
Lemma option_reads (l : language) (k : combobox_type) (i : nat) :
  i < length (codes k) ->
  read_widget (StringVar (nth i (combobox_values (translations l) k) ""))
  = Ok (PyInt (nth i (codes k) 0%Z)).
Proof.
  intro H.
  destruct l, k; simpl in H;
    do 5 (destruct i as [|i]; [first [vm_compute; reflexivity | lia]|]); lia.
Qed.

(** An option [f"{desc} ({val})"] reads as [val], whatever the description. *)
Lemma label_reads_as_code (desc : string) (val : Z) :
  (0 <= val)%Z ->
  read_widget (StringVar (format_value (desc, val))) = Ok (PyInt val).
Proof.
  intro Hval. unfold read_widget, format_value; simpl fst; simpl snd.
  assert (PyStr.str_int val = PyStr.str_nat (Z.to_nat val)) as ->
    by (destruct val; [reflexivity | reflexivity | lia]).
  destruct (str_nat_chars (Z.to_nat val)) as [Hne Hd].
  rewrite (code_text_label desc _ Hne Hd), int_str_nat.
  f_equal. f_equal. lia.
Qed.

(** What the loop of [predict] collects from a form. *)
Lemma read_inputs_form (l : language) (f : form_input) :
  valid_pick f ->
  read_inputs (variables_of l f) =
    match read_widget (Entry (typed f 0)) with
    | Raised e => Raised e
    | Ok t =>
        match read_inputs [Entry (typed f 4); Entry (typed f 5);
                           Entry (typed f 6); Entry (typed f 7)] with
        | Raised e => Raised e
        | Ok rest =>
            Ok (t :: PyInt (picked f FM) :: PyInt (picked f FT)
                  :: PyInt (picked f BS) :: rest)
        end
    end.
Proof.
  intro Hf. rewrite variables_of_shape.
  assert (forall k, pick f k < length (codes k)) as Hk
    by (intro k; rewrite codes_length; apply Hf).
  cbn [read_inputs]. rewrite !option_reads by apply Hk.
  destruct (read_widget (Entry (typed f 0))); [|reflexivity].
  destruct (read_widget (Entry (typed f 4))); [|reflexivity].
  destruct (read_widget (Entry (typed f 5))); [|reflexivity].
  destruct (read_widget (Entry (typed f 6))); [|reflexivity].
  destruct (read_widget (Entry (typed f 7))); reflexivity.
Qed.


Lemma predict_value_fst (w : world float) :
  fst (predict_value w) =
    match read_inputs (variables w) with
    | Raised e => Raised e
    | Ok vs =>
        match fst (pipeline (map to_float vs) w) with
        | Ok p => Ok (vs, p)
        | Raised e => Raised e
        end
    end.
Proof.
  unfold predict_value, bind, ask, lift, ret. cbn -[pipeline].
  destruct (read_inputs (variables w)) as [vs|e]; [|reflexivity].
  destruct (pipeline (map to_float vs) w) as [[p|e] w']; reflexivity.
Qed.

(** C10: whatever the language, the text of the option picked in a
    combobox reads as the code of that option.  So, for the same picks
    in the comboboxes and the same texts in the entries, the loop of
    [predict] collects the same values whether the form shows its
    English or its Chinese labels, and the value of the prediction (or
    the exception) is the same.  When the five entries read, the values
    collected are those of the entries with the three codes in between;
    when the pipeline returns on them, both forms get the same number,
    shown with two decimals after the prefix of their language. *)
Theorem prediction_language_independent (f : form_input) (l1 l2 : language)
        (w1 w2 : world float) :
  valid_pick f ->
  current_language w1 = l1 -> variables w1 = variables_of l1 f ->
  current_language w2 = l2 -> variables w2 = variables_of l2 f ->
  (forall k,
      read_widget (StringVar (nth (pick f k) (combobox_values (translations l1) k) ""))
      = Ok (PyInt (picked f k))
      /\ read_widget (StringVar (nth (pick f k) (combobox_values (translations l2) k) ""))
         = Ok (PyInt (picked f k)))
  /\ read_inputs (variables w1) = read_inputs (variables w2)
  /\ fst (predict_value w1) = fst (predict_value w2)
  /\ (forall vs, read_inputs (variables w1) = Ok vs ->
        nth_error vs 1 = Some (PyInt (picked f FM))
        /\ nth_error vs 2 = Some (PyInt (picked f FT))
        /\ nth_error vs 3 = Some (PyInt (picked f BS)))
  /\ (forall x0 x4 x5 x6 x7,
        float_of_string (typed f 0) = Some x0 ->
        float_of_string (typed f 4) = Some x4 ->
        float_of_string (typed f 5) = Some x5 ->
        float_of_string (typed f 6) = Some x6 ->
        float_of_string (typed f 7) = Some x7 ->
        read_inputs (variables w1) = Ok (form_values f x0 x4 x5 x6 x7)
        /\ read_inputs (variables w2) = Ok (form_values f x0 x4 x5 x6 x7)
        /\ forall p,
             fst (pipeline (map to_float (form_values f x0 x4 x5 x6 x7)) w1) = Ok p ->
             fst (predict_value w1) = Ok (form_values f x0 x4 x5 x6 x7, p)
             /\ fst (predict_value w2) = Ok (form_values f x0 x4 x5 x6 x7, p)
             /\ result_label (snd (predict w1))
                = (result_prefix (translations l1) ++ format_2f p ++ " MPa")%string
             /\ result_label (snd (predict w2))
                = (result_prefix (translations l2) ++ format_2f p ++ " MPa")%string).
Proof.
  intros Hf Hl1 Hv1 Hl2 Hv2.
  assert (forall k, pick f k < length (codes k)) as Hk
    by (intro k; rewrite codes_length; apply Hf).
  assert (read_inputs (variables w1) = read_inputs (variables w2)) as Hsame
    by (rewrite Hv1, Hv2, !read_inputs_form by exact Hf; reflexivity).
  assert (fst (predict_value w1) = fst (predict_value w2)) as Hvalue.
  { rewrite !predict_value_fst, Hsame.
    destruct (read_inputs (variables w2)) as [vs|e]; [|reflexivity].
    now rewrite (pipeline_value _ w1 w2). }
  split; [|split; [exact Hsame|split; [exact Hvalue|split]]].
  - intro k. split; apply option_reads, Hk.
  - intros vs. rewrite Hv1, read_inputs_form by exact Hf.
    destruct (read_widget (Entry (typed f 0))) as [t|]; [|discriminate].
    match goal with
    | |- match ?x with _ => _ end = _ -> _ => destruct x as [rest|]
    end; [|discriminate].
    intro H; inversion H; subst. repeat split.
  - intros x0 x4 x5 x6 x7 H0 H4 H5 H6 H7.
    assert (read_inputs (variables w1) = Ok (form_values f x0 x4 x5 x6 x7)) as Hr1.
    { rewrite Hv1, read_inputs_form by exact Hf.
      cbn [read_inputs read_widget]. rewrite H0, H4, H5, H6, H7. reflexivity. }
    assert (read_inputs (variables w2) = Ok (form_values f x0 x4 x5 x6 x7)) as Hr2
      by (rewrite <- Hsame; exact Hr1).
    split; [exact Hr1|]. split; [exact Hr2|]. intros p Hp.
    assert (fst (predict_value w1) = Ok (form_values f x0 x4 x5 x6 x7, p)) as Hp1
      by (rewrite predict_value_fst, Hr1, Hp; reflexivity).
    split; [exact Hp1|]. split; [rewrite <- Hvalue; exact Hp1|]. split.
    + rewrite (predict_success w1 _ p Hr1 Hp). unfold lang_of. now rewrite Hl1.
    + rewrite (pipeline_value _ w1 w2) in Hp.
      rewrite (predict_success w2 _ p Hr2 Hp). unfold lang_of. now rewrite Hl2.
Qed.

End Form.

(** ** What reaches the scaler *)

Section Invariant.

Context {float : Type} {E : Collaborators float}.

Lemma predict_emits : emits keeps_form (fun _ => True) predict.
Proof.
  unfold predict, predict_value, pipeline, call_scaler, call_model.
  emits_walk ltac:(exact I).
Qed.

Lemma browse_file_emits : emits keeps_form (fun _ => True) browse_file.
Proof. unfold browse_file. cbv zeta. emits_walk ltac:(exact I). Qed.

Lemma run_event_keeps_form (path : string) (ev : event float) :
  run_event path ev -> keeps_form ev.
Proof. destruct ev; simpl; tauto. Qed.

Lemma batch_predict_keeps_form (w : world float) :
  current_language (snd (batch_predict w)) = current_language w
  /\ variables (snd (batch_predict w)) = variables w.
Proof.
  destruct (PyStr.truthy (selected_file w)) eqn:Hsel.
  - destruct (batch_predict_events w Hsel) as (evs & -> & Hevs).
    apply play_keeps_form. repeat (apply Forall_app; split).
    + repeat constructor.
    + revert Hevs. apply Forall_impl. intro ev. apply run_event_keeps_form.
    + repeat constructor.
  - rewrite (batch_predict_no_file w Hsel). split; reflexivity.
Qed.

Lemma emits_keeps_form {A} (m : M float A) (w : world float) :
  emits keeps_form (fun _ => True) m ->
  current_language (snd (m w)) = current_language w
  /\ variables (snd (m w)) = variables w.
Proof.
  intro H. destruct (H w) as (evs & -> & Hevs & _). now apply play_keeps_form.
Qed.

(** In every state the application reaches, the form is the one built
    from the labels of the current language, with some option picked in
    each combobox. *)
Lemma reachable_form (w : world float) :
  reachable w ->
  exists f, valid_pick f /\ variables w = variables_of (current_language w) f.
Proof.
  induction 1 as [ | a w _ (f & Hf & Hv) | l w _ (f & Hf & Hv)
                   | w _ (f & Hf & Hv) | w _ (f & Hf & Hv) | w _ (f & Hf & Hv) ].
  - exists {| pick := fun _ => 0; typed := fun _ => "" |}. split; [|reflexivity].
    intros [ | | ]; simpl; lia.
  - destruct a as [i text | k i]; simpl.
    + exists {| pick := pick f;
                typed := fun j => if Nat.eqb j i then text else typed f j |}.
      split; [exact Hf|]. rewrite Hv, !variables_of_shape. reflexivity.
    + unfold lang_of. destruct (nth_error _ i) as [text|] eqn:Hi.
      2:{ exists f. now split. }
      assert (i < length (codes k)) as Hlen.
      { rewrite <- (values_length (current_language w)).
        apply nth_error_Some. now rewrite Hi. }
      apply (nth_error_nth _ _ "") in Hi. subst text.
      exists {| pick := fun k' => if combobox_type_eqb k' k then i else pick f k';
                typed := typed f |}.
      split.
      * intro k'. simpl. destruct (combobox_type_eqb k' k) eqn:Hk; [|apply Hf].
        rewrite <- codes_length. destruct k', k; try discriminate; exact Hlen.
      * simpl. rewrite Hv, !variables_of_shape. destruct k; reflexivity.
  - exists {| pick := fun _ => 0; typed := typed f |}. split.
    + intros [ | | ]; simpl; lia.
    + unfold set_language, update_language, bind, emit, ask. cbn.
      rewrite Hv, !variables_of_shape. destruct l; reflexivity.
  - destruct (emits_keeps_form predict w predict_emits) as [-> ->]. now exists f.
  - destruct (emits_keeps_form browse_file w browse_file_emits) as [-> ->]. now exists f.
  - destruct (batch_predict_keeps_form w) as [-> ->]. now exists f.
Qed.

(** The events of [predict] when the form reads: one call of the scaler,
    on the one-row array of the values read. *)
Lemma predict_scales_inputs (w : world float) (vs : list (pynumber float)) :
  read_inputs (variables w) = Ok vs ->
  exists rest,
    snd (predict w)
    = play (ResultLabel (result_prefix (lang_of w))
            :: ScalerTransform [map to_float vs] :: rest) w
    /\ Forall (fun ev => forall X, ev <> ScalerTransform X) rest.
Proof.
  intro Hr.
  unfold predict, predict_value, pipeline, call_scaler, call_model,
    bind, try_except, ask, lift, emit, ret.
  cbn -[play]. rewrite Hr. cbn -[play].
  destruct (scaler_transform [map to_float vs]) as [Y|e]; cbn -[play].
  2:{ destruct (isinstance_ValueError e); to_play w; eexists;
        (split; [reflexivity|]);
        repeat (apply Forall_cons; [intros X HX; discriminate|]); apply Forall_nil. }
  destruct (model_predict Y) as [[|p ps]|e]; cbn -[play];
    try (destruct (isinstance_ValueError e)); to_play w; eexists;
    (split; [reflexivity|]);
    repeat (apply Forall_cons; [intros X HX; discriminate|]); apply Forall_nil.
Qed.

(** The rows of a selection of columns, cell by cell. *)
Lemma all_floats_cells (cs : list (label * Series float)) (fl : list (list float))
      (i : nat) :
  all_floats cs = Ok fl ->
  row_at fl i = map (fun c => float_of_cell c i) (map snd cs).
Proof.
  revert fl. induction cs as [|[l c] cs IH]; simpl; intros fl H.
  - now inversion H.
  - destruct (series_floats c) as [x|] eqn:Hc; [|discriminate].
    destruct (all_floats cs) as [fl'|]; [|discriminate].
    inversion H; subst fl. unfold row_at in *. cbn [map]. rewrite (IH fl' eq_refl).
    f_equal. destruct c; simpl in Hc; inversion Hc; subst; reflexivity.
Qed.

Lemma feature_rows_cells (n : nat) (cols : list (Series float)) (X : matrix float) :
  feature_rows n cols = Ok X ->
  X = map (fun i => map (fun c => float_of_cell c i) (firstn 8 cols)) (seq 0 n).
Proof.
  unfold feature_rows, to_numpy. intro H.
  destruct (all_floats (firstn 8 (named cols))) as [fl|] eqn:Hfl; [|discriminate].
  inversion H; subst X. apply map_ext. intro i.
  rewrite (all_floats_cells _ _ i Hfl), <- firstn_map, named_columns. reflexivity.
Qed.


End Invariant.

(** ** The properties on the sample *)

Lemma sample_scaler_rowwise (means scales : list Q) (X Y : matrix Q) :
  Sample.standard_scaler means scales X = Ok Y ->
  Forall2 (fun x y => Sample.standard_scaler means scales [x] = Ok [y]) X Y.
Proof.
  revert Y. induction X as [|row X IH]; intros Y H.
  - inversion H. constructor.
  - cbn [Sample.standard_scaler] in H.
    destruct (Nat.eqb (length row) (length means)) eqn:Hlen; [|discriminate].
    destruct (Sample.standard_scaler means scales X) as [rows|]; [|discriminate].
    inversion H; subst Y. constructor.
    + cbn [Sample.standard_scaler]. rewrite Hlen. reflexivity.
    + now apply IH.
Qed.

Lemma sample_tree_rowwise (X : matrix Q) (p : list Q) :
  Sample.tree_predict X = Ok p ->
  Forall2 (fun x v => Sample.tree_predict [x] = Ok [v]) X p.
Proof.
  unfold Sample.tree_predict. intro H. inversion H; subst p.
  induction X as [|row X IH]; simpl; constructor; [reflexivity|].
  apply IH. reflexivity.
Qed.

(** The batch on the sheet of the specimens agrees with the single
    pipeline, row by row. *)
Lemma batch_matches_single_witness :
  rowwise_scaler (E := Sample.collaborators)
  /\ rowwise_model (E := Sample.collaborators)
  /\ fst (predict_table (translations zh) "specimens.xlsx" initial_world)
     = Ok Sample.predicted_specimens
  /\ exists n cols X predictions,
       read_excel "specimens.xlsx" = Ok (n, cols)
       /\ feature_rows n cols = Ok X
       /\ Sample.predicted_specimens = appended n cols predictions
       /\ length predictions = n
       /\ forall i, i < n ->
            exists row p,
              nth_error X i = Some row
              /\ length row = 8
              /\ nth_error predictions i = Some p
              /\ (forall w0, fst (pipeline row w0) = Ok p)
              /\ (forall w0 vs,
                    read_inputs (variables w0) = Ok vs -> map to_float vs = row ->
                    result_label (snd (predict w0))
                    = (result_prefix (lang_of w0) ++ format_2f p ++ " MPa")%string).
Proof.
  assert (rowwise_scaler (E := Sample.collaborators)) as Hs
    by (intros X Y; apply sample_scaler_rowwise).
  assert (rowwise_model (E := Sample.collaborators)) as Hm
    by (intros X p; apply sample_tree_rowwise).
  split; [exact Hs|]. split; [exact Hm|]. split; [vm_compute; reflexivity|].
  apply (batch_matches_single (translations zh) "specimens.xlsx" initial_world
                              Sample.predicted_specimens Hs Hm).
  vm_compute; reflexivity.
Defined.

(** C2, where the code departs from it: a scaler fitted on nine features
    raises a [ValueError] on the form of the example, whose 8 fields all
    read as numbers; [predict] reports it with the message for invalid
    input, not with the generic one, because its first handler selects
    on the class of the exception and not on where it was raised. *)
Lemma scaler_ValueError_reported_as_input_error :
  read_inputs (E := Sample.refitted) (variables (Sample.fill Sample.example_form initial_world))
  = Ok [PyFloat (25 # 1)%Q; PyInt 2%Z; PyInt 1%Z; PyInt 3%Z; PyFloat (12 # 1)%Q;
        PyFloat (100 # 1)%Q; PyFloat (30 # 1)%Q; PyFloat (3 # 2)%Q]
  /\ scaler_transform (Collaborators := Sample.refitted)
       [[25 # 1; 2 # 1; 1 # 1; 3 # 1; 12 # 1; 100 # 1; 30 # 1; 3 # 2]%Q]
     = Raised (Sample.feature_mismatch 8 9)
  /\ result_label (snd (predict (E := Sample.refitted)
                                (Sample.fill Sample.example_form initial_world)))
     = error_input (translations zh)
  /\ result_label (snd (predict (E := Sample.refitted)
                                (Sample.fill Sample.example_form initial_world)))
     <> (error_occurred (translations zh) ++ " "
         ++ exc_msg (Sample.feature_mismatch 8 9))%string.
Proof.
  split; [vm_compute; reflexivity|]. split; [vm_compute; reflexivity|].
  split; [vm_compute; reflexivity|]. vm_compute. discriminate.
Qed.

(** The report of [predict] on the same form with the refitted scaler. *)
Lemma predict_failure_report_witness :
  result_label (snd (predict (E := Sample.refitted)
                             (Sample.fill Sample.example_form initial_world)))
  = error_input (translations zh).
Proof.
  destruct (predict_failure_report (E := Sample.refitted)
              (Sample.fill Sample.example_form initial_world)) as (_ & H & _).
  apply (H [PyFloat (25 # 1)%Q; PyInt 2%Z; PyInt 1%Z; PyInt 3%Z; PyFloat (12 # 1)%Q;
            PyFloat (100 # 1)%Q; PyFloat (30 # 1)%Q; PyFloat (3 # 2)%Q]
           (Sample.feature_mismatch 8 9)); vm_compute; reflexivity.
Defined.

(** The form of the example with the bar diameter left empty. *)
Lemma predict_unreadable_input_witness :
  Exists (fun var => reads var = false)
         (variables (Sample.fill Sample.incomplete_form initial_world))
  /\ result_label (snd (predict (Sample.fill Sample.incomplete_form initial_world)))
     = error_input (lang_of (Sample.fill Sample.incomplete_form initial_world))
  /\ Forall (fun ev => is_invocation ev = false)
            (events_of predict (Sample.fill Sample.incomplete_form initial_world)).
Proof.
  assert (Exists (fun var => reads var = false)
                 (variables (Sample.fill Sample.incomplete_form initial_world))) as H.
  { apply Exists_exists. exists (Entry "").
    split; [vm_compute; tauto | vm_compute; reflexivity]. }
  split; [exact H|].
  apply (predict_unreadable_input (Sample.fill Sample.incomplete_form initial_world) H).
Defined.

(** A sheet of five columns. *)
Lemma too_few_columns_rejected_witness :
  PyStr.truthy (selected_file (Sample.selected "short.xlsx")) = true
  /\ read_excel (selected_file (Sample.selected "short.xlsx")) = Ok (3, Sample.short)
  /\ length Sample.short < 8
  /\ batch_status (snd (batch_predict (Sample.selected "short.xlsx")))
     = (error_occurred (translations zh) ++ " " ++ exc_msg (too_few_columns zh))%string
  /\ In (ShowError (error_title (translations zh))
                   (error_occurred (translations zh) ++ " "
                    ++ exc_msg (too_few_columns zh))%string)
        (events_of batch_predict (Sample.selected "short.xlsx"))
  /\ Forall (fun ev => is_invocation ev = false)
            (events_of batch_predict (Sample.selected "short.xlsx")).
Proof.
  split; [reflexivity|]. split; [reflexivity|]. split; [simpl; lia|].
  apply (too_few_columns_rejected (Sample.selected "short.xlsx") 3 Sample.short);
    [reflexivity | reflexivity | simpl; lia].
Defined.

(** The table written for the sheet of the specimens. *)
Lemma written_table_witness :
  In (ToExcel "results/predicted_specimens.xlsx" Sample.predicted_specimens)
     (events_of batch_predict (Sample.selected "specimens.xlsx"))
  /\ exists n cols X Y p,
       read_excel (selected_file (Sample.selected "specimens.xlsx")) = Ok (n, cols)
       /\ feature_rows n cols = Ok X
       /\ scaler_transform X = Ok Y
       /\ model_predict Y = Ok p
       /\ index Sample.predicted_specimens = n
       /\ length p = n
       /\ map snd (frame Sample.predicted_specimens) = cols ++ [Float64 p]
       /\ columns Sample.predicted_specimens
          = map (fun i => LStr (PyStr.str_nat i)) (seq 0 (length cols))
            ++ [predicted_column].
Proof.
  assert (In (ToExcel "results/predicted_specimens.xlsx" Sample.predicted_specimens)
             (events_of batch_predict (Sample.selected "specimens.xlsx"))) as H.
  { vm_compute. repeat (first [left; reflexivity | right]). }
  split; [exact H|].
  apply (written_table (Sample.selected "specimens.xlsx")
                       "results/predicted_specimens.xlsx" Sample.predicted_specimens H).
Defined.



(** The controls around the run on the sheet of the specimens. *)
Lemma batch_controls_restored_witness :
  PyStr.truthy (selected_file (Sample.selected "specimens.xlsx")) = true
  /\ exists evs,
       snd (batch_predict (Sample.selected "specimens.xlsx"))
       = play (start_events (lang_of (Sample.selected "specimens.xlsx")) ++ evs
               ++ finish_events) (Sample.selected "specimens.xlsx")
       /\ Forall (fun ev => is_button_config ev = false) evs
       /\ (forall k,
             batch_button_state
               (play (start_events (lang_of (Sample.selected "specimens.xlsx"))
                      ++ firstn k evs) (Sample.selected "specimens.xlsx")) = disabled
             /\ browse_button_state
                  (play (start_events (lang_of (Sample.selected "specimens.xlsx"))
                         ++ firstn k evs) (Sample.selected "specimens.xlsx")) = disabled)
       /\ batch_button_state (snd (batch_predict (Sample.selected "specimens.xlsx"))) = normal
       /\ browse_button_state (snd (batch_predict (Sample.selected "specimens.xlsx"))) = normal.
Proof.
  split; [reflexivity|].
  apply (batch_controls_restored (Sample.selected "specimens.xlsx")). reflexivity.
Defined.

(** The save dialog is cancelled for the sheet [pending.xlsx]. *)
Lemma cancelled_save_writes_nothing_witness :
  PyStr.truthy (selected_file (Sample.selected "pending.xlsx")) = true
  /\ fst (predict_table (lang_of (Sample.selected "pending.xlsx"))
                        (selected_file (Sample.selected "pending.xlsx"))
                        (Sample.selected "pending.xlsx"))
     = Ok Sample.predicted_specimens
  /\ PyStr.truthy
       (asksaveasfilename
          ("predicted_" ++ PyStr.basename (selected_file (Sample.selected "pending.xlsx")))%string)
     = false
  /\ Forall (fun ev => is_to_excel ev = false)
            (events_of batch_predict (Sample.selected "pending.xlsx"))
  /\ Forall (fun ev => is_show_error ev = false)
            (events_of batch_predict (Sample.selected "pending.xlsx"))
  /\ batch_status (snd (batch_predict (Sample.selected "pending.xlsx")))
     = save_cancelled (current_language (Sample.selected "pending.xlsx"))
  /\ (forall msg,
        save_cancelled (current_language (Sample.selected "pending.xlsx"))
        <> (error_occurred (lang_of (Sample.selected "pending.xlsx")) ++ " " ++ msg)%string).
Proof.
  split; [reflexivity|]. split; [vm_compute; reflexivity|]. split; [vm_compute; reflexivity|].
  apply (cancelled_save_writes_nothing (Sample.selected "pending.xlsx")
                                       Sample.predicted_specimens);
    [reflexivity | vm_compute; reflexivity | vm_compute; reflexivity].
Defined.

(** The form of the example, shown in English and in Chinese. *)
Lemma prediction_language_independent_witness :
  valid_pick Sample.example_form
  /\ variables (Sample.fill Sample.example_form (snd (set_language en initial_world)))
     = variables_of en Sample.example_form
  /\ variables (Sample.fill Sample.example_form initial_world)
     = variables_of zh Sample.example_form
  /\ (forall k,
        read_widget (StringVar (nth (pick Sample.example_form k)
                                    (combobox_values (translations en) k) ""))
        = Ok (PyInt (picked Sample.example_form k))
        /\ read_widget (StringVar (nth (pick Sample.example_form k)
                                       (combobox_values (translations zh) k) ""))
           = Ok (PyInt (picked Sample.example_form k)))
  /\ read_inputs (variables (Sample.fill Sample.example_form
                                         (snd (set_language en initial_world))))
     = Ok [PyFloat (25 # 1)%Q; PyInt 2%Z; PyInt 1%Z; PyInt 3%Z; PyFloat (12 # 1)%Q;
           PyFloat (100 # 1)%Q; PyFloat (30 # 1)%Q; PyFloat (3 # 2)%Q]
  /\ read_inputs (variables (Sample.fill Sample.example_form initial_world))
     = Ok [PyFloat (25 # 1)%Q; PyInt 2%Z; PyInt 1%Z; PyInt 3%Z; PyFloat (12 # 1)%Q;
           PyFloat (100 # 1)%Q; PyFloat (30 # 1)%Q; PyFloat (3 # 2)%Q]
  /\ result_label (snd (predict (Sample.fill Sample.example_form
                                             (snd (set_language en initial_world)))))
     = "Predicted τu: 8.75 MPa"%string
  /\ result_label (snd (predict (Sample.fill Sample.example_form initial_world)))
     = "预测 τu: 8.75 MPa"%string.
Proof.
  assert (valid_pick Sample.example_form) as Hf by (intros [ | | ]; simpl; lia).
  split; [exact Hf|]. split; [vm_compute; reflexivity|]. split; [vm_compute; reflexivity|].
  destruct (prediction_language_independent Sample.example_form en zh
              (Sample.fill Sample.example_form (snd (set_language en initial_world)))
              (Sample.fill Sample.example_form initial_world) Hf)
    as (Hcodes & _ & _ & _ & Hread); [vm_compute; reflexivity ..|].
  split; [exact Hcodes|].
  destruct (Hread (25 # 1)%Q (12 # 1)%Q (100 # 1)%Q (30 # 1)%Q (3 # 2)%Q)
    as (Hr1 & Hr2 & Hp); [vm_compute; reflexivity ..|].
  split; [exact Hr1|]. split; [exact Hr2|].
  destruct (Hp (35 # 4)%Q) as (_ & _ & Hen & Hzh); [vm_compute; reflexivity|].
  split; [exact Hen | exact Hzh].
Defined.

(** * Further properties *)

(** ** Labels, names and paths *)

Section Names.

Context {float : Type} {E : Collaborators float}.

Local Abbreviation chars := list_ascii_of_string.




(** The last segment of a split holds no separator, and the string ends
    with it. *)
Lemma last_segment (c : ascii) (s : string) :
  Forall (fun x => Ascii.eqb x c = false) (chars (PyStr.last_item (PyStr.split c s)))
  /\ exists front, s = (front ++ PyStr.last_item (PyStr.split c s))%string
                   /\ (front = ""%string \/ exists f, front = (f ++ String c "")%string).
Proof.
  induction s as [|x s (IHn & front & IHs & IHf)]; simpl.
  - split; [constructor|]. exists ""%string. split; [reflexivity | now left].
  - destruct (Ascii.eqb x c) eqn:Hx.
    + apply Ascii.eqb_eq in Hx. subst x.
      rewrite last_item_cons by apply split_nonempty.
      split; [exact IHn|]. exists (String c front). split; [simpl; now rewrite <- IHs|].
      right. destruct IHf as [->|(f & ->)].
      * now exists ""%string.
      * now exists (String c f).
    + destruct (PyStr.split c s) as [|seg segs] eqn:Hs;
        [now destruct (split_nonempty c s)|].
      destruct segs as [|seg2 segs].
      * unfold PyStr.last_item in *. simpl in *. split.
        -- constructor; assumption.
        -- exists ""%string. split; [|now left]. simpl. f_equal.
           destruct IHf as [->|(f & ->)]; [exact IHs|].
           exfalso. rewrite IHs in Hs. 
           destruct (split_at_separator c f seg) as (s1 & s2 & ss & Hss).
           replace ((f ++ String c "") ++ seg)%string
             with (f ++ String c seg)%string in Hs
             by (clear; induction f as [|y f IH]; simpl; [reflexivity | now rewrite IH]).
           rewrite Hss in Hs. discriminate.
      * rewrite last_item_cons by discriminate.
        rewrite last_item_cons in IHn, IHs by discriminate.
        split; [exact IHn|]. destruct IHf as [->|(f & ->)].
        -- exfalso. simpl in IHs. subst s.
           rewrite split_none in Hs by exact IHn. discriminate.
        -- exists (String x (f ++ String c "")). split; [simpl; now rewrite <- IHs|].
           right. now exists (String x f).
Qed.

End Names.

(** ** Start-up *)

Section Loading.

Variable artifact : Type.
Variable meipass : option string.
Variable cwd : string.
Variable joblib_load : string -> result artifact.

Local Abbreviation resource_path := (Startup.resource_path meipass cwd).
Local Abbreviation base_path := (match meipass with Some d => d | None => cwd end).
Local Abbreviation load_artifacts := (Startup.load_artifacts artifact meipass cwd joblib_load).

Lemma bare_not_absolute (name : string) :
  PyPath.bare name -> PyStr.startswith "/" name = false.
Proof.
  unfold PyPath.bare, PyStr.startswith. destruct name as [|c r]; [reflexivity|].
  intro H. inversion H as [|? ? Hc _]; subst.
  cbn [String.prefix]. destruct (ascii_dec "/" c) as [<-|]; [discriminate | reflexivity].
Qed.

Lemma endswith_sep_true (s : string) :
  PyPath.endswith_sep s = true -> exists f, s = (f ++ "/")%string.
Proof.
  unfold PyPath.endswith_sep. intro H.
  destruct (PyStr.reverse s) as [|c r] eqn:Hr; [discriminate|].
  apply Ascii.eqb_eq in H. subst c. exists (PyStr.reverse r).
  rewrite <- (reverse_involutive s), Hr. apply reverse_cons.
Qed.

Lemma append_assoc_sep (f name : string) :
  ((f ++ "/") ++ name)%string = (f ++ String "/" name)%string.
Proof. induction f as [|y f IH]; simpl; [reflexivity | now rewrite IH]. Qed.

(** Joining a directory and a bare name. *)
Lemma join_bare (a name : string) :
  PyPath.bare name ->
  exists front,
    PyPath.join a name = (front ++ name)%string
    /\ (front = a \/ front = (a ++ "/")%string)
    /\ (front = ""%string \/ exists f, front = (f ++ "/")%string).
Proof.
  intro Hb. unfold PyPath.join. rewrite (bare_not_absolute name Hb).
  destruct a as [|c a]; simpl negb; cbn [orb].
  - exists ""%string. auto.
  - destruct (PyPath.endswith_sep (String c a)) eqn:He.
    + exists (String c a). split; [reflexivity|]. split; [now left|].
      right. now apply endswith_sep_true.
    + exists (String c a ++ "/")%string. split.
      * now rewrite append_assoc_sep.
      * split; [now right | right; now exists (String c a)].
Qed.

Lemma basename_after (front name : string) :
  PyPath.bare name ->
  front = ""%string \/ (exists f, front = (f ++ "/")%string) ->
  PyStr.basename (front ++ name) = name.
Proof.
  intros Hb [->|(f & ->)]; unfold PyStr.basename.
  - simpl. now rewrite split_none.
  - rewrite append_assoc_sep, split_last. now rewrite split_none.
Qed.

Lemma endswith_sep_app (d : string) : PyPath.endswith_sep (d ++ "/") = true.
Proof.
  unfold PyPath.endswith_sep. rewrite reverse_app.
  change (PyStr.reverse "/") with "/"%string. reflexivity.
Qed.

Lemma endswith_sep_false (s : string) :
  (forall d, s <> (d ++ "/")%string) -> PyPath.endswith_sep s = false.
Proof.
  intro H. destruct (PyPath.endswith_sep s) eqn:He; [|reflexivity].
  destruct (endswith_sep_true s He) as [d Hd]. now destruct (H d).
Qed.

(** X2: a resource named without a separator is looked up in the base
    directory (that of the bundle when there is one, else the working
    directory), under exactly that name: the path is the base directory
    and the name, with one separator in between unless the base
    directory is empty or ends with a separator already. *)
Theorem resource_path_of_name (name : string) :
  PyPath.bare name ->
  PyStr.basename (resource_path name) = name
  /\ (base_path = ""%string -> resource_path name = name)
  /\ (forall d, base_path = (d ++ "/")%string ->
        resource_path name = (base_path ++ name)%string)
  /\ (base_path <> ""%string -> (forall d, base_path <> (d ++ "/")%string) ->
      resource_path name = (base_path ++ "/" ++ name)%string).
Proof.
  intro Hb. split.
  - unfold Startup.resource_path. cbv zeta.
    destruct (join_bare base_path name Hb) as (front & -> & Hf & Hs).
    now apply basename_after.
  - unfold Startup.resource_path, PyPath.join. cbv zeta.
    rewrite (bare_not_absolute name Hb). split; [|split].
    + intros ->. reflexivity.
    + intros d Hd. rewrite Hd, endswith_sep_app, orb_true_r. reflexivity.
    + intros Hne Hsep. rewrite (endswith_sep_false _ Hsep).
      destruct base_path as [|c r]; [congruence | reflexivity].
Qed.

Lemma append_cancel (a b c : string) : (a ++ b)%string = (a ++ c)%string -> b = c.
Proof. induction a as [|x a IH]; simpl; intro H; [exact H | inversion H; auto]. Qed.

Lemma model_path_is_not_scaler_path :
  resource_path "model.pkl" <> resource_path "scaler.pkl".
Proof.
  unfold Startup.resource_path, PyPath.join. cbv zeta.
  change (PyStr.startswith "/" "model.pkl") with false.
  change (PyStr.startswith "/" "scaler.pkl") with false. cbv iota.
  destruct (negb (PyStr.truthy base_path) || PyPath.endswith_sep base_path);
    intro H; apply append_cancel in H; discriminate.
Qed.

(** X3: the loading block either hands over both artifacts, each loaded
    from its resource path, without any error dialog or exit, or it ends
    the program with status 1 after an error dialog that carries the text
    of the exception; the scaler is loaded only after the model loaded. *)
Theorem load_artifacts_outcome :
  (forall model scaler,
      snd load_artifacts = Some (model, scaler) ->
      joblib_load (resource_path "model.pkl") = Ok model
      /\ joblib_load (resource_path "scaler.pkl") = Ok scaler
      /\ fst load_artifacts
         = [Startup.Load (resource_path "model.pkl");
            Startup.Load (resource_path "scaler.pkl");
            Startup.Info "模型和缩放器加载成功"])
  /\ (snd load_artifacts = None ->
      exists e loads,
        fst load_artifacts
        = loads ++ [Startup.Error ("加载模型或缩放器时出错: " ++ exc_msg e)%string;
                    Startup.ErrorDialog "错误" ("加载模型或缩放器时出错: " ++ exc_msg e)%string;
                    Startup.Exit 1]
        /\ (joblib_load (resource_path "model.pkl") = Raised e
            \/ joblib_load (resource_path "scaler.pkl") = Raised e))
  /\ (In (Startup.Load (resource_path "scaler.pkl")) (fst load_artifacts) ->
      exists model, joblib_load (resource_path "model.pkl") = Ok model).
Proof.
  unfold Startup.load_artifacts. cbv zeta.
  destruct (joblib_load (resource_path "model.pkl")) as [m|e] eqn:Hm.
  - destruct (joblib_load (resource_path "scaler.pkl")) as [sc|e] eqn:Hs; simpl.
    + split; [|split].
      * intros model scaler H. inversion H; subst. auto.
      * discriminate.
      * intros _. now exists m.
    + split; [|split].
      * discriminate.
      * intros _. exists e, [Startup.Load (resource_path "model.pkl");
                             Startup.Load (resource_path "scaler.pkl")]. auto.
      * intros _. now exists m.
  - simpl. split; [|split].
    + discriminate.
    + intros _. exists e, [Startup.Load (resource_path "model.pkl")]. auto.
    + intros [H|[H|[H|[H|[]]]]]; try discriminate.
      inversion H as [Hp]. now destruct model_path_is_not_scaler_path.
Qed.

End Loading.

(** The model of the sample is found next to the program. *)
Lemma resource_path_of_name_witness :
  PyPath.bare "model.pkl"
  /\ PyStr.basename (Startup.resource_path None "/opt/app" "model.pkl") = "model.pkl"%string
  /\ Startup.resource_path None "/opt/app" "model.pkl" = "/opt/app/model.pkl"%string.
Proof.
  assert (PyPath.bare "model.pkl") as H by (repeat constructor).
  split; [exact H|].
  destruct (resource_path_of_name None "/opt/app" "model.pkl" H) as (Hbase & _ & _ & Hsep).
  split; [exact Hbase|]. apply Hsep; [discriminate|].
  intros d Hd. apply (f_equal PyStr.reverse) in Hd. rewrite reverse_app in Hd.
  vm_compute in Hd. discriminate.
Defined.

(** The loading block where the scaler is missing. *)
Lemma load_artifacts_outcome_witness :
  exists e loads,
    fst (Startup.load_artifacts string None "/opt/app" Faulty.pickles)
    = loads ++ [Startup.Error ("加载模型或缩放器时出错: " ++ exc_msg e)%string;
                Startup.ErrorDialog "错误" ("加载模型或缩放器时出错: " ++ exc_msg e)%string;
                Startup.Exit 1]
    /\ (Faulty.pickles (Startup.resource_path None "/opt/app" "model.pkl") = Raised e
        \/ Faulty.pickles (Startup.resource_path None "/opt/app" "scaler.pkl") = Raised e).
Proof.
  apply (proj1 (proj2 (load_artifacts_outcome string None "/opt/app" Faulty.pickles))).
  reflexivity.
Defined.

(** ** More on the single prediction *)

Section PredictMore.

Context {float : Type} {E : Collaborators float}.

(** X4: when the form reads, the scaler returns and the model returns at
    least one prediction, [predict] calls the scaler once on the one-row
    array of the values read, the model once on what the scaler returned,
    and shows the first prediction with two decimals. *)
Theorem predict_shows_first_prediction (w : world float) (vs : list (pynumber float))
        (Y : matrix float) (p : float) (ps : list float) :
  read_inputs (variables w) = Ok vs ->
  scaler_transform [map to_float vs] = Ok Y ->
  model_predict Y = Ok (p :: ps) ->
  events_of predict w
  = [ ResultLabel (result_prefix (lang_of w));
      ScalerTransform [map to_float vs];
      ModelPredict Y;
      ResultLabel (result_prefix (lang_of w) ++ format_2f p ++ " MPa")%string;
      LogInfo ("预测成功。输入: " ++ repr_list vs ++ ", 预测值: " ++ format_2f p)%string ]
  /\ result_label (snd (predict w))
     = (result_prefix (lang_of w) ++ format_2f p ++ " MPa")%string.
Proof.
  intros Hr Hs Hm.
  eassert (Hw : snd (predict w) = play _ w).
  { unfold predict, predict_value, pipeline, call_scaler, call_model,
      bind, try_except, ask, lift, emit, ret.
    cbn -[play repr_list]. rewrite Hr. cbn -[play repr_list].
    rewrite Hs. cbn -[play repr_list]. rewrite Hm. cbn -[play repr_list].
    to_play w. reflexivity. }
  rewrite (events_of_play _ _ _ Hw), Hw. split; reflexivity.
Qed.

(** X5: when the model returns no prediction at all, taking the first
    one raises an [IndexError]: [predict] shows the generic report with
    its text, not the message for invalid input. *)
Theorem predict_without_prediction (w : world float) (vs : list (pynumber float))
        (Y : matrix float) :
  read_inputs (variables w) = Ok vs ->
  scaler_transform [map to_float vs] = Ok Y ->
  model_predict Y = Ok [] ->
  result_label (snd (predict w))
  = (error_occurred (lang_of w) ++ " "
     ++ "index 0 is out of bounds for axis 0 with size 0")%string
  /\ result_label (snd (predict w)) <> error_input (lang_of w).
Proof.
  intros Hr Hs Hm.
  assert (result_label (snd (predict w))
          = (error_occurred (lang_of w) ++ " "
             ++ "index 0 is out of bounds for axis 0 with size 0")%string) as H.
  { unfold predict, predict_value, pipeline, call_scaler, call_model,
      bind, try_except, ask, lift, emit, ret.
    cbn -[play]. rewrite Hr. cbn -[play]. rewrite Hs. cbn -[play]. rewrite Hm.
    reflexivity. }
  split; [exact H|]. rewrite H. intro Heq. symmetry in Heq.
  now apply (reports_differ (current_language w)) in Heq.
Qed.

(** X6: when the scaler raises, the model is not called: the events of
    [predict] are the reset of the label, the call of the scaler, the
    report and its log entry. *)
Theorem predict_scaler_failure (w : world float) (vs : list (pynumber float)) (e : exn) :
  read_inputs (variables w) = Ok vs ->
  scaler_transform [map to_float vs] = Raised e ->
  exists report entry,
    events_of predict w
    = [ ResultLabel (result_prefix (lang_of w));
        ScalerTransform [map to_float vs];
        ResultLabel report; LogError entry ]
    /\ Forall (fun ev => forall X, ev <> ModelPredict X) (events_of predict w).
Proof.
  intros Hr Hs.
  assert (exists report entry,
             snd (predict w)
             = play [ ResultLabel (result_prefix (lang_of w));
                      ScalerTransform [map to_float vs];
                      ResultLabel report; LogError entry ] w) as (report & entry & Hw).
  { unfold predict, predict_value, pipeline, call_scaler, call_model,
      bind, try_except, ask, lift, emit, ret.
    cbn -[play]. rewrite Hr. cbn -[play]. rewrite Hs. cbn -[play].
    destruct (isinstance_ValueError e); to_play w; eexists; eexists; reflexivity. }
  exists report, entry. rewrite (events_of_play _ _ _ Hw). split; [reflexivity|].
  repeat (apply Forall_cons; [intros X HX; discriminate|]). apply Forall_nil.
Qed.

Lemma play_predict_events (evs : list (event float)) (w : world float) :
  Forall predict_event evs -> same_but_result (play evs w) w.
Proof.
  intro H. revert w. induction H as [|ev evs Hev _ IH]; intro w; simpl.
  - repeat split.
  - destruct (IH (apply_event ev w)) as (H1 & H2 & H3 & H4 & H5 & H6 & H7).
    unfold same_but_result. rewrite H1, H2, H3, H4, H5, H6, H7.
    destruct ev; simpl in *; try contradiction; repeat split.
Qed.

Lemma predict_emits_predict_events : emits predict_event (fun _ => True) predict.
Proof.
  unfold predict, predict_value, pipeline, call_scaler, call_model.
  emits_walk ltac:(exact I).
Qed.

(** X7: whatever the form holds and whatever the artifacts do, [predict]
    leaves the language, the form, the selected file, the status line of
    the batch, both buttons and the progress bar as they are. *)
Theorem predict_touches_result_only (w : world float) :
  same_but_result (snd (predict w)) w.
Proof.
  destruct (predict_emits_predict_events w) as (evs & -> & Hevs & _).
  now apply play_predict_events.
Qed.

(** X8: in a state the application can reach, the comboboxes never stop
    the loop of [predict]: when the text of every entry reads as a float,
    the loop returns 8 values and the scaler is called. *)
Theorem predict_reads_when_entries_read (w : world float) :
  reachable w ->
  (forall text, In (Entry text) (variables w) -> float_of_string text <> None) ->
  exists vs,
    read_inputs (variables w) = Ok vs
    /\ length vs = 8
    /\ In (ScalerTransform [map to_float vs]) (events_of predict w).
Proof.
  intros Hreach Hent.
  destruct (reachable_form w Hreach) as (f & Hf & Hv).
  assert (forall i, In i [0; 4; 5; 6; 7] ->
                    exists x, read_widget (Entry (typed f i)) = Ok (PyFloat x)) as Hi.
  { intros i Hin. simpl.
    destruct (float_of_string (typed f i)) as [x|] eqn:Hx; [now exists x|].
    exfalso. apply (Hent (typed f i)); [|exact Hx].
    rewrite Hv, variables_of_shape. simpl in Hin |- *.
    destruct Hin as [<-|[<-|[<-|[<-|[<-|[]]]]]]; tauto. }
  assert (exists vs, read_inputs (variables w) = Ok vs) as (vs & Hr).
  { rewrite Hv, (read_inputs_form _ f Hf). cbn [read_inputs].
    destruct (Hi 0) as (x0 & ->); [simpl; tauto|].
    destruct (Hi 4) as (x4 & ->); [simpl; tauto|].
    destruct (Hi 5) as (x5 & ->); [simpl; tauto|].
    destruct (Hi 6) as (x6 & ->); [simpl; tauto|].
    destruct (Hi 7) as (x7 & ->); [simpl; tauto|].
    eexists. reflexivity. }
  exists vs. split; [exact Hr|]. split.
  - rewrite (read_inputs_length _ _ Hr), Hv, variables_of_shape. reflexivity.
  - destruct (predict_scales_inputs w vs Hr) as (rest & Hw & _).
    rewrite (events_of_play _ _ _ Hw). simpl. tauto.
Qed.

End PredictMore.

(** ** The language and the file selection *)

Section Selection.

Context {float : Type} {E : Collaborators float}.

Lemma set_language_run (l : language) (w : world float) :
  snd (set_language l w)
  = play [ Language l;
           Combobox FM (combobox_values (translations l) FM);
           Combobox FT (combobox_values (translations l) FT);
           Combobox BS (combobox_values (translations l) BS);
           BatchStatus (batch_status_initial (translations l)) ] w.
Proof. reflexivity. Qed.

Lemma set_language_form (l l0 : language) (f : form_input) (w : world float) :
  variables w = variables_of l0 f ->
  variables (snd (set_language l w))
  = variables_of l {| pick := fun _ => 0; typed := typed f |}.
Proof.
  intro Hv. rewrite set_language_run. cbn. rewrite Hv, !variables_of_shape.
  destruct l; reflexivity.
Qed.

(** X9: [set_language] makes the language current, clears the status
    line of the batch, keeps the texts of the entries and puts every
    combobox back on its first option: the values a following [predict]
    reads for the three categorical features are the first codes, 1, 1
    and 1, whatever was picked before.  The result label, the selected
    file, the buttons and the progress bar stay as they are. *)
Theorem set_language_resets_options (l l0 : language) (f : form_input) (w : world float) :
  variables w = variables_of l0 f ->
  current_language (snd (set_language l w)) = l
  /\ variables (snd (set_language l w))
     = variables_of l {| pick := fun _ => 0; typed := typed f |}
  /\ batch_status (snd (set_language l w)) = ""%string
  /\ (forall vs, read_inputs (variables (snd (set_language l w))) = Ok vs ->
        nth_error vs 1 = Some (PyInt 1%Z)
        /\ nth_error vs 2 = Some (PyInt 1%Z)
        /\ nth_error vs 3 = Some (PyInt 1%Z))
  /\ result_label (snd (set_language l w)) = result_label w
  /\ selected_file (snd (set_language l w)) = selected_file w
  /\ batch_button_state (snd (set_language l w)) = batch_button_state w
  /\ browse_button_state (snd (set_language l w)) = browse_button_state w
  /\ progress_running (snd (set_language l w)) = progress_running w.
Proof.
  intro Hv. pose proof (set_language_form l l0 f w Hv) as Hform.
  split; [reflexivity|]. split; [exact Hform|].
  split; [rewrite set_language_run; destruct l; reflexivity|].
  split; [|repeat split].
  intros vs. rewrite Hform, read_inputs_form by (intros [ | | ]; simpl; lia).
  destruct (read_widget (Entry _)) as [t|]; [|discriminate].
  match goal with
  | |- match ?x with _ => _ end = _ -> _ => destruct x as [rest|]
  end; [|discriminate].
  intro H; inversion H; subst. repeat split.
Qed.

(** X10: in a state the application can reach, choosing the same
    language twice shows the same as choosing it once. *)
Theorem set_language_twice (l : language) (w : world float) :
  reachable w ->
  same_view (snd (set_language l (snd (set_language l w)))) (snd (set_language l w)).
Proof.
  intro Hreach. destruct (reachable_form w Hreach) as (f & _ & Hv).
  pose proof (set_language_form l _ f w Hv) as H1.
  pose proof (set_language_form l _ _ (snd (set_language l w)) H1) as H2.
  unfold same_view. rewrite H2, H1.
  split; [reflexivity|]. split; [reflexivity|].
  rewrite !set_language_run. repeat split.
Qed.

(** X11: when the open dialog is closed without a choice, [browse_file]
    changes nothing that shows: the file selected before stays selected
    and the status line is not touched. *)
Theorem browse_file_cancelled (w : world float) :
  PyStr.truthy (askopenfilename (browse (lang_of w))) = false ->
  same_view (snd (browse_file w)) w.
Proof.
  intro H. unfold browse_file, bind, ask, emit, ret. cbn -[PyStr.truthy].
  rewrite H. repeat split.
Qed.

Lemma browse_file_chosen (w : world float) :
  PyStr.truthy (askopenfilename (browse (lang_of w))) = true ->
  snd (browse_file w)
  = play [ AskOpen (browse (lang_of w));
           SelectedFile (askopenfilename (browse (lang_of w)));
           LogInfo ("选择用于批量预测的文件: " ++ askopenfilename (browse (lang_of w)))%string;
           BatchStatus (batch_status_select (lang_of w)) ] w.
Proof.
  intro H. unfold browse_file, bind, ask, emit, ret. cbn -[PyStr.truthy].
  rewrite H. reflexivity.
Qed.

Lemma predict_table_paths (lang : translation) (path : string) :
  emits (run_event_paths asksaveasfilename path) (fun _ => True)
        (predict_table lang path).
Proof.
  unfold predict_table, scale_and_predict, call_scaler_frame, call_scaler, call_model.
  cbv zeta. emits_walk ltac:(first [exact I | reflexivity]).
Qed.

Lemma save_table_paths (lang : translation) (path : string) (df : DataFrame float) :
  emits (run_event_paths asksaveasfilename path) (fun _ => True)
        (save_table lang path df).
Proof.
  unfold save_table. cbv zeta.
  apply emits_bind with (Q := fun _ => True); [apply emits_emit; exact I | intros ? _].
  apply emits_bind with (Q := fun _ => True); [apply emits_ask; intros; exact I | intros l _].
  apply emits_bind with (Q := fun _ => True); [apply emits_emit; reflexivity | intros ? _].
  destruct (PyStr.truthy (asksaveasfilename _)) eqn:Ht.
  - emits_walk ltac:(first [exact I | split; [reflexivity | exact Ht]]).
  - emits_walk ltac:(exact I).
Qed.

Lemma batch_predict_paths (w : world float) (ev : event float) :
  In ev (events_of batch_predict w) ->
  run_event_paths asksaveasfilename (selected_file w) ev.
Proof.
  intro Hin. destruct (PyStr.truthy (selected_file w)) eqn:Hsel.
  - assert (emits (run_event_paths asksaveasfilename (selected_file w)) (fun _ => True)
                  (run_prediction (lang_of w) (selected_file w))) as Hrun.
    { unfold run_prediction, restore_controls, report_error.
      apply emits_try_finally; [|emits_walk ltac:(exact I)].
      apply emits_try_except; [|intro e; emits_walk ltac:(exact I)].
      apply emits_bind with (Q := fun _ => True);
        [apply predict_table_paths | intros df _; apply save_table_paths]. }
    unfold events_of in Hin. rewrite (batch_predict_run w Hsel) in Hin.
    destruct (Hrun (play (start_events (lang_of w)) w)) as (evs & Hw & Hevs & _).
    rewrite Hw, <- play_app, skipn_trace_play in Hin.
    apply in_app_or in Hin. destruct Hin as [Hin|Hin].
    + simpl in Hin. destruct Hin as [<-|[<-|[<-|[<-|[]]]]]; exact I.
    + rewrite Forall_forall in Hevs. now apply Hevs.
  - rewrite (events_of_play _ _ _ (batch_predict_no_file w Hsel)) in Hin.
    simpl in Hin. destruct Hin as [<-|[]]. exact I.
Qed.

(** X12: a run reads no file but the selected one, suggests no name but
    [predicted_] followed by the base name of the selected file, and
    writes nowhere but to the answer of the save dialog, which is not
    empty then. *)
Theorem run_reads_and_writes_where_told (w : world float) :
  (forall path, In (ReadExcel path) (events_of batch_predict w) ->
     path = selected_file w)
  /\ (forall title name, In (AskSaveAs title name) (events_of batch_predict w) ->
        name = suggested_name (selected_file w))
  /\ (forall save_path df, In (ToExcel save_path df) (events_of batch_predict w) ->
        save_path = asksaveasfilename (suggested_name (selected_file w))
        /\ PyStr.truthy save_path = true).
Proof.
  split; [|split].
  - intros path Hin. exact (batch_predict_paths w _ Hin).
  - intros title name Hin. exact (batch_predict_paths w _ Hin).
  - intros save_path df Hin. exact (batch_predict_paths w _ Hin).
Qed.

(** X13: the name a run suggests for the table holds no directory: it
    is [predicted_] followed by the part of the selected path after its
    last separator. *)
Theorem suggested_name_is_bare (w : world float) (title name : string) :
  In (AskSaveAs title name) (events_of batch_predict w) ->
  exists front base,
    name = ("predicted_" ++ base)%string
    /\ selected_file w = (front ++ base)%string
    /\ PyPath.bare base
    /\ (front = ""%string \/ exists f, front = (f ++ "/")%string).
Proof.
  intro Hin. pose proof (batch_predict_paths w _ Hin) as Hn. simpl in Hn.
  destruct (last_segment "/" (selected_file w)) as (Hbare & front & Hs & Hf).
  exists front, (PyStr.basename (selected_file w)).
  split; [exact Hn|]. split; [exact Hs|]. split; [exact Hbare | exact Hf].
Qed.

Lemma try_finally_restore {A} (body : M float A) (w : world float) :
  snd (try_finally body restore_controls w) = play finish_events (snd (body w)).
Proof. unfold try_finally. destruct (body w) as [r w']. reflexivity. Qed.

(** Whatever happens next, [predict_table] starts by reading the file. *)
Lemma predict_table_reads (lang : translation) (path : string) (w : world float) :
  exists more,
    snd (predict_table lang path w) = play (reading_events lang path ++ more) w.
Proof.
  rewrite predict_table_run. cbv zeta.
  destruct (read_excel path) as [[n cols]|e]; [|now exists []].
  destruct (Nat.ltb (length cols) 8);
    [now exists [LogInfo ("成功加载Excel文件 " ++ path ++ "。")%string]|].
  destruct (forallb is_numeric_dtype (firstn 8 cols));
    [|now exists [LogInfo ("成功加载Excel文件 " ++ path ++ "。")%string]].
  match goal with
  | |- context [scale_and_predict ?l ?d ?i ?w2] =>
      assert (emits (fun _ => True) (fun _ => True) (scale_and_predict l d i)) as Hm
        by (unfold scale_and_predict, call_scaler_frame, call_scaler, call_model;
            emits_walk ltac:(exact I));
      destruct (Hm w2) as (evs & -> & _)
  end.
  exists (LogInfo ("成功加载Excel文件 " ++ path ++ "。")%string :: evs).
  rewrite play_app. reflexivity.
Qed.

(** A run that starts reads the selected file. *)
Lemma run_reads_selected (w : world float) :
  PyStr.truthy (selected_file w) = true ->
  In (ReadExcel (selected_file w)) (events_of batch_predict w).
Proof.
  intro Hsel. unfold events_of. rewrite (batch_predict_run w Hsel).
  unfold run_prediction. rewrite try_finally_restore.
  set (w1 := play (start_events (lang_of w)) w).
  destruct (predict_table_reads (lang_of w) (selected_file w) w1) as (more & Hpt).
  assert (forall e, emits (fun _ : event float => True) (fun _ => True)
                          (report_error (lang_of w) e)) as Hreport
    by (intro e; unfold report_error; emits_walk ltac:(exact I)).
  assert (exists evs2,
             snd (try_except
                    (df <- predict_table (lang_of w) (selected_file w) ;;
                     save_table (lang_of w) (selected_file w) df)
                    (report_error (lang_of w)) w1)
             = play evs2 (snd (predict_table (lang_of w) (selected_file w) w1)))
    as (evs2 & ->).
  { unfold try_except, bind.
    destruct (predict_table (lang_of w) (selected_file w) w1) as [[df|e] w2]; simpl.
    - destruct (save_table_paths (lang_of w) (selected_file w) df w2) as (evs2 & H2 & _).
      destruct (save_table (lang_of w) (selected_file w) df w2) as [[u|e] w3];
        simpl in H2; subst w3.
      + now exists evs2.
      + destruct (Hreport e (play evs2 w2)) as (evs3 & -> & _).
        exists (evs2 ++ evs3). now rewrite play_app.
    - destruct (Hreport e w2) as (evs2 & H2 & _). now exists evs2. }
  rewrite Hpt. subst w1. rewrite <- !play_app, skipn_trace_play.
  apply in_or_app. right. apply in_or_app. left. apply in_or_app. left.
  simpl. tauto.
Qed.

(** X14: after a choice in the open dialog, the chosen file is selected
    and the status line says so; a run started then reads the chosen
    file, and no other. *)
Theorem browse_then_batch (w : world float) :
  PyStr.truthy (askopenfilename (browse (lang_of w))) = true ->
  selected_file (snd (browse_file w)) = askopenfilename (browse (lang_of w))
  /\ batch_status (snd (browse_file w)) = batch_status_select (lang_of w)
  /\ (forall path,
        In (ReadExcel path) (events_of batch_predict (snd (browse_file w)))
        <-> path = askopenfilename (browse (lang_of w))).
Proof.
  intro H. rewrite (browse_file_chosen w H).
  set (w1 := play _ w).
  assert (selected_file w1 = askopenfilename (browse (lang_of w))) as Hsel by reflexivity.
  split; [exact Hsel|]. split; [reflexivity|].
  intro path. rewrite <- Hsel. split.
  - intro Hin. exact (batch_predict_paths w1 _ Hin).
  - intros ->. apply run_reads_selected. rewrite Hsel. exact H.
Qed.

End Selection.

(** The form of the example. *)
Lemma predict_shows_first_prediction_witness :
  events_of predict (Sample.fill Sample.example_form initial_world)
  = [ ResultLabel "预测 τu: ";
      ScalerTransform [[25 # 1; 2 # 1; 1 # 1; 3 # 1; 12 # 1; 100 # 1; 30 # 1; 3 # 2]%Q];
      ModelPredict [[1 # 2; -1 # 1; -1 # 1; 0 # 1; 0 # 1; 1 # 2; -1 # 1; -3 # 4]%Q];
      ResultLabel "预测 τu: 8.75 MPa";
      LogInfo "预测成功。输入: [25.00, 2, 1, 3, 12.00, 100.00, 30.00, 1.50], 预测值: 8.75" ]
  /\ result_label (snd (predict (Sample.fill Sample.example_form initial_world)))
     = "预测 τu: 8.75 MPa".
Proof.
  pose proof (predict_shows_first_prediction
                (Sample.fill Sample.example_form initial_world)
                [PyFloat (25 # 1)%Q; PyInt 2%Z; PyInt 1%Z; PyInt 3%Z; PyFloat (12 # 1)%Q;
                 PyFloat (100 # 1)%Q; PyFloat (30 # 1)%Q; PyFloat (3 # 2)%Q]
                [[1 # 2; -1 # 1; -1 # 1; 0 # 1; 0 # 1; 1 # 2; -1 # 1; -3 # 4]%Q]
                (35 # 4)%Q []) as H.
  exact (H ltac:(vm_compute; reflexivity) ltac:(vm_compute; reflexivity)
           ltac:(vm_compute; reflexivity)).
Defined.

(** The same form with a model that returns no prediction. *)
Lemma predict_without_prediction_witness :
  result_label (snd (predict (E := Faulty.mute)
                             (Sample.fill Sample.example_form initial_world)))
  = "发生错误: index 0 is out of bounds for axis 0 with size 0"
  /\ result_label (snd (predict (E := Faulty.mute)
                                (Sample.fill Sample.example_form initial_world)))
     <> error_input (translations zh).
Proof.
  apply (predict_without_prediction (E := Faulty.mute)
           (Sample.fill Sample.example_form initial_world)
           [PyFloat (25 # 1)%Q; PyInt 2%Z; PyInt 1%Z; PyInt 3%Z; PyFloat (12 # 1)%Q;
            PyFloat (100 # 1)%Q; PyFloat (30 # 1)%Q; PyFloat (3 # 2)%Q]
           [[1 # 2; -1 # 1; -1 # 1; 0 # 1; 0 # 1; 1 # 2; -1 # 1; -3 # 4]%Q]);
    vm_compute; reflexivity.
Defined.

(** The same form with a scaler that was fitted on nine features. *)
Lemma predict_scaler_failure_witness :
  exists report entry,
    events_of (predict (E := Sample.refitted)) (Sample.fill Sample.example_form initial_world)
    = [ ResultLabel "预测 τu: ";
        ScalerTransform [[25 # 1; 2 # 1; 1 # 1; 3 # 1; 12 # 1; 100 # 1; 30 # 1; 3 # 2]%Q];
        ResultLabel report; LogError entry ]
    /\ Forall (fun ev => forall X, ev <> ModelPredict X)
              (events_of (predict (E := Sample.refitted))
                         (Sample.fill Sample.example_form initial_world)).
Proof.
  apply (predict_scaler_failure (E := Sample.refitted)
           (Sample.fill Sample.example_form initial_world)
           [PyFloat (25 # 1)%Q; PyInt 2%Z; PyInt 1%Z; PyInt 3%Z; PyFloat (12 # 1)%Q;
            PyFloat (100 # 1)%Q; PyFloat (30 # 1)%Q; PyFloat (3 # 2)%Q]
           (Sample.feature_mismatch 8 9)); vm_compute; reflexivity.
Defined.

(** The form of the example can be reached, and its entries read. *)
Lemma predict_reads_when_entries_read_witness :
  reachable (Sample.fill Sample.example_form initial_world)
  /\ exists vs,
       read_inputs (variables (Sample.fill Sample.example_form initial_world)) = Ok vs
       /\ length vs = 8
       /\ In (ScalerTransform [map to_float vs])
             (events_of predict (Sample.fill Sample.example_form initial_world)).
Proof.
  assert (reachable (Sample.fill Sample.example_form initial_world)) as Hr
    by (unfold Sample.fill; repeat apply reach_user; apply reach_initial).
  split; [exact Hr|].
  apply (predict_reads_when_entries_read (Sample.fill Sample.example_form initial_world) Hr).
  intros text Hin. vm_compute in Hin.
  repeat (destruct Hin as [Hin|Hin];
          [try discriminate Hin; inversion Hin; subst text; vm_compute; discriminate|]).
  destruct Hin.
Defined.

(** The form of the example, then English. *)
Lemma set_language_resets_options_witness :
  variables (Sample.fill Sample.example_form initial_world)
  = variables_of zh Sample.example_form
  /\ current_language (snd (set_language en (Sample.fill Sample.example_form initial_world)))
     = en
  /\ (forall vs,
        read_inputs (variables (snd (set_language en
                                       (Sample.fill Sample.example_form initial_world))))
        = Ok vs ->
        nth_error vs 1 = Some (PyInt 1%Z)
        /\ nth_error vs 2 = Some (PyInt 1%Z)
        /\ nth_error vs 3 = Some (PyInt 1%Z)).
Proof.
  assert (variables (Sample.fill Sample.example_form initial_world)
          = variables_of zh Sample.example_form) as Hv by (vm_compute; reflexivity).
  split; [exact Hv|].
  destruct (set_language_resets_options en zh Sample.example_form
              (Sample.fill Sample.example_form initial_world) Hv)
    as (Hl & _ & _ & Hread & _).
  split; [exact Hl | exact Hread].
Defined.

(** English chosen twice on the form of the example. *)
Lemma set_language_twice_witness :
  reachable (Sample.fill Sample.example_form initial_world)
  /\ same_view
       (snd (set_language en
               (snd (set_language en (Sample.fill Sample.example_form initial_world)))))
       (snd (set_language en (Sample.fill Sample.example_form initial_world))).
Proof.
  assert (reachable (Sample.fill Sample.example_form initial_world)) as Hr
    by (unfold Sample.fill; repeat apply reach_user; apply reach_initial).
  split; [exact Hr|].
  apply (set_language_twice en (Sample.fill Sample.example_form initial_world) Hr).
Defined.

(** The open dialog is closed while a sheet is selected. *)
Lemma browse_file_cancelled_witness :
  PyStr.truthy (askopenfilename (Collaborators := Faulty.undecided)
                  (browse (lang_of (Sample.selected "specimens.xlsx")))) = false
  /\ same_view (snd (browse_file (E := Faulty.undecided) (Sample.selected "specimens.xlsx")))
               (Sample.selected "specimens.xlsx").
Proof.
  split; [reflexivity|].
  apply (browse_file_cancelled (E := Faulty.undecided) (Sample.selected "specimens.xlsx")).
  reflexivity.
Defined.

(** The name suggested for the sheet of the specimens. *)
Lemma suggested_name_is_bare_witness :
  In (AskSaveAs "浏览" "predicted_specimens.xlsx")
     (events_of batch_predict (Sample.selected "specimens.xlsx"))
  /\ exists front base,
       "predicted_specimens.xlsx" = ("predicted_" ++ base)%string
       /\ selected_file (Sample.selected "specimens.xlsx") = (front ++ base)%string
       /\ PyPath.bare base
       /\ (front = ""%string \/ exists f, front = (f ++ "/")%string).
Proof.
  assert (In (AskSaveAs "浏览" "predicted_specimens.xlsx")
             (events_of batch_predict (Sample.selected "specimens.xlsx"))) as H
    by (vm_compute; repeat (first [left; reflexivity | right])).
  split; [exact H|].
  apply (suggested_name_is_bare (Sample.selected "specimens.xlsx") _ _ H).
Defined.

(** The sheet of the specimens is chosen in the open dialog. *)
Lemma browse_then_batch_witness :
  PyStr.truthy (askopenfilename (browse (translations zh))) = true
  /\ selected_file (snd (browse_file initial_world)) = "specimens.xlsx"%string
  /\ batch_status (snd (browse_file initial_world)) = batch_status_select (translations zh)
  /\ (forall path,
        In (ReadExcel path) (events_of batch_predict (snd (browse_file initial_world)))
        <-> path = "specimens.xlsx"%string).
Proof.
  split; [reflexivity|].
  exact (browse_then_batch initial_world eq_refl).
Defined.

(** ** The runs of the worker *)

Section Runs.

Context {float : Type} {E : Collaborators float}.

Lemma save_events_run (w0 w : world float) (df : DataFrame float) :
  current_language w = current_language w0 ->
  snd (try_except (save_table (lang_of w0) (selected_file w0) df)
                  (report_error (lang_of w0)) w)
  = play (saving_events (lang_of w0) (current_language w0) (selected_file w0) df) w.
Proof.
  intro Hl. unfold saving_events, save_table, report_error, try_except, bind, ask, emit,
    raise, ret, suggested_name, asking_events, saved_events, error_events.
  cbn -[PyStr.basename PyStr.truthy play append].
  destruct (PyStr.truthy (asksaveasfilename _)).
  - cbn -[PyStr.basename PyStr.truthy play append].
    destruct (to_excel _ df) as [e|];
      cbn -[PyStr.basename PyStr.truthy append]; rewrite Hl; reflexivity.
  - cbn -[PyStr.basename PyStr.truthy append]. rewrite Hl. reflexivity.
Qed.


Lemma try_except_bind {A B} (m : M float A) (k : A -> M float B)
      (h : exn -> M float B) (w : world float) :
  try_except (bind m k) h w
  = match m w with
    | (Ok a, w') => try_except (k a) h w'
    | (Raised e, w') => h e w'
    end.
Proof. unfold try_except, bind. destruct (m w) as [[a|e] w']; reflexivity. Qed.

Lemma report_error_run (w0 w : world float) (e : exn) :
  current_language w = current_language w0 ->
  snd (report_error (lang_of w0) e w)
  = play (error_events (lang_of w0) (current_language w0) e) w.
Proof.
  intro Hl. unfold report_error, bind, emit, ask, error_events. cbn.
  rewrite Hl. reflexivity.
Qed.

(** The worker from the scaling on. *)
Lemma scale_events_run (w0 w : world float) (n : nat) (cols : list (Series float))
      (X : matrix float) :
  current_language w = current_language w0 ->
  feature_rows n cols = Ok X ->
  snd (try_except
         (df <- scale_and_predict (lang_of w0) {| index := n; frame := named cols |}
                                  (firstn 8 (named cols)) ;;
          save_table (lang_of w0) (selected_file w0) df)
         (report_error (lang_of w0)) w)
  = play (scaling_events (lang_of w0) X
          ++ match scaler_transform X with
             | Raised e => error_events (lang_of w0) (current_language w0) e
             | Ok Y =>
                 predicting_events (lang_of w0) Y
                 ++ match model_predict Y with
                    | Raised e => error_events (lang_of w0) (current_language w0) e
                    | Ok p =>
                        predicted_events (current_language w0)
                        ++ match setitem {| index := n; frame := named cols |}
                                         predicted_column p with
                           | Raised e =>
                               error_events (lang_of w0) (current_language w0) e
                           | Ok df =>
                               saving_events (lang_of w0) (current_language w0)
                                             (selected_file w0) df
                           end
                    end
             end) w.
Proof.
  intros Hl HX.
  rewrite try_except_bind, (scale_and_predict_run (lang_of w0) n cols X w HX).
  cbv zeta. rewrite play_app. fold (scaling_events (lang_of w0) X).
  destruct (scaler_transform X) as [Y|e];
    [|now apply report_error_run].
  rewrite play_app. fold (predicting_events (lang_of w0) Y).
  destruct (model_predict Y) as [p|e];
    [|now apply report_error_run].
  rewrite play_app, Hl.
  change (apply_event ?ev ?W) with (play [ev] W).
  fold (predicted_events (float := float) (current_language w0)).
  destruct (setitem _ predicted_column p) as [df|e];
    [now apply save_events_run | now apply report_error_run].
Qed.

(** A run, event by event. *)
Lemma batch_predict_worker (w : world float) :
  PyStr.truthy (selected_file w) = true ->
  snd (batch_predict w)
  = play (start_events (lang_of w) ++ worker_events w ++ finish_events) w.
Proof.
  intro Hsel. rewrite (batch_predict_run w Hsel).
  unfold run_prediction. rewrite try_finally_restore.
  rewrite !play_app. f_equal.
  set (w1 := play (start_events (lang_of w)) w).
  assert (current_language w1 = current_language w) as Hl1 by reflexivity.
  unfold worker_events. cbv zeta.
  destruct (read_excel (selected_file w)) as [[n cols]|e] eqn:Hread.
  2:{ rewrite try_except_bind, predict_table_run, Hread. cbv zeta.
      rewrite play_app. now apply report_error_run. }
  rewrite play_app.
  destruct (Nat.ltb (length cols) 8) eqn:Hlt.
  { rewrite try_except_bind, predict_table_run, Hread, Hlt. cbv zeta.
    rewrite Hl1. now apply report_error_run. }
  destruct (forallb is_numeric_dtype (firstn 8 cols)) eqn:Hnum.
  2:{ rewrite try_except_bind, predict_table_run, Hread, Hlt, Hnum. cbv zeta.
      rewrite Hl1. now apply report_error_run. }
  apply Nat.ltb_ge in Hlt.
  destruct (feature_rows_numeric n cols Hlt Hnum) as (X & HX & _).
  rewrite HX.
  rewrite <- (scale_events_run w _ n cols X) by (exact HX || reflexivity).
  apply Nat.ltb_ge in Hlt.
  unfold try_except, bind. rewrite predict_table_run, Hread, Hlt, Hnum. reflexivity.
Qed.

Lemma batch_predict_run_events (w : world float) :
  PyStr.truthy (selected_file w) = true ->
  events_of batch_predict w
  = start_events (lang_of w) ++ worker_events w ++ finish_events.
Proof. intro Hsel. apply events_of_play. now apply batch_predict_worker. Qed.

(** The worker on a checked sheet. *)
Lemma worker_events_checked (w : world float) (n : nat) (cols : list (Series float))
      (X : matrix float) :
  checked_sheet (selected_file w) n cols X ->
  worker_events w
  = loading_events (lang_of w) (selected_file w)
    ++ scaling_events (lang_of w) X
    ++ match scaler_transform X with
       | Raised e => error_events (lang_of w) (current_language w) e
       | Ok Y =>
           predicting_events (lang_of w) Y
           ++ match model_predict Y with
              | Raised e => error_events (lang_of w) (current_language w) e
              | Ok p =>
                  predicted_events (current_language w)
                  ++ match setitem {| index := n; frame := named cols |}
                                   predicted_column p with
                     | Raised e => error_events (lang_of w) (current_language w) e
                     | Ok df =>
                         saving_events (lang_of w) (current_language w)
                                       (selected_file w) df
                     end
              end
       end.
Proof.
  intros (Hread & Hlen & Hnum & HX). unfold worker_events. cbv zeta.
  rewrite Hread, (proj2 (Nat.ltb_ge _ _) Hlen), Hnum, HX. reflexivity.
Qed.

(** X15: without a selected file, [batch_predict] shows the warning and
    does nothing else: the buttons stay enabled, the progress bar does
    not start and the status line is not touched. *)
Theorem batch_predict_without_file (w : world float) :
  PyStr.truthy (selected_file w) = false ->
  events_of batch_predict w
  = [ShowWarning (warning_no_file (lang_of w)) (warning_no_file_msg (lang_of w))]
  /\ same_view (snd (batch_predict w)) w.
Proof.
  intro H. pose proof (batch_predict_no_file w H) as Hw.
  split; [now apply events_of_play|]. rewrite Hw. repeat split.
Qed.

(** X16: when the selected file cannot be read, the run shows the text
    of the exception in an error dialog and in the status line, logs it,
    and restores the controls; it calls neither artifact and asks for no
    destination. *)
Theorem batch_read_failure (w : world float) (e : exn) :
  PyStr.truthy (selected_file w) = true ->
  read_excel (selected_file w) = Raised e ->
  events_of batch_predict w
  = start_events (lang_of w)
    ++ reading_events (lang_of w) (selected_file w)
    ++ error_events (lang_of w) (current_language w) e
    ++ finish_events
  /\ batch_status (snd (batch_predict w))
     = (error_occurred (lang_of w) ++ " " ++ exc_msg e)%string.
Proof.
  intros Hsel Hread.
  assert (worker_events w
          = reading_events (lang_of w) (selected_file w)
            ++ error_events (lang_of w) (current_language w) e) as Hev
    by (unfold worker_events; cbv zeta; now rewrite Hread).
  split.
  - rewrite (batch_predict_run_events w Hsel), Hev, <- app_assoc. reflexivity.
  - rewrite (batch_predict_worker w Hsel), Hev. reflexivity.
Qed.

(** X17: when the scaler raises on the feature vectors of a checked
    sheet, the run reports the exception and ends: the model is not
    called, no destination is asked for and nothing is written. *)
Theorem batch_scaler_failure (w : world float) (n : nat) (cols : list (Series float))
        (X : matrix float) (e : exn) :
  PyStr.truthy (selected_file w) = true ->
  checked_sheet (selected_file w) n cols X ->
  scaler_transform X = Raised e ->
  events_of batch_predict w
  = start_events (lang_of w)
    ++ loading_events (lang_of w) (selected_file w)
    ++ scaling_events (lang_of w) X
    ++ error_events (lang_of w) (current_language w) e
    ++ finish_events
  /\ batch_status (snd (batch_predict w))
     = (error_occurred (lang_of w) ++ " " ++ exc_msg e)%string.
Proof.
  intros Hsel Hsheet Hs.
  pose proof (worker_events_checked w n cols X Hsheet) as Hev. rewrite Hs in Hev.
  split.
  - rewrite (batch_predict_run_events w Hsel), Hev, <- !app_assoc. reflexivity.
  - rewrite (batch_predict_worker w Hsel), Hev. reflexivity.
Qed.

(** X18: when the model raises on the scaled array, the run reports the
    exception and ends: no destination is asked for and nothing is
    written. *)
Theorem batch_model_failure (w : world float) (n : nat) (cols : list (Series float))
        (X Y : matrix float) (e : exn) :
  PyStr.truthy (selected_file w) = true ->
  checked_sheet (selected_file w) n cols X ->
  scaler_transform X = Ok Y ->
  model_predict Y = Raised e ->
  events_of batch_predict w
  = start_events (lang_of w)
    ++ loading_events (lang_of w) (selected_file w)
    ++ scaling_events (lang_of w) X
    ++ predicting_events (lang_of w) Y
    ++ error_events (lang_of w) (current_language w) e
    ++ finish_events
  /\ batch_status (snd (batch_predict w))
     = (error_occurred (lang_of w) ++ " " ++ exc_msg e)%string.
Proof.
  intros Hsel Hsheet Hs Hm.
  pose proof (worker_events_checked w n cols X Hsheet) as Hev. rewrite Hs, Hm in Hev.
  split.
  - rewrite (batch_predict_run_events w Hsel), Hev, <- !app_assoc. reflexivity.
  - rewrite (batch_predict_worker w Hsel), Hev. reflexivity.
Qed.

(** X19: when the model returns another number of predictions than the
    sheet has rows, the completion is logged, then the assignment of the
    new column raises a [ValueError]; the run reports it and ends
    without asking for a destination. *)
Theorem batch_length_mismatch (w : world float) (n : nat) (cols : list (Series float))
        (X Y : matrix float) (p : list float) :
  PyStr.truthy (selected_file w) = true ->
  checked_sheet (selected_file w) n cols X ->
  scaler_transform X = Ok Y ->
  model_predict Y = Ok p ->
  length p <> n ->
  exists e,
    exc e = ValueError
    /\ events_of batch_predict w
       = start_events (lang_of w)
         ++ loading_events (lang_of w) (selected_file w)
         ++ scaling_events (lang_of w) X
         ++ predicting_events (lang_of w) Y
         ++ predicted_events (current_language w)
         ++ error_events (lang_of w) (current_language w) e
         ++ finish_events
    /\ batch_status (snd (batch_predict w))
       = (error_occurred (lang_of w) ++ " " ++ exc_msg e)%string.
Proof.
  intros Hsel Hsheet Hs Hm Hlen.
  pose proof (worker_events_checked w n cols X Hsheet) as Hev. rewrite Hs, Hm in Hev.
  destruct (setitem_mismatch {| index := n; frame := named cols |} predicted_column p Hlen)
    as (e & He & Hexc).
  rewrite He in Hev. exists e. split; [exact Hexc|]. split.
  - rewrite (batch_predict_run_events w Hsel), Hev, <- !app_assoc. reflexivity.
  - rewrite (batch_predict_worker w Hsel), Hev. reflexivity.
Qed.

(** The saving phase of a run whose table is ready. *)
Lemma worker_events_predicted (w : world float) (n : nat) (cols : list (Series float))
      (X Y : matrix float) (p : list float) :
  checked_sheet (selected_file w) n cols X ->
  scaler_transform X = Ok Y ->
  model_predict Y = Ok p ->
  length p = n ->
  worker_events w
  = loading_events (lang_of w) (selected_file w)
    ++ scaling_events (lang_of w) X
    ++ predicting_events (lang_of w) Y
    ++ predicted_events (current_language w)
    ++ saving_events (lang_of w) (current_language w) (selected_file w)
                     (appended n cols p).
Proof.
  intros Hsheet Hs Hm Hlen.
  rewrite (worker_events_checked w n cols X Hsheet), Hs, Hm, (setitem_named n cols p Hlen).
  reflexivity.
Qed.

(** X20: when writing the table fails, the run shows the error dialog
    with the text of the exception and the status line ends with it; the
    success dialog is not shown and the controls are restored. *)
Theorem batch_write_failure (w : world float) (n : nat) (cols : list (Series float))
        (X Y : matrix float) (p : list float) (save_path : string) (e : exn) :
  PyStr.truthy (selected_file w) = true ->
  checked_sheet (selected_file w) n cols X ->
  scaler_transform X = Ok Y ->
  model_predict Y = Ok p ->
  length p = n ->
  asksaveasfilename (suggested_name (selected_file w)) = save_path ->
  PyStr.truthy save_path = true ->
  to_excel save_path (appended n cols p) = Some e ->
  events_of batch_predict w
  = start_events (lang_of w)
    ++ loading_events (lang_of w) (selected_file w)
    ++ scaling_events (lang_of w) X
    ++ predicting_events (lang_of w) Y
    ++ predicted_events (current_language w)
    ++ asking_events (lang_of w) (current_language w) (selected_file w)
    ++ [ToExcel save_path (appended n cols p)]
    ++ error_events (lang_of w) (current_language w) e
    ++ finish_events
  /\ batch_status (snd (batch_predict w))
     = (error_occurred (lang_of w) ++ " " ++ exc_msg e)%string
  /\ (forall title msg, ~ In (ShowInfo title msg) (events_of batch_predict w)).
Proof.
  intros Hsel Hsheet Hs Hm Hlen Hask Hpath Hwrite.
  pose proof (worker_events_predicted w n cols X Y p Hsheet Hs Hm Hlen) as Hev.
  unfold saving_events in Hev. cbv zeta in Hev. rewrite Hask, Hpath, Hwrite in Hev.
  assert (events_of batch_predict w
          = start_events (lang_of w)
            ++ loading_events (lang_of w) (selected_file w)
            ++ scaling_events (lang_of w) X
            ++ predicting_events (lang_of w) Y
            ++ predicted_events (current_language w)
            ++ asking_events (lang_of w) (current_language w) (selected_file w)
            ++ [ToExcel save_path (appended n cols p)]
            ++ error_events (lang_of w) (current_language w) e
            ++ finish_events) as Hevs
    by (rewrite (batch_predict_run_events w Hsel), Hev, <- !app_assoc; reflexivity).
  split; [exact Hevs|]. split.
  - rewrite (batch_predict_worker w Hsel), Hev. reflexivity.
  - intros title msg Hin. rewrite Hevs in Hin.
    repeat (apply in_app_or in Hin; destruct Hin as [Hin|Hin];
            [simpl in Hin; intuition discriminate|]).
    simpl in Hin; intuition discriminate.
Qed.

(** X21: a run that writes its table shows the success dialog with the
    destination and logs it.  The status line then reads
    [Batch prediction completed.] in English; in Chinese it goes back to
    the text of [batch_status_start], the one a run begins with. *)
Theorem batch_saved (w : world float) (n : nat) (cols : list (Series float))
        (X Y : matrix float) (p : list float) (save_path : string) :
  PyStr.truthy (selected_file w) = true ->
  checked_sheet (selected_file w) n cols X ->
  scaler_transform X = Ok Y ->
  model_predict Y = Ok p ->
  length p = n ->
  asksaveasfilename (suggested_name (selected_file w)) = save_path ->
  PyStr.truthy save_path = true ->
  to_excel save_path (appended n cols p) = None ->
  events_of batch_predict w
  = start_events (lang_of w)
    ++ loading_events (lang_of w) (selected_file w)
    ++ scaling_events (lang_of w) X
    ++ predicting_events (lang_of w) Y
    ++ predicted_events (current_language w)
    ++ asking_events (lang_of w) (current_language w) (selected_file w)
    ++ [ ToExcel save_path (appended n cols p);
         ShowInfo (success (lang_of w)) (success_save (lang_of w) ++ save_path)%string;
         LogInfo ("预测结果已保存到 " ++ save_path)%string;
         BatchStatus (by_language (current_language w) (batch_status_start (lang_of w))
                                  "Batch prediction completed.") ]
    ++ finish_events
  /\ batch_status (snd (batch_predict w))
     = match current_language w with
       | zh => batch_status_start (translations zh)
       | en => "Batch prediction completed."%string
       end.
Proof.
  intros Hsel Hsheet Hs Hm Hlen Hask Hpath Hwrite.
  pose proof (worker_events_predicted w n cols X Y p Hsheet Hs Hm Hlen) as Hev.
  unfold saving_events in Hev. cbv zeta in Hev. rewrite Hask, Hpath, Hwrite in Hev.
  split.
  - rewrite (batch_predict_run_events w Hsel), Hev, <- !app_assoc. reflexivity.
  - rewrite (batch_predict_worker w Hsel), Hev. unfold lang_of.
    destruct (current_language w); reflexivity.
Qed.

Lemma calls_app (evs1 evs2 : list (event float)) :
  calls (evs1 ++ evs2) = calls evs1 ++ calls evs2.
Proof.
  induction evs1 as [|ev evs1 IH]; [reflexivity|].
  simpl. destruct (call_of ev); simpl; now rewrite IH.
Qed.

(** X22: a run calls the file system, the scaler, the model, the save
    dialog and the writer in this order, each once at most, and none of
    them unless the ones before it were called. *)
Theorem batch_calls_in_order (w : world float) :
  exists k,
    calls (events_of batch_predict w) = firstn k [Reads; Scales; Predicts; Asks; Writes].
Proof.
  destruct (PyStr.truthy (selected_file w)) eqn:Hsel.
  2:{ exists 0. now rewrite (events_of_play _ _ _ (batch_predict_no_file w Hsel)). }
  rewrite (batch_predict_run_events w Hsel), !calls_app.
  change (calls (start_events (lang_of w))) with (@nil call).
  change (calls (finish_events (float := float))) with (@nil call).
  rewrite app_nil_r. cbn [app].
  assert (forall e, calls (float := float)
                    (error_events (lang_of w) (current_language w) e) = [])
    as Herr by reflexivity.
  unfold worker_events. cbv zeta.
  destruct (read_excel (selected_file w)) as [[n cols]|e];
    [|exists 1; now rewrite calls_app, Herr].
  rewrite calls_app. change (calls (loading_events _ _)) with [Reads].
  destruct (Nat.ltb (length cols) 8); [exists 1; now rewrite Herr|].
  destruct (forallb is_numeric_dtype (firstn 8 cols)); [|exists 1; now rewrite Herr].
  cbn [calls call_of].
  destruct (feature_rows n cols) as [X|e]; [|exists 1; now rewrite Herr].
  cbn [calls call_of].
  destruct (scaler_transform X) as [Y|e]; [|exists 2; now rewrite Herr].
  rewrite calls_app. change (calls (predicting_events _ _)) with [Predicts].
  destruct (model_predict Y) as [p|e]; [|exists 3; now rewrite Herr].
  rewrite calls_app. change (calls (predicted_events _)) with (@nil call).
  destruct (setitem _ predicted_column p) as [df|e]; [|exists 3; now rewrite Herr].
  unfold saving_events. cbv zeta. rewrite calls_app.
  change (calls (asking_events _ _ _)) with [Asks].
  destruct (PyStr.truthy (asksaveasfilename _)); [|now exists 4].
  cbn [calls call_of].
  destruct (to_excel _ df) as [e|]; [exists 5; now rewrite Herr | now exists 5].
Qed.

(** A run that fails at [front]. *)
Lemma failed_run (w : world float) (front : list (event float)) (e : exn) :
  PyStr.truthy (selected_file w) = true ->
  worker_events w = front ++ error_events (lang_of w) (current_language w) e ->
  (forall title msg, ~ In (ShowInfo title msg) front) ->
  In (ShowError (error_title (lang_of w))
                (error_occurred (lang_of w) ++ " " ++ exc_msg e)%string)
     (events_of batch_predict w)
  /\ batch_status (snd (batch_predict w))
     = (error_occurred (lang_of w) ++ " " ++ exc_msg e)%string
  /\ (forall title msg, ~ In (ShowInfo title msg) (events_of batch_predict w)).
Proof.
  intros Hsel Hev Hquiet.
  rewrite (batch_predict_run_events w Hsel), (batch_predict_worker w Hsel), Hev.
  split; [|split].
  - apply in_or_app. right. apply in_or_app. left. apply in_or_app. right.
    left. reflexivity.
  - rewrite !play_app. reflexivity.
  - intros title msg Hin.
    apply in_app_or in Hin. destruct Hin as [Hin|Hin];
      [simpl in Hin; intuition discriminate|].
    apply in_app_or in Hin. destruct Hin as [Hin|Hin];
      [|simpl in Hin; intuition discriminate].
    apply in_app_or in Hin. destruct Hin as [Hin|Hin];
      [now apply (Hquiet title msg) | simpl in Hin; intuition discriminate].
Qed.

(** X23: a run that starts ends in one of three ways.  Either it wrote
    the table, the writer did not fail, the success dialog names the
    destination and no error dialog is shown; or the save dialog was
    cancelled, nothing is written and no dialog is shown; or it shows
    the error dialog with the text of an exception, the status line ends
    with the same text, and the success dialog is not shown. *)
Theorem run_outcome (w : world float) :
  PyStr.truthy (selected_file w) = true ->
  (exists save_path df,
      In (ToExcel save_path df) (events_of batch_predict w)
      /\ to_excel save_path df = None
      /\ In (ShowInfo (success (lang_of w)) (success_save (lang_of w) ++ save_path)%string)
            (events_of batch_predict w)
      /\ (forall title msg, ~ In (ShowError title msg) (events_of batch_predict w)))
  \/ (batch_status (snd (batch_predict w)) = save_cancelled (current_language w)
      /\ (forall save_path df, ~ In (ToExcel save_path df) (events_of batch_predict w))
      /\ (forall title msg, ~ In (ShowInfo title msg) (events_of batch_predict w))
      /\ (forall title msg, ~ In (ShowError title msg) (events_of batch_predict w)))
  \/ (exists e,
        In (ShowError (error_title (lang_of w))
                      (error_occurred (lang_of w) ++ " " ++ exc_msg e)%string)
           (events_of batch_predict w)
        /\ batch_status (snd (batch_predict w))
           = (error_occurred (lang_of w) ++ " " ++ exc_msg e)%string
        /\ (forall title msg, ~ In (ShowInfo title msg) (events_of batch_predict w))).
Proof.
  intro Hsel.
  assert (forall front e,
             worker_events w = front ++ error_events (lang_of w) (current_language w) e ->
             (forall title msg, ~ In (ShowInfo title msg) front) ->
             exists e,
               In (ShowError (error_title (lang_of w))
                             (error_occurred (lang_of w) ++ " " ++ exc_msg e)%string)
                  (events_of batch_predict w)
               /\ batch_status (snd (batch_predict w))
                  = (error_occurred (lang_of w) ++ " " ++ exc_msg e)%string
               /\ (forall title msg, ~ In (ShowInfo title msg) (events_of batch_predict w)))
    as Hfail
    by (intros front e Hev Hq; exists e; now apply (failed_run w front e)).
  pose proof (batch_predict_run_events w Hsel) as Hevs.
  pose proof (batch_predict_worker w Hsel) as Hw.
  unfold worker_events in Hfail, Hevs, Hw. cbv zeta in Hfail, Hevs, Hw.
  destruct (read_excel (selected_file w)) as [[n cols]|e].
  2:{ right; right. apply (Hfail _ e eq_refl).
      intros title msg Hin. simpl in Hin. intuition discriminate. }
  destruct (Nat.ltb (length cols) 8).
  { right; right. apply (Hfail _ _ eq_refl).
    intros title msg Hin. simpl in Hin. intuition discriminate. }
  destruct (forallb is_numeric_dtype (firstn 8 cols)).
  2:{ right; right. apply (Hfail _ _ eq_refl).
      intros title msg Hin. simpl in Hin. intuition discriminate. }
  destruct (feature_rows n cols) as [X|e].
  2:{ right; right.
      apply (Hfail (loading_events (lang_of w) (selected_file w)
                    ++ [BatchStatus (batch_status_scaling (lang_of w))]) e).
      - now rewrite <- app_assoc.
      - intros title msg Hin. simpl in Hin. intuition discriminate. }
  destruct (scaler_transform X) as [Y|e].
  2:{ right; right.
      apply (Hfail (loading_events (lang_of w) (selected_file w)
                    ++ scaling_events (lang_of w) X) e).
      - now rewrite <- app_assoc.
      - intros title msg Hin. simpl in Hin. intuition discriminate. }
  destruct (model_predict Y) as [p|e].
  2:{ right; right.
      apply (Hfail (loading_events (lang_of w) (selected_file w)
                    ++ scaling_events (lang_of w) X
                    ++ predicting_events (lang_of w) Y) e).
      - now rewrite <- !app_assoc.
      - intros title msg Hin. simpl in Hin. intuition discriminate. }
  destruct (setitem _ predicted_column p) as [df|e].
  2:{ right; right.
      apply (Hfail (loading_events (lang_of w) (selected_file w)
                    ++ scaling_events (lang_of w) X
                    ++ predicting_events (lang_of w) Y
                    ++ predicted_events (current_language w)) e).
      - now rewrite <- !app_assoc.
      - intros title msg Hin. simpl in Hin. intuition discriminate. }
  unfold saving_events in Hfail, Hevs, Hw. cbv zeta in Hfail, Hevs, Hw.
  destruct (PyStr.truthy (asksaveasfilename _)).
  2:{ right; left. rewrite Hevs, Hw. split; [reflexivity|].
      repeat split; intros a b Hin; simpl in Hin; intuition discriminate. }
  destruct (to_excel _ df) as [e|] eqn:Hwrite.
  { right; right.
    apply (Hfail (loading_events (lang_of w) (selected_file w)
                  ++ scaling_events (lang_of w) X
                  ++ predicting_events (lang_of w) Y
                  ++ predicted_events (current_language w)
                  ++ asking_events (lang_of w) (current_language w) (selected_file w)
                  ++ [ToExcel (asksaveasfilename (suggested_name (selected_file w))) df])
                 e).
    - now rewrite <- !app_assoc.
    - intros title msg Hin. simpl in Hin. intuition discriminate. }
  left. exists (asksaveasfilename (suggested_name (selected_file w))), df.
  rewrite Hevs. split; [|split; [exact Hwrite|split]].
  - simpl. auto 20.
  - simpl. auto 20.
  - intros a b Hin; simpl in Hin; intuition discriminate.
Qed.

End Runs.

(** ** Between the handlers *)

Section Idle.

Context {float : Type} {E : Collaborators float}.

(** The controls of the batch tab are ready. *)
Lemma batch_predict_ends_idle (w : world float) :
  batch_button_state w = normal /\ browse_button_state w = normal
  /\ progress_running w = false ->
  batch_button_state (snd (batch_predict w)) = normal
  /\ browse_button_state (snd (batch_predict w)) = normal
  /\ progress_running (snd (batch_predict w)) = false.
Proof.
  intro H. destruct (PyStr.truthy (selected_file w)) eqn:Hsel.
  - rewrite (batch_predict_worker w Hsel), app_assoc, play_app. repeat split.
  - rewrite (batch_predict_no_file w Hsel). exact H.
Qed.

(** X24: when a handler starts, both buttons of the batch tab are
    enabled and the progress bar is not running, whatever the handlers
    before it did and however the runs before it ended. *)
Theorem reachable_idle (w : world float) :
  reachable w ->
  batch_button_state w = normal
  /\ browse_button_state w = normal
  /\ progress_running w = false.
Proof.
  induction 1 as [|a w _ IH|l w _ IH|w _ IH|w _ IH|w _ IH].
  - repeat split.
  - destruct a as [i text|k i]; simpl; [exact IH|].
    destruct (nth_error _ i); exact IH.
  - rewrite set_language_run. exact IH.
  - destruct (predict_emits_predict_events w) as (evs & -> & Hevs & _).
    destruct (play_predict_events evs w Hevs) as (_ & _ & _ & _ & -> & -> & ->).
    exact IH.
  - unfold browse_file, bind, ask, emit, ret. cbn -[PyStr.truthy].
    destruct (PyStr.truthy _); exact IH.
  - now apply batch_predict_ends_idle.
Qed.

End Idle.

(** ** The runs on the sample *)

(** The checks of the worker on a sheet of the sample. *)
Ltac sheet_checked :=
  split; [vm_compute; reflexivity|];
  split; [simpl; lia|];
  split; vm_compute; reflexivity.

(** No sheet is selected when the application starts. *)
Lemma batch_predict_without_file_witness :
  PyStr.truthy (selected_file (Sample.fill Sample.example_form initial_world)) = false
  /\ events_of batch_predict (Sample.fill Sample.example_form initial_world)
     = [ShowWarning "未选择文件" "请选择一个Excel文件进行批量预测。"]
  /\ same_view (snd (batch_predict (Sample.fill Sample.example_form initial_world)))
               (Sample.fill Sample.example_form initial_world).
Proof.
  split; [reflexivity|].
  exact (batch_predict_without_file (Sample.fill Sample.example_form initial_world)
                                    eq_refl).
Defined.

(** A sheet that is not there. *)
Lemma batch_read_failure_witness :
  PyStr.truthy (selected_file (Sample.selected "missing.xlsx")) = true
  /\ read_excel (selected_file (Sample.selected "missing.xlsx")) = Raised Faulty.missing
  /\ batch_status (snd (batch_predict (Sample.selected "missing.xlsx")))
     = "发生错误: [Errno 2] No such file or directory: 'missing.xlsx'".
Proof.
  split; [reflexivity|]. split; [reflexivity|].
  exact (proj2 (batch_read_failure (Sample.selected "missing.xlsx") Faulty.missing
                                   eq_refl eq_refl)).
Defined.

(** The sheet of the specimens and a scaler fitted on nine features. *)
Lemma batch_scaler_failure_witness :
  checked_sheet (E := Sample.refitted)
                (selected_file (Sample.selected "specimens.xlsx")) 3 Sample.specimens
                Faulty.features
  /\ scaler_transform (Collaborators := Sample.refitted) Faulty.features
     = Raised (Sample.feature_mismatch 8 9)
  /\ events_of (batch_predict (E := Sample.refitted)) (Sample.selected "specimens.xlsx")
     = start_events (translations zh)
       ++ loading_events (translations zh) "specimens.xlsx"
       ++ scaling_events (translations zh) Faulty.features
       ++ error_events (translations zh) zh (Sample.feature_mismatch 8 9)
       ++ finish_events.
Proof.
  assert (checked_sheet (E := Sample.refitted)
                        (selected_file (Sample.selected "specimens.xlsx")) 3
                        Sample.specimens Faulty.features) as Hs by sheet_checked.
  split; [exact Hs|]. split; [vm_compute; reflexivity|].
  refine (proj1 (batch_scaler_failure (E := Sample.refitted)
                   (Sample.selected "specimens.xlsx") 3 Sample.specimens Faulty.features
                   (Sample.feature_mismatch 8 9) eq_refl Hs _)).
  vm_compute; reflexivity.
Defined.

(** The sheet of the specimens and a model that was never fitted. *)
Lemma batch_model_failure_witness :
  checked_sheet (E := Faulty.unfitted)
                (selected_file (Sample.selected "specimens.xlsx")) 3 Sample.specimens
                Faulty.features
  /\ scaler_transform (Collaborators := Faulty.unfitted) Faulty.features = Ok Faulty.scaled
  /\ model_predict (Collaborators := Faulty.unfitted) Faulty.scaled
     = Raised Faulty.not_fitted
  /\ events_of (batch_predict (E := Faulty.unfitted)) (Sample.selected "specimens.xlsx")
     = start_events (translations zh)
       ++ loading_events (translations zh) "specimens.xlsx"
       ++ scaling_events (translations zh) Faulty.features
       ++ predicting_events (translations zh) Faulty.scaled
       ++ error_events (translations zh) zh Faulty.not_fitted
       ++ finish_events.
Proof.
  assert (checked_sheet (E := Faulty.unfitted)
                        (selected_file (Sample.selected "specimens.xlsx")) 3
                        Sample.specimens Faulty.features) as Hs by sheet_checked.
  split; [exact Hs|]. split; [vm_compute; reflexivity|]. split; [reflexivity|].
  refine (proj1 (batch_model_failure (E := Faulty.unfitted)
                   (Sample.selected "specimens.xlsx") 3 Sample.specimens Faulty.features
                   Faulty.scaled Faulty.not_fitted eq_refl Hs _ eq_refl)).
  vm_compute; reflexivity.
Defined.

(** The sheet of the specimens and a model that returns no prediction. *)
Lemma batch_length_mismatch_witness :
  checked_sheet (E := Faulty.mute)
                (selected_file (Sample.selected "specimens.xlsx")) 3 Sample.specimens
                Faulty.features
  /\ model_predict (Collaborators := Faulty.mute) Faulty.scaled = Ok []
  /\ exists e,
       exc e = ValueError
       /\ events_of (batch_predict (E := Faulty.mute)) (Sample.selected "specimens.xlsx")
          = start_events (translations zh)
            ++ loading_events (translations zh) "specimens.xlsx"
            ++ scaling_events (translations zh) Faulty.features
            ++ predicting_events (translations zh) Faulty.scaled
            ++ predicted_events zh
            ++ error_events (translations zh) zh e
            ++ finish_events
       /\ batch_status (snd (batch_predict (E := Faulty.mute)
                                           (Sample.selected "specimens.xlsx")))
          = (error_occurred (translations zh) ++ " " ++ exc_msg e)%string.
Proof.
  assert (checked_sheet (E := Faulty.mute)
                        (selected_file (Sample.selected "specimens.xlsx")) 3
                        Sample.specimens Faulty.features) as Hs by sheet_checked.
  split; [exact Hs|]. split; [reflexivity|].
  refine (batch_length_mismatch (E := Faulty.mute)
            (Sample.selected "specimens.xlsx") 3 Sample.specimens Faulty.features
            Faulty.scaled [] eq_refl Hs _ eq_refl _).
  - vm_compute; reflexivity.
  - simpl. lia.
Defined.

(** The sheet of the specimens and a disk that cannot be written. *)
Lemma batch_write_failure_witness :
  checked_sheet (E := Faulty.locked)
                (selected_file (Sample.selected "specimens.xlsx")) 3 Sample.specimens
                Faulty.features
  /\ to_excel (Collaborators := Faulty.locked) "results/predicted_specimens.xlsx"
              Sample.predicted_specimens
     = Some Faulty.read_only
  /\ batch_status (snd (batch_predict (E := Faulty.locked)
                                      (Sample.selected "specimens.xlsx")))
     = "发生错误: [Errno 13] Permission denied"
  /\ (forall title msg,
        ~ In (ShowInfo title msg)
             (events_of (batch_predict (E := Faulty.locked))
                        (Sample.selected "specimens.xlsx"))).
Proof.
  assert (checked_sheet (E := Faulty.locked)
                        (selected_file (Sample.selected "specimens.xlsx")) 3
                        Sample.specimens Faulty.features) as Hs by sheet_checked.
  split; [exact Hs|]. split; [reflexivity|].
  refine (proj2 (batch_write_failure (E := Faulty.locked)
                   (Sample.selected "specimens.xlsx") 3 Sample.specimens Faulty.features
                   Faulty.scaled [35 # 4; 61 # 4; 35 # 4]%Q
                   "results/predicted_specimens.xlsx" Faulty.read_only
                   eq_refl Hs _ _ eq_refl _ eq_refl eq_refl));
    vm_compute; reflexivity.
Defined.

(** The sheet of the specimens, saved. *)
Lemma batch_saved_witness :
  checked_sheet (selected_file (Sample.selected "specimens.xlsx")) 3 Sample.specimens
                Faulty.features
  /\ In (ShowInfo "成功" "批量预测完成，结果已保存到 results/predicted_specimens.xlsx")
        (events_of batch_predict (Sample.selected "specimens.xlsx"))
  /\ batch_status (snd (batch_predict (Sample.selected "specimens.xlsx")))
     = "开始批量预测...".
Proof.
  assert (checked_sheet (selected_file (Sample.selected "specimens.xlsx")) 3
                        Sample.specimens Faulty.features) as Hs by sheet_checked.
  split; [exact Hs|].
  assert (scaler_transform Faulty.features = Ok Faulty.scaled) as Hsc
    by (vm_compute; reflexivity).
  assert (model_predict Faulty.scaled = Ok [35 # 4; 61 # 4; 35 # 4]%Q) as Hm
    by (vm_compute; reflexivity).
  assert (asksaveasfilename (suggested_name (selected_file (Sample.selected "specimens.xlsx")))
          = "results/predicted_specimens.xlsx") as Ha by (vm_compute; reflexivity).
  destruct (batch_saved (Sample.selected "specimens.xlsx") 3 Sample.specimens
                        Faulty.features Faulty.scaled [35 # 4; 61 # 4; 35 # 4]%Q
                        "results/predicted_specimens.xlsx"
                        eq_refl Hs Hsc Hm eq_refl Ha eq_refl eq_refl) as [Hev Hst].
  split; [|exact Hst].
  rewrite Hev. vm_compute. repeat (first [left; reflexivity | right]).
Defined.

(** The run on the sheet of the specimens ends in one of the three
    ways. *)
Lemma run_outcome_witness :
  (exists save_path df,
      In (ToExcel save_path df) (events_of batch_predict (Sample.selected "specimens.xlsx"))
      /\ to_excel save_path df = None
      /\ In (ShowInfo (success (translations zh))
                      (success_save (translations zh) ++ save_path)%string)
            (events_of batch_predict (Sample.selected "specimens.xlsx"))
      /\ (forall title msg,
            ~ In (ShowError title msg)
                 (events_of batch_predict (Sample.selected "specimens.xlsx"))))
  \/ (batch_status (snd (batch_predict (Sample.selected "specimens.xlsx")))
      = save_cancelled zh
      /\ (forall save_path df,
            ~ In (ToExcel save_path df)
                 (events_of batch_predict (Sample.selected "specimens.xlsx")))
      /\ (forall title msg,
            ~ In (ShowInfo title msg)
                 (events_of batch_predict (Sample.selected "specimens.xlsx")))
      /\ (forall title msg,
            ~ In (ShowError title msg)
                 (events_of batch_predict (Sample.selected "specimens.xlsx"))))
  \/ (exists e,
        In (ShowError (error_title (translations zh))
                      (error_occurred (translations zh) ++ " " ++ exc_msg e)%string)
           (events_of batch_predict (Sample.selected "specimens.xlsx"))
        /\ batch_status (snd (batch_predict (Sample.selected "specimens.xlsx")))
           = (error_occurred (translations zh) ++ " " ++ exc_msg e)%string
        /\ (forall title msg,
              ~ In (ShowInfo title msg)
                   (events_of batch_predict (Sample.selected "specimens.xlsx")))).
Proof.
  exact (run_outcome (Sample.selected "specimens.xlsx") eq_refl).
Defined.

(** A run on the sheet chosen in the open dialog, and the state it
    leaves. *)
Lemma reachable_idle_witness :
  reachable (snd (batch_predict (snd (browse_file initial_world))))
  /\ batch_button_state (snd (batch_predict (snd (browse_file initial_world)))) = normal
  /\ browse_button_state (snd (batch_predict (snd (browse_file initial_world)))) = normal
  /\ progress_running (snd (batch_predict (snd (browse_file initial_world)))) = false.
Proof.
  assert (reachable (snd (batch_predict (snd (browse_file initial_world))))) as Hr
    by (apply reach_batch_predict, reach_browse_file, reach_initial).
  split; [exact Hr|].
  exact (reachable_idle (snd (batch_predict (snd (browse_file initial_world)))) Hr).
Defined.

(** ** The check of the feature columns *)

Section Checks.

Context {float : Type} {E : Collaborators float}.

(** C5, as the code has it: the check is on the dtype of each of the
    first 8 columns.  When one of them is not of a numeric dtype, as is
    every column that holds a text, a date or an empty object, no event
    of the run is a call of the scaler or of the model, and a sheet of 8
    columns at least ends with the message about numeric columns in the
    status line and in an error dialog.  When all of them are of a
    numeric dtype, booleans and NaN included, the sheet passes: the
    scaler is called on its cells as floats. *)
Theorem non_numeric_column_rejected (w : world float) (n : nat)
        (cols : list (Series float)) :
  PyStr.truthy (selected_file w) = true ->
  read_excel (selected_file w) = Ok (n, cols) ->
  (forall j c,
      j < 8 -> nth_error cols j = Some c -> is_numeric_dtype c = false ->
      Forall (fun ev => is_invocation ev = false) (events_of batch_predict w)
      /\ (8 <= length cols ->
          batch_status (snd (batch_predict w))
          = (error_occurred (lang_of w) ++ " "
             ++ exc_msg (non_numeric_column (current_language w)))%string
          /\ In (ShowError (error_title (lang_of w))
                           (error_occurred (lang_of w) ++ " "
                            ++ exc_msg (non_numeric_column (current_language w)))%string)
                (events_of batch_predict w)))
  /\ (forall j i c v,
        nth_error cols j = Some c -> cell c i = Some v -> is_number v = false ->
        is_numeric_dtype c = false)
  /\ (8 <= length cols ->
      (forall j c, j < 8 -> nth_error cols j = Some c -> is_numeric_dtype c = true) ->
      In (ScalerTransform
            (map (fun i => map (fun c => float_of_cell c i) (firstn 8 cols)) (seq 0 n)))
         (events_of batch_predict w)).
Proof.
  intros Hsel Hread. split; [|split].
  - intros j c Hj Hc Hdtype.
    pose proof (first_columns_not_numeric cols j c Hj Hc Hdtype) as Hnum.
    split.
    + destruct (Nat.lt_ge_cases (length cols) 8) as [Hlen|Hlen].
      * apply (rejected_report w (too_few_columns (current_language w))).
        apply (run_rejected w n cols); auto.
      * apply (rejected_report w (non_numeric_column (current_language w))).
        apply (run_rejected w n cols); auto.
    + intro Hlen.
      destruct (rejected_report w (non_numeric_column (current_language w)))
        as (Hs & Hin & _); [|now split].
      apply (run_rejected w n cols); auto.
  - intros j i c v _ Hcell Hv. exact (cell_not_number c i v Hcell Hv).
  - intros Hlen Hall.
    assert (forallb is_numeric_dtype (firstn 8 cols) = true) as Hnum.
    { apply forallb_forall. intros c Hc.
      destruct (In_nth_error _ _ Hc) as [j Hj].
      assert (j < 8) as Hlt.
      { assert (j < length (firstn 8 cols)) as Hl
          by (apply nth_error_Some; rewrite Hj; discriminate).
        rewrite length_firstn in Hl. lia. }
      apply (Hall j c Hlt).
      rewrite nth_error_firstn in Hj.
      now rewrite (proj2 (Nat.ltb_lt _ _) Hlt) in Hj. }
    destruct (feature_rows_numeric n cols Hlen Hnum) as (X & HX & _).
    rewrite <- (feature_rows_cells n cols X HX).
    rewrite (batch_predict_run_events w Hsel).
    rewrite (worker_events_checked w n cols X (conj Hread (conj Hlen (conj Hnum HX)))).
    apply in_or_app. right. apply in_or_app. left. apply in_or_app. right.
    apply in_or_app. left. simpl. tauto.
Qed.

End Checks.

(** A sheet whose failure mode is written in words. *)
Lemma non_numeric_column_rejected_witness :
  PyStr.truthy (selected_file (Sample.selected "worded.xlsx")) = true
  /\ read_excel (selected_file (Sample.selected "worded.xlsx")) = Ok (1, Sample.worded)
  /\ nth_error Sample.worded 1 = Some (Object [ObjStr "pullout"])
  /\ is_numeric_dtype (Object [ObjStr (float := Q) "pullout"]) = false
  /\ Forall (fun ev => is_invocation ev = false)
            (events_of batch_predict (Sample.selected "worded.xlsx"))
  /\ batch_status (snd (batch_predict (Sample.selected "worded.xlsx")))
     = "发生错误: 所有特征列必须为数值型。请检查Excel文件。"%string
  /\ In (ShowError "错误" "发生错误: 所有特征列必须为数值型。请检查Excel文件。")
        (events_of batch_predict (Sample.selected "worded.xlsx")).
Proof.
  do 4 (split; [reflexivity|]).
  destruct (non_numeric_column_rejected (Sample.selected "worded.xlsx") 1 Sample.worded)
    as (Hreject & _); [reflexivity | reflexivity |].
  destruct (Hreject 1 (Object [ObjStr "pullout"])) as (Hquiet & Hreport);
    [lia | reflexivity | reflexivity |].
  split; [exact Hquiet|]. apply Hreport. simpl. lia.
Defined.

(** A sheet with a blank cell and with booleans in its first 8 columns
    is not rejected: the run hands the NaN and the booleans, as 1.0 and
    0.0, to the scaler, calls the model, shows no error dialog and
    writes the table. *)
Lemma blank_and_boolean_cells_reach_scaler :
  read_excel (Collaborators := Blank.collaborators) (selected_file Blank.selected)
  = Ok (2, Blank.gaps)
  /\ cell (nth 0 Blank.gaps (Object [])) 1 = Some (ObjFloat None)
  /\ cell (nth 1 Blank.gaps (Object [])) 0 = Some (ObjBool true)
  /\ In (ScalerTransform Blank.features)
        (events_of (batch_predict (E := Blank.collaborators)) Blank.selected)
  /\ (exists Y, In (ModelPredict Y)
                   (events_of (batch_predict (E := Blank.collaborators)) Blank.selected))
  /\ Forall (fun ev => is_show_error ev = false)
            (events_of (batch_predict (E := Blank.collaborators)) Blank.selected)
  /\ (exists df, In (ToExcel "results/predicted_gaps.xlsx" df)
                    (events_of (batch_predict (E := Blank.collaborators)) Blank.selected)).
Proof.
  split; [reflexivity|]. split; [reflexivity|]. split; [reflexivity|].
  split; [vm_compute; repeat (first [left; reflexivity | right])|].
  split; [eexists; vm_compute; repeat (first [left; reflexivity | right])|].
  split.
  - apply Forall_forall. intros ev Hin.
    assert (forallb (fun ev => negb (is_show_error ev))
                    (events_of (batch_predict (E := Blank.collaborators)) Blank.selected)
            = true) as Hall by (vm_compute; reflexivity).
    rewrite forallb_forall in Hall. apply Hall in Hin.
    now destruct (is_show_error ev).
  - eexists. vm_compute. repeat (first [left; reflexivity | right]).
Qed.
